(** * AIONMECH universal jog pendant: control loop of the ESP32 firmware

    Shallow embedding of [esp32_pendant_serial_universal.ino] (the first
    sketch of the file, "ULP-ESP32 v2.0.0-UNIVERSAL"): the debounced
    inputs, the encoder scaling, the safety gate, the host line decoder
    and the main loop, followed by the properties of the written
    specification that concern them.

    Conventions of the embedding.
    - [unsigned long] values (the [millis()] clock and every timestamp)
      are integers taken modulo 2^32; [usub] and [uadd] write the
      wrap-around out.  [int] and [long] are both 32 bits wide on the
      ESP32; the encoder counters stay far inside that range because the
      position is clamped to +-1000000, so they are plain integers.
    - A [float] value is a [cfloat]: an exact rational in reduced form,
      an infinity or a NaN.  Binary32 rounding, overflow and the sign of
      zero are not represented.
    - Every [digitalRead] and every [millis()] call of a handler is an
      input of that handler, so two reads in the same loop iteration may
      differ.
    - Serial output is a trace of print calls; drawing on the LCD is not
      represented, only the redraw flags are. *)

From Stdlib Require Import ZArith QArith Qabs Bool List String Ascii Lia.
Import ListNotations.
Local Open Scope string_scope.
Local Open Scope list_scope.
Local Open Scope Z_scope.

(** ** [float] values *)

Inductive cfloat : Type :=
| Finite (q : Q)
| Infinite (negative : bool)
| NotANumber.

Coercion Finite : Q >-> cfloat.
Bind Scope Q_scope with cfloat.

(** [a + b] on [float]s. *)
Definition cfloat_add (a b : cfloat) : cfloat :=
  match a, b with
  | NotANumber, _ | _, NotANumber => NotANumber
  | Finite p, Finite q => Finite (Qred (p + q))
  | Infinite n, Finite _ | Finite _, Infinite n => Infinite n
  | Infinite n, Infinite m => if Bool.eqb n m then Infinite n else NotANumber
  end.

(** ** The Arduino [String] operations used by the sketch *)

Module Arduino.

Definition uint (z : Z) : Z := z mod 2 ^ 32.

Definition len (s : string) : Z := Z.of_nat (String.length s).

(** [isspace] of the C locale: blank and the controls 9..13. *)
Definition isspace (c : ascii) : bool :=
  let n := Z.of_nat (nat_of_ascii c) in
  (n =? 32) || ((9 <=? n) && (n <=? 13)).

Fixpoint ltrim (s : string) : string :=
  match s with
  | EmptyString => EmptyString
  | String c r => if isspace c then ltrim r else s
  end.

Fixpoint rtrim (s : string) : string :=
  match s with
  | EmptyString => EmptyString
  | String c r =>
      match rtrim r with
      | EmptyString => if isspace c then EmptyString else String c EmptyString
      | r' => String c r'
      end
  end.

(** [String::trim]. *)
Definition trim (s : string) : string := rtrim (ltrim s).

(** [String::startsWith]. *)
Definition startsWith (p s : string) : bool := String.prefix p s.

Fixpoint drop (n : nat) (s : string) : string :=
  match n, s with
  | O, _ => s
  | S _, EmptyString => EmptyString
  | S k, String _ r => drop k r
  end.

(** [strstr]: offset of the first occurrence. *)
Fixpoint strstr (p s : string) : option nat :=
  if String.prefix p s then Some O
  else match s with
       | EmptyString => None
       | String _ r => option_map S (strstr p r)
       end.

(** [String::indexOf(pattern, fromIndex)]; the index parameter is an
    [unsigned int], the result is -1 when there is no occurrence or when
    the start lies at or beyond the end. *)
Definition indexOf (p : string) (from : Z) (s : string) : Z :=
  let f := uint from in
  if len s <=? f then -1
  else match strstr p (drop (Z.to_nat f) s) with
       | Some k => f + Z.of_nat k
       | None => -1
       end.

(** [String::substring(left, right)] on [unsigned int] bounds: they are
    swapped when out of order and the right one is cut at the end of the
    string. *)
Definition substrU (l0 r0 : Z) (s : string) : string :=
  let l := if r0 <? l0 then r0 else l0 in
  let r := if r0 <? l0 then l0 else r0 in
  if len s <=? l then EmptyString
  else String.substring (Z.to_nat l) (Z.to_nat (Z.min r (len s) - l)) s.

(** Called with [int] arguments, which are converted. *)
Definition substr (left right : Z) (s : string) : string :=
  substrU (uint left) (uint right) s.

(** [String::substring(left)] is [substring(left, len())]. *)
Definition substrFrom (left : Z) (s : string) : string :=
  substrU (uint left) (len s) s.

(** [String::charAt]: 0 beyond the end. *)
Definition charAt (i : Z) (s : string) : ascii :=
  let u := uint i in
  if len s <=? u then zero
  else match String.get (Z.to_nat u) s with Some c => c | None => zero end.

(** [String::replace(" ", "")]. *)
Fixpoint removeSpaces (s : string) : string :=
  match s with
  | EmptyString => EmptyString
  | String c r => if Ascii.eqb c " " then removeSpaces r else String c (removeSpaces r)
  end.

Definition digit_of (c : ascii) : option Z :=
  let n := Z.of_nat (nat_of_ascii c) in
  if (48 <=? n) && (n <=? 57) then Some (n - 48) else None.

(** Longest run of decimal digits: its value (after [acc]), its length and
    what follows it. *)
Fixpoint read_digits (s : string) (acc : Z) (cnt : nat) : Z * nat * string :=
  match s with
  | EmptyString => (acc, cnt, s)
  | String c r =>
      match digit_of c with
      | Some d => read_digits r (10 * acc + d) (S cnt)
      | None => (acc, cnt, s)
      end
  end.

Definition read_sign (s : string) : bool * string :=
  match s with
  | String c r =>
      if Ascii.eqb c "-" then (true, r)
      else if Ascii.eqb c "+" then (false, r)
      else (false, s)
  | EmptyString => (false, s)
  end.

Definition LONG_MAX : Z := 2 ^ 31 - 1.
Definition LONG_MIN : Z := - 2 ^ 31.

(** [String::toInt] is [atol]: leading blanks, an optional sign, then the
    digits; 0 when there is no digit, saturating at the ends of [long]
    as [strtol] does. *)
Definition toInt (s : string) : Z :=
  let '(neg, r) := read_sign (ltrim s) in
  let '(v, _, _) := read_digits r 0 O in
  let x := if neg then - v else v in
  Z.max LONG_MIN (Z.min LONG_MAX x).

Definition pow10 (n : Z) : positive := Z.to_pos (10 ^ n).

(** Optional exponent part [e|E [sign] digits]: a multiplier. *)
Definition read_exponent (s : string) : Q :=
  match s with
  | String c r =>
      if Ascii.eqb c "e" || Ascii.eqb c "E" then
        let '(neg, r1) := read_sign r in
        let '(e, n, _) := read_digits r1 0 O in
        match n with
        | O => 1%Q
        | S _ => if neg then (1 # pow10 e) else (10 ^ e # 1)
        end
      else 1%Q
  | EmptyString => 1%Q
  end.

(** [tolower] on the letters A..Z. *)
Definition lower (c : ascii) : ascii :=
  let n := nat_of_ascii c in
  if (65 <=? n)%nat && (n <=? 90)%nat then ascii_of_nat (n + 32) else c.

(** [p], written in lower case, starts [s] when case is ignored. *)
Fixpoint prefix_nocase (p s : string) : bool :=
  match p with
  | EmptyString => true
  | String a p' =>
      match s with
      | EmptyString => false
      | String b s' => Ascii.eqb a (lower b) && prefix_nocase p' s'
      end
  end.

Definition hex_digit_of (c : ascii) : option Z :=
  match digit_of c with
  | Some d => Some d
  | None =>
      let n := Z.of_nat (nat_of_ascii (lower c)) in
      if (97 <=? n) && (n <=? 102) then Some (n - 87) else None
  end.

Fixpoint read_hex_digits (s : string) (acc : Z) (cnt : nat) : Z * nat * string :=
  match s with
  | EmptyString => (acc, cnt, s)
  | String c r =>
      match hex_digit_of c with
      | Some d => read_hex_digits r (16 * acc + d) (S cnt)
      | None => (acc, cnt, s)
      end
  end.

(** Optional binary exponent [p|P [sign] digits] of a hexadecimal
    number: a multiplier. *)
Definition read_bin_exponent (s : string) : Q :=
  match s with
  | String c r =>
      if Ascii.eqb (lower c) "p" then
        let '(neg, r1) := read_sign r in
        let '(e, n, _) := read_digits r1 0 O in
        match n with
        | O => 1%Q
        | S _ => if neg then (1 # Z.to_pos (2 ^ e)) else (2 ^ e # 1)
        end
      else 1%Q
  | EmptyString => 1%Q
  end.

(** The hexadecimal form [0x h.h p+-d], read after the sign: its value,
    when at least one hexadecimal digit follows the [0x]. *)
Definition read_hex_float (r : string) : option Q :=
  match r with
  | String c0 (String c1 r0) =>
      if Ascii.eqb c0 "0" && Ascii.eqb (lower c1) "x" then
        let '(ip, ni, r1) := read_hex_digits r0 0 O in
        let '(m, nf, r2) :=
          match r1 with
          | String c r' =>
              if Ascii.eqb c "." then read_hex_digits r' ip O else (ip, O, r1)
          | EmptyString => (ip, O, r1)
          end in
        match (ni + nf)%nat with
        | O => None
        | S _ =>
            Some (Qmult (m # Z.to_pos (16 ^ Z.of_nat nf)) (read_bin_exponent r2))
        end
      else None
  | _ => None
  end.

(** The decimal form: integer digits, optional fraction, optional
    exponent; 0 when no digit is found. *)
Definition read_dec_float (r : string) : Q :=
  let '(ip, ni, r1) := read_digits r 0 O in
  let '(m, nf, r2) :=
    match r1 with
    | String c r' => if Ascii.eqb c "." then read_digits r' ip O else (ip, O, r1)
    | EmptyString => (ip, O, r1)
    end in
  match (ni + nf)%nat with
  | O => 0%Q
  | S _ => Qmult (m # pow10 (Z.of_nat nf)) (read_exponent r2)
  end.

(** [String::toFloat] is [atof], that is [strtod]: blanks, an optional
    sign, then [inf] or [infinity], [nan] (any case), a hexadecimal
    number or a decimal number; 0 when none of them is found. *)
Definition toFloat (s : string) : cfloat :=
  let '(neg, r) := read_sign (ltrim s) in
  if prefix_nocase "inf" r then Infinite neg
  else if prefix_nocase "nan" r then NotANumber
  else
    let q := match read_hex_float r with
             | Some h => h
             | None => read_dec_float r
             end in
    Finite (Qred (if neg then Qopp q else q)).

End Arduino.

Import Arduino.

(** ** Enumerations and constants of the sketch *)

Inductive MachineType : Type :=
  MACHINE_FIRECONTROL | MACHINE_CUTCONTROL | MACHINE_MANUAL | MACHINE_MACH3
| MACHINE_MACH4 | MACHINE_LINUXCNC | MACHINE_UCCNC | MACHINE_CARBIDE | MACHINE_UGS.
Inductive AxisType : Type := AXIS_Z | AXIS_Y | AXIS_X.
Inductive SpeedType : Type := SPEED_SLOW | SPEED_MEDIUM | SPEED_FAST.
Inductive JogDistance : Type := JOG_FINE | JOG_SMALL | JOG_MEDIUM | JOG_LARGE.
Inductive FeedRate : Type := FEED_25 | FEED_50 | FEED_75 | FEED_100.
Inductive CoordView : Type := VIEW_WCS | VIEW_MCS.
Inductive MotionState : Type := MS_IDLE | MS_RUN | MS_HOLD.
Inductive CommProtocol : Type :=
  PROTOCOL_LANGMUIR | PROTOCOL_GRBL | PROTOCOL_MACH | PROTOCOL_LINUXCNC.
Inductive EstopState : Type := ESTOP_RELEASED | ESTOP_PRESSED | ESTOP_FAULT.
Inductive PowerState : Type := POWER_ACTIVE | POWER_COUNTDOWN | POWER_SLEEP.
Inductive ViewMode : Type := VIEW_NORMAL | VIEW_HELP.

Scheme Equality for MachineType.
Scheme Equality for MotionState.
Scheme Equality for CommProtocol.
Scheme Equality for EstopState.
Scheme Equality for PowerState.
Scheme Equality for ViewMode.
Scheme Equality for CoordView.
Scheme Equality for AxisType.
Scheme Equality for JogDistance.

(** The casts [(AxisType)((currentAxis + 1) % 3)] and the like go through
    the enumerators' integer values. *)
Definition axis_to_Z (a : AxisType) : Z :=
  match a with AXIS_Z => 0 | AXIS_Y => 1 | AXIS_X => 2 end.
Definition axis_of_Z (z : Z) : AxisType :=
  if z =? 0 then AXIS_Z else if z =? 1 then AXIS_Y else AXIS_X.
Definition speed_to_Z (a : SpeedType) : Z :=
  match a with SPEED_SLOW => 0 | SPEED_MEDIUM => 1 | SPEED_FAST => 2 end.
Definition speed_of_Z (z : Z) : SpeedType :=
  if z =? 0 then SPEED_SLOW else if z =? 1 then SPEED_MEDIUM else SPEED_FAST.
Definition jog_to_Z (a : JogDistance) : Z :=
  match a with JOG_FINE => 0 | JOG_SMALL => 1 | JOG_MEDIUM => 2 | JOG_LARGE => 3 end.
Definition jog_of_Z (z : Z) : JogDistance :=
  if z =? 0 then JOG_FINE else if z =? 1 then JOG_SMALL
  else if z =? 2 then JOG_MEDIUM else JOG_LARGE.
Definition feed_to_Z (a : FeedRate) : Z :=
  match a with FEED_25 => 0 | FEED_50 => 1 | FEED_75 => 2 | FEED_100 => 3 end.
Definition feed_of_Z (z : Z) : FeedRate :=
  if z =? 0 then FEED_25 else if z =? 1 then FEED_50
  else if z =? 2 then FEED_75 else FEED_100.

Definition HOST_TIMEOUT_MS : Z := 3500.
Definition LONG_PRESS_THRESHOLD : Z := 1000.
Definition DEBOUNCE_DELAY : Z := 50.
Definition SLEEP_COUNTDOWN_TIME : Z := 5000.
Definition ESTOP_DEBOUNCE : Z := 100.
Definition HELP_HOLD_TIME : Z := 1500.
Definition FW_VERSION : string := "ULP-ESP32 v2.0.0-UNIVERSAL".

(** [unsigned long] subtraction and addition. *)
Definition usub (a b : Z) : Z := (a - b) mod 2 ^ 32.
Definition uadd (a b : Z) : Z := (a + b) mod 2 ^ 32.

(** ** Serial output trace *)

Inductive Arg : Type :=
| AChar (c : ascii)
| AStr (s : string)
| AInt (z : Z)
| AFloat (q : cfloat).

(** One constructor per [Serial] call.  A [Printf] carries the format
    text without its final newline and the argument values. *)
Inductive Out : Type :=
| Print (s : string)
| Println (s : string)
| PrintlnFloat (q : Q) (digits : Z)
| Printf (fmt : string) (args : list Arg)
| WriteByte (b : Z).

(** ** Device state: the globals of the sketch, grouped as in the data
    model ([estop_last], [b1_last] and so on are the function-local
    statics of the handlers) *)

Record XYZ : Type := MkXYZ { x : cfloat; y : cfloat; z : cfloat }.

Record EncoderState : Type := MkEncoderState {
  encAedges : Z;
  encoderPosition : Z;
  lastEncoderPos : Z;
  encoderScale : Z;
  scaledEncoderPosition : Z;
  isr_last_us : Z
}.

Record SafetyState : Type := MkSafetyState {
  hostArmed : bool;
  lastHostPing : Z;
  hostMotionState : MotionState;
  currentEstopState : EstopState;
  estopPressed : bool;
  estopPressTime : Z;
  systemLocked : bool;
  estop_last : bool;
  estop_dbT : Z
}.

Record PendantState : Type := MkPendantState {
  currentMachine : MachineType;
  currentProtocol : CommProtocol;
  currentAxis : AxisType;
  currentSpeed : SpeedType;
  currentJogDistance : JogDistance;
  currentFeedRate : FeedRate;
  coordView : CoordView;
  viewLockedByHost : bool;
  activeWCS : string;
  useImperialUnits : bool;
  softwareConnected : bool;
  currentViewMode : ViewMode
}.

Record ButtonState : Type := MkButtonState {
  btn1PressTime : Z;
  btn2PressTime : Z;
  button1Pressed : bool;
  button1Processed : bool;
  button2Pressed : bool;
  button2Processed : bool;
  b1_last : bool;
  b1_dbT : Z;
  b2_last : bool;
  b2_dbT : Z;
  bothButtonsHeld : bool;
  bothButtonsTime : Z
}.

Record PowerCtl : Type := MkPowerCtl {
  currentPowerState : PowerState;
  lastToggleState : bool;
  sleepCountdownStart : Z;
  sleepCountdown : Z;
  lastActivityTime : Z
}.

Record HostPositionSnapshot : Type := MkHostPositionSnapshot {
  xPosition : cfloat;
  yPosition : cfloat;
  zPosition : cfloat;
  hostWCS : XYZ;
  hostMCS : XYZ;
  tHostWCS : Z;
  tHostMCS : Z;
  offG54 : XYZ;
  offG55 : XYZ;
  offG56 : XYZ;
  offG57 : XYZ;
  offG58 : XYZ;
  offG59 : XYZ
}.

Record SerialPort : Type := MkSerialPort {
  serial_rx : list string
}.

Record DisplayState : Type := MkDisplayState {
  bgR : Z;
  bgG : Z;
  bgB : Z;
  useRGBWheel : bool;
  rgbHue : cfloat;
  needsFullRedraw : bool;
  needsAxisRedraw : bool;
  needsStatusRedraw : bool;
  lastPosRedraw : Z;
  lastUI : Z
}.

Record State : Type := MkState {
  enc : EncoderState;
  safety : SafetyState;
  sel : PendantState;
  btn : ButtonState;
  pwr : PowerCtl;
  pos : HostPositionSnapshot;
  port : SerialPort;
  ui : DisplayState
}.

Definition with_enc (f : EncoderState -> EncoderState) (s : State) : State :=
  MkState (f (enc s)) (safety s) (sel s) (btn s) (pwr s) (pos s) (port s) (ui s).

Definition with_safety (f : SafetyState -> SafetyState) (s : State) : State :=
  MkState (enc s) (f (safety s)) (sel s) (btn s) (pwr s) (pos s) (port s) (ui s).

Definition with_sel (f : PendantState -> PendantState) (s : State) : State :=
  MkState (enc s) (safety s) (f (sel s)) (btn s) (pwr s) (pos s) (port s) (ui s).

Definition with_btn (f : ButtonState -> ButtonState) (s : State) : State :=
  MkState (enc s) (safety s) (sel s) (f (btn s)) (pwr s) (pos s) (port s) (ui s).

Definition with_pwr (f : PowerCtl -> PowerCtl) (s : State) : State :=
  MkState (enc s) (safety s) (sel s) (btn s) (f (pwr s)) (pos s) (port s) (ui s).

Definition with_pos (f : HostPositionSnapshot -> HostPositionSnapshot) (s : State) : State :=
  MkState (enc s) (safety s) (sel s) (btn s) (pwr s) (f (pos s)) (port s) (ui s).

Definition with_port (f : SerialPort -> SerialPort) (s : State) : State :=
  MkState (enc s) (safety s) (sel s) (btn s) (pwr s) (pos s) (f (port s)) (ui s).

Definition with_ui (f : DisplayState -> DisplayState) (s : State) : State :=
  MkState (enc s) (safety s) (sel s) (btn s) (pwr s) (pos s) (port s) (f (ui s)).

Definition set_encAedges (v : Z) : State -> State :=
  with_enc (fun r => MkEncoderState v (encoderPosition r) (lastEncoderPos r) (encoderScale r) (scaledEncoderPosition r) (isr_last_us r)).
Definition set_encoderPosition (v : Z) : State -> State :=
  with_enc (fun r => MkEncoderState (encAedges r) v (lastEncoderPos r) (encoderScale r) (scaledEncoderPosition r) (isr_last_us r)).
Definition set_lastEncoderPos (v : Z) : State -> State :=
  with_enc (fun r => MkEncoderState (encAedges r) (encoderPosition r) v (encoderScale r) (scaledEncoderPosition r) (isr_last_us r)).
Definition set_encoderScale (v : Z) : State -> State :=
  with_enc (fun r => MkEncoderState (encAedges r) (encoderPosition r) (lastEncoderPos r) v (scaledEncoderPosition r) (isr_last_us r)).
Definition set_scaledEncoderPosition (v : Z) : State -> State :=
  with_enc (fun r => MkEncoderState (encAedges r) (encoderPosition r) (lastEncoderPos r) (encoderScale r) v (isr_last_us r)).
Definition set_isr_last_us (v : Z) : State -> State :=
  with_enc (fun r => MkEncoderState (encAedges r) (encoderPosition r) (lastEncoderPos r) (encoderScale r) (scaledEncoderPosition r) v).

Definition set_hostArmed (v : bool) : State -> State :=
  with_safety (fun r => MkSafetyState v (lastHostPing r) (hostMotionState r) (currentEstopState r) (estopPressed r) (estopPressTime r) (systemLocked r) (estop_last r) (estop_dbT r)).
Definition set_lastHostPing (v : Z) : State -> State :=
  with_safety (fun r => MkSafetyState (hostArmed r) v (hostMotionState r) (currentEstopState r) (estopPressed r) (estopPressTime r) (systemLocked r) (estop_last r) (estop_dbT r)).
Definition set_hostMotionState (v : MotionState) : State -> State :=
  with_safety (fun r => MkSafetyState (hostArmed r) (lastHostPing r) v (currentEstopState r) (estopPressed r) (estopPressTime r) (systemLocked r) (estop_last r) (estop_dbT r)).
Definition set_currentEstopState (v : EstopState) : State -> State :=
  with_safety (fun r => MkSafetyState (hostArmed r) (lastHostPing r) (hostMotionState r) v (estopPressed r) (estopPressTime r) (systemLocked r) (estop_last r) (estop_dbT r)).
Definition set_estopPressed (v : bool) : State -> State :=
  with_safety (fun r => MkSafetyState (hostArmed r) (lastHostPing r) (hostMotionState r) (currentEstopState r) v (estopPressTime r) (systemLocked r) (estop_last r) (estop_dbT r)).
Definition set_estopPressTime (v : Z) : State -> State :=
  with_safety (fun r => MkSafetyState (hostArmed r) (lastHostPing r) (hostMotionState r) (currentEstopState r) (estopPressed r) v (systemLocked r) (estop_last r) (estop_dbT r)).
Definition set_systemLocked (v : bool) : State -> State :=
  with_safety (fun r => MkSafetyState (hostArmed r) (lastHostPing r) (hostMotionState r) (currentEstopState r) (estopPressed r) (estopPressTime r) v (estop_last r) (estop_dbT r)).
Definition set_estop_last (v : bool) : State -> State :=
  with_safety (fun r => MkSafetyState (hostArmed r) (lastHostPing r) (hostMotionState r) (currentEstopState r) (estopPressed r) (estopPressTime r) (systemLocked r) v (estop_dbT r)).
Definition set_estop_dbT (v : Z) : State -> State :=
  with_safety (fun r => MkSafetyState (hostArmed r) (lastHostPing r) (hostMotionState r) (currentEstopState r) (estopPressed r) (estopPressTime r) (systemLocked r) (estop_last r) v).

Definition set_currentMachine (v : MachineType) : State -> State :=
  with_sel (fun r => MkPendantState v (currentProtocol r) (currentAxis r) (currentSpeed r) (currentJogDistance r) (currentFeedRate r) (coordView r) (viewLockedByHost r) (activeWCS r) (useImperialUnits r) (softwareConnected r) (currentViewMode r)).
Definition set_currentProtocol (v : CommProtocol) : State -> State :=
  with_sel (fun r => MkPendantState (currentMachine r) v (currentAxis r) (currentSpeed r) (currentJogDistance r) (currentFeedRate r) (coordView r) (viewLockedByHost r) (activeWCS r) (useImperialUnits r) (softwareConnected r) (currentViewMode r)).
Definition set_currentAxis (v : AxisType) : State -> State :=
  with_sel (fun r => MkPendantState (currentMachine r) (currentProtocol r) v (currentSpeed r) (currentJogDistance r) (currentFeedRate r) (coordView r) (viewLockedByHost r) (activeWCS r) (useImperialUnits r) (softwareConnected r) (currentViewMode r)).
Definition set_currentSpeed (v : SpeedType) : State -> State :=
  with_sel (fun r => MkPendantState (currentMachine r) (currentProtocol r) (currentAxis r) v (currentJogDistance r) (currentFeedRate r) (coordView r) (viewLockedByHost r) (activeWCS r) (useImperialUnits r) (softwareConnected r) (currentViewMode r)).
Definition set_currentJogDistance (v : JogDistance) : State -> State :=
  with_sel (fun r => MkPendantState (currentMachine r) (currentProtocol r) (currentAxis r) (currentSpeed r) v (currentFeedRate r) (coordView r) (viewLockedByHost r) (activeWCS r) (useImperialUnits r) (softwareConnected r) (currentViewMode r)).
Definition set_currentFeedRate (v : FeedRate) : State -> State :=
  with_sel (fun r => MkPendantState (currentMachine r) (currentProtocol r) (currentAxis r) (currentSpeed r) (currentJogDistance r) v (coordView r) (viewLockedByHost r) (activeWCS r) (useImperialUnits r) (softwareConnected r) (currentViewMode r)).
Definition set_coordView (v : CoordView) : State -> State :=
  with_sel (fun r => MkPendantState (currentMachine r) (currentProtocol r) (currentAxis r) (currentSpeed r) (currentJogDistance r) (currentFeedRate r) v (viewLockedByHost r) (activeWCS r) (useImperialUnits r) (softwareConnected r) (currentViewMode r)).
Definition set_viewLockedByHost (v : bool) : State -> State :=
  with_sel (fun r => MkPendantState (currentMachine r) (currentProtocol r) (currentAxis r) (currentSpeed r) (currentJogDistance r) (currentFeedRate r) (coordView r) v (activeWCS r) (useImperialUnits r) (softwareConnected r) (currentViewMode r)).
Definition set_activeWCS (v : string) : State -> State :=
  with_sel (fun r => MkPendantState (currentMachine r) (currentProtocol r) (currentAxis r) (currentSpeed r) (currentJogDistance r) (currentFeedRate r) (coordView r) (viewLockedByHost r) v (useImperialUnits r) (softwareConnected r) (currentViewMode r)).
Definition set_useImperialUnits (v : bool) : State -> State :=
  with_sel (fun r => MkPendantState (currentMachine r) (currentProtocol r) (currentAxis r) (currentSpeed r) (currentJogDistance r) (currentFeedRate r) (coordView r) (viewLockedByHost r) (activeWCS r) v (softwareConnected r) (currentViewMode r)).
Definition set_softwareConnected (v : bool) : State -> State :=
  with_sel (fun r => MkPendantState (currentMachine r) (currentProtocol r) (currentAxis r) (currentSpeed r) (currentJogDistance r) (currentFeedRate r) (coordView r) (viewLockedByHost r) (activeWCS r) (useImperialUnits r) v (currentViewMode r)).
Definition set_currentViewMode (v : ViewMode) : State -> State :=
  with_sel (fun r => MkPendantState (currentMachine r) (currentProtocol r) (currentAxis r) (currentSpeed r) (currentJogDistance r) (currentFeedRate r) (coordView r) (viewLockedByHost r) (activeWCS r) (useImperialUnits r) (softwareConnected r) v).

Definition set_btn1PressTime (v : Z) : State -> State :=
  with_btn (fun r => MkButtonState v (btn2PressTime r) (button1Pressed r) (button1Processed r) (button2Pressed r) (button2Processed r) (b1_last r) (b1_dbT r) (b2_last r) (b2_dbT r) (bothButtonsHeld r) (bothButtonsTime r)).
Definition set_btn2PressTime (v : Z) : State -> State :=
  with_btn (fun r => MkButtonState (btn1PressTime r) v (button1Pressed r) (button1Processed r) (button2Pressed r) (button2Processed r) (b1_last r) (b1_dbT r) (b2_last r) (b2_dbT r) (bothButtonsHeld r) (bothButtonsTime r)).
Definition set_button1Pressed (v : bool) : State -> State :=
  with_btn (fun r => MkButtonState (btn1PressTime r) (btn2PressTime r) v (button1Processed r) (button2Pressed r) (button2Processed r) (b1_last r) (b1_dbT r) (b2_last r) (b2_dbT r) (bothButtonsHeld r) (bothButtonsTime r)).
Definition set_button1Processed (v : bool) : State -> State :=
  with_btn (fun r => MkButtonState (btn1PressTime r) (btn2PressTime r) (button1Pressed r) v (button2Pressed r) (button2Processed r) (b1_last r) (b1_dbT r) (b2_last r) (b2_dbT r) (bothButtonsHeld r) (bothButtonsTime r)).
Definition set_button2Pressed (v : bool) : State -> State :=
  with_btn (fun r => MkButtonState (btn1PressTime r) (btn2PressTime r) (button1Pressed r) (button1Processed r) v (button2Processed r) (b1_last r) (b1_dbT r) (b2_last r) (b2_dbT r) (bothButtonsHeld r) (bothButtonsTime r)).
Definition set_button2Processed (v : bool) : State -> State :=
  with_btn (fun r => MkButtonState (btn1PressTime r) (btn2PressTime r) (button1Pressed r) (button1Processed r) (button2Pressed r) v (b1_last r) (b1_dbT r) (b2_last r) (b2_dbT r) (bothButtonsHeld r) (bothButtonsTime r)).
Definition set_b1_last (v : bool) : State -> State :=
  with_btn (fun r => MkButtonState (btn1PressTime r) (btn2PressTime r) (button1Pressed r) (button1Processed r) (button2Pressed r) (button2Processed r) v (b1_dbT r) (b2_last r) (b2_dbT r) (bothButtonsHeld r) (bothButtonsTime r)).
Definition set_b1_dbT (v : Z) : State -> State :=
  with_btn (fun r => MkButtonState (btn1PressTime r) (btn2PressTime r) (button1Pressed r) (button1Processed r) (button2Pressed r) (button2Processed r) (b1_last r) v (b2_last r) (b2_dbT r) (bothButtonsHeld r) (bothButtonsTime r)).
Definition set_b2_last (v : bool) : State -> State :=
  with_btn (fun r => MkButtonState (btn1PressTime r) (btn2PressTime r) (button1Pressed r) (button1Processed r) (button2Pressed r) (button2Processed r) (b1_last r) (b1_dbT r) v (b2_dbT r) (bothButtonsHeld r) (bothButtonsTime r)).
Definition set_b2_dbT (v : Z) : State -> State :=
  with_btn (fun r => MkButtonState (btn1PressTime r) (btn2PressTime r) (button1Pressed r) (button1Processed r) (button2Pressed r) (button2Processed r) (b1_last r) (b1_dbT r) (b2_last r) v (bothButtonsHeld r) (bothButtonsTime r)).
Definition set_bothButtonsHeld (v : bool) : State -> State :=
  with_btn (fun r => MkButtonState (btn1PressTime r) (btn2PressTime r) (button1Pressed r) (button1Processed r) (button2Pressed r) (button2Processed r) (b1_last r) (b1_dbT r) (b2_last r) (b2_dbT r) v (bothButtonsTime r)).
Definition set_bothButtonsTime (v : Z) : State -> State :=
  with_btn (fun r => MkButtonState (btn1PressTime r) (btn2PressTime r) (button1Pressed r) (button1Processed r) (button2Pressed r) (button2Processed r) (b1_last r) (b1_dbT r) (b2_last r) (b2_dbT r) (bothButtonsHeld r) v).

Definition set_currentPowerState (v : PowerState) : State -> State :=
  with_pwr (fun r => MkPowerCtl v (lastToggleState r) (sleepCountdownStart r) (sleepCountdown r) (lastActivityTime r)).
Definition set_lastToggleState (v : bool) : State -> State :=
  with_pwr (fun r => MkPowerCtl (currentPowerState r) v (sleepCountdownStart r) (sleepCountdown r) (lastActivityTime r)).
Definition set_sleepCountdownStart (v : Z) : State -> State :=
  with_pwr (fun r => MkPowerCtl (currentPowerState r) (lastToggleState r) v (sleepCountdown r) (lastActivityTime r)).
Definition set_sleepCountdown (v : Z) : State -> State :=
  with_pwr (fun r => MkPowerCtl (currentPowerState r) (lastToggleState r) (sleepCountdownStart r) v (lastActivityTime r)).
Definition set_lastActivityTime (v : Z) : State -> State :=
  with_pwr (fun r => MkPowerCtl (currentPowerState r) (lastToggleState r) (sleepCountdownStart r) (sleepCountdown r) v).

Definition set_xPosition (v : cfloat) : State -> State :=
  with_pos (fun r => MkHostPositionSnapshot v (yPosition r) (zPosition r) (hostWCS r) (hostMCS r) (tHostWCS r) (tHostMCS r) (offG54 r) (offG55 r) (offG56 r) (offG57 r) (offG58 r) (offG59 r)).
Definition set_yPosition (v : cfloat) : State -> State :=
  with_pos (fun r => MkHostPositionSnapshot (xPosition r) v (zPosition r) (hostWCS r) (hostMCS r) (tHostWCS r) (tHostMCS r) (offG54 r) (offG55 r) (offG56 r) (offG57 r) (offG58 r) (offG59 r)).
Definition set_zPosition (v : cfloat) : State -> State :=
  with_pos (fun r => MkHostPositionSnapshot (xPosition r) (yPosition r) v (hostWCS r) (hostMCS r) (tHostWCS r) (tHostMCS r) (offG54 r) (offG55 r) (offG56 r) (offG57 r) (offG58 r) (offG59 r)).
Definition set_hostWCS (v : XYZ) : State -> State :=
  with_pos (fun r => MkHostPositionSnapshot (xPosition r) (yPosition r) (zPosition r) v (hostMCS r) (tHostWCS r) (tHostMCS r) (offG54 r) (offG55 r) (offG56 r) (offG57 r) (offG58 r) (offG59 r)).
Definition set_hostMCS (v : XYZ) : State -> State :=
  with_pos (fun r => MkHostPositionSnapshot (xPosition r) (yPosition r) (zPosition r) (hostWCS r) v (tHostWCS r) (tHostMCS r) (offG54 r) (offG55 r) (offG56 r) (offG57 r) (offG58 r) (offG59 r)).
Definition set_tHostWCS (v : Z) : State -> State :=
  with_pos (fun r => MkHostPositionSnapshot (xPosition r) (yPosition r) (zPosition r) (hostWCS r) (hostMCS r) v (tHostMCS r) (offG54 r) (offG55 r) (offG56 r) (offG57 r) (offG58 r) (offG59 r)).
Definition set_tHostMCS (v : Z) : State -> State :=
  with_pos (fun r => MkHostPositionSnapshot (xPosition r) (yPosition r) (zPosition r) (hostWCS r) (hostMCS r) (tHostWCS r) v (offG54 r) (offG55 r) (offG56 r) (offG57 r) (offG58 r) (offG59 r)).
Definition set_offG54 (v : XYZ) : State -> State :=
  with_pos (fun r => MkHostPositionSnapshot (xPosition r) (yPosition r) (zPosition r) (hostWCS r) (hostMCS r) (tHostWCS r) (tHostMCS r) v (offG55 r) (offG56 r) (offG57 r) (offG58 r) (offG59 r)).
Definition set_offG55 (v : XYZ) : State -> State :=
  with_pos (fun r => MkHostPositionSnapshot (xPosition r) (yPosition r) (zPosition r) (hostWCS r) (hostMCS r) (tHostWCS r) (tHostMCS r) (offG54 r) v (offG56 r) (offG57 r) (offG58 r) (offG59 r)).
Definition set_offG56 (v : XYZ) : State -> State :=
  with_pos (fun r => MkHostPositionSnapshot (xPosition r) (yPosition r) (zPosition r) (hostWCS r) (hostMCS r) (tHostWCS r) (tHostMCS r) (offG54 r) (offG55 r) v (offG57 r) (offG58 r) (offG59 r)).
Definition set_offG57 (v : XYZ) : State -> State :=
  with_pos (fun r => MkHostPositionSnapshot (xPosition r) (yPosition r) (zPosition r) (hostWCS r) (hostMCS r) (tHostWCS r) (tHostMCS r) (offG54 r) (offG55 r) (offG56 r) v (offG58 r) (offG59 r)).
Definition set_offG58 (v : XYZ) : State -> State :=
  with_pos (fun r => MkHostPositionSnapshot (xPosition r) (yPosition r) (zPosition r) (hostWCS r) (hostMCS r) (tHostWCS r) (tHostMCS r) (offG54 r) (offG55 r) (offG56 r) (offG57 r) v (offG59 r)).
Definition set_offG59 (v : XYZ) : State -> State :=
  with_pos (fun r => MkHostPositionSnapshot (xPosition r) (yPosition r) (zPosition r) (hostWCS r) (hostMCS r) (tHostWCS r) (tHostMCS r) (offG54 r) (offG55 r) (offG56 r) (offG57 r) (offG58 r) v).

Definition set_serial_rx (v : list string) : State -> State :=
  with_port (fun r => MkSerialPort v).

Definition set_bgR (v : Z) : State -> State :=
  with_ui (fun r => MkDisplayState v (bgG r) (bgB r) (useRGBWheel r) (rgbHue r) (needsFullRedraw r) (needsAxisRedraw r) (needsStatusRedraw r) (lastPosRedraw r) (lastUI r)).
Definition set_bgG (v : Z) : State -> State :=
  with_ui (fun r => MkDisplayState (bgR r) v (bgB r) (useRGBWheel r) (rgbHue r) (needsFullRedraw r) (needsAxisRedraw r) (needsStatusRedraw r) (lastPosRedraw r) (lastUI r)).
Definition set_bgB (v : Z) : State -> State :=
  with_ui (fun r => MkDisplayState (bgR r) (bgG r) v (useRGBWheel r) (rgbHue r) (needsFullRedraw r) (needsAxisRedraw r) (needsStatusRedraw r) (lastPosRedraw r) (lastUI r)).
Definition set_useRGBWheel (v : bool) : State -> State :=
  with_ui (fun r => MkDisplayState (bgR r) (bgG r) (bgB r) v (rgbHue r) (needsFullRedraw r) (needsAxisRedraw r) (needsStatusRedraw r) (lastPosRedraw r) (lastUI r)).
Definition set_rgbHue (v : cfloat) : State -> State :=
  with_ui (fun r => MkDisplayState (bgR r) (bgG r) (bgB r) (useRGBWheel r) v (needsFullRedraw r) (needsAxisRedraw r) (needsStatusRedraw r) (lastPosRedraw r) (lastUI r)).
Definition set_needsFullRedraw (v : bool) : State -> State :=
  with_ui (fun r => MkDisplayState (bgR r) (bgG r) (bgB r) (useRGBWheel r) (rgbHue r) v (needsAxisRedraw r) (needsStatusRedraw r) (lastPosRedraw r) (lastUI r)).
Definition set_needsAxisRedraw (v : bool) : State -> State :=
  with_ui (fun r => MkDisplayState (bgR r) (bgG r) (bgB r) (useRGBWheel r) (rgbHue r) (needsFullRedraw r) v (needsStatusRedraw r) (lastPosRedraw r) (lastUI r)).
Definition set_needsStatusRedraw (v : bool) : State -> State :=
  with_ui (fun r => MkDisplayState (bgR r) (bgG r) (bgB r) (useRGBWheel r) (rgbHue r) (needsFullRedraw r) (needsAxisRedraw r) v (lastPosRedraw r) (lastUI r)).
Definition set_lastPosRedraw (v : Z) : State -> State :=
  with_ui (fun r => MkDisplayState (bgR r) (bgG r) (bgB r) (useRGBWheel r) (rgbHue r) (needsFullRedraw r) (needsAxisRedraw r) (needsStatusRedraw r) v (lastUI r)).
Definition set_lastUI (v : Z) : State -> State :=
  with_ui (fun r => MkDisplayState (bgR r) (bgG r) (bgB r) (useRGBWheel r) (rgbHue r) (needsFullRedraw r) (needsAxisRedraw r) (needsStatusRedraw r) (lastPosRedraw r) v).

(** Projections of updated states reduce with the setters alone; the
    arithmetic is left as it stands. *)
Ltac st :=
  cbn [
    fst snd negb xorb andb orb implb x y z enc with_enc encAedges
    set_encAedges encoderPosition set_encoderPosition lastEncoderPos
    set_lastEncoderPos encoderScale set_encoderScale scaledEncoderPosition
    set_scaledEncoderPosition isr_last_us set_isr_last_us safety with_safety
    hostArmed set_hostArmed lastHostPing set_lastHostPing hostMotionState
    set_hostMotionState currentEstopState set_currentEstopState estopPressed
    set_estopPressed estopPressTime set_estopPressTime systemLocked
    set_systemLocked estop_last set_estop_last estop_dbT set_estop_dbT sel
    with_sel currentMachine set_currentMachine currentProtocol
    set_currentProtocol currentAxis set_currentAxis currentSpeed
    set_currentSpeed currentJogDistance set_currentJogDistance
    currentFeedRate set_currentFeedRate coordView set_coordView
    viewLockedByHost set_viewLockedByHost activeWCS set_activeWCS
    useImperialUnits set_useImperialUnits softwareConnected
    set_softwareConnected currentViewMode set_currentViewMode btn with_btn
    btn1PressTime set_btn1PressTime btn2PressTime set_btn2PressTime
    button1Pressed set_button1Pressed button1Processed set_button1Processed
    button2Pressed set_button2Pressed button2Processed set_button2Processed
    b1_last set_b1_last b1_dbT set_b1_dbT b2_last set_b2_last b2_dbT
    set_b2_dbT bothButtonsHeld set_bothButtonsHeld bothButtonsTime
    set_bothButtonsTime pwr with_pwr currentPowerState set_currentPowerState
    lastToggleState set_lastToggleState sleepCountdownStart
    set_sleepCountdownStart sleepCountdown set_sleepCountdown
    lastActivityTime set_lastActivityTime pos with_pos xPosition
    set_xPosition yPosition set_yPosition zPosition set_zPosition hostWCS
    set_hostWCS hostMCS set_hostMCS tHostWCS set_tHostWCS tHostMCS
    set_tHostMCS offG54 set_offG54 offG55 set_offG55 offG56 set_offG56 offG57
    set_offG57 offG58 set_offG58 offG59 set_offG59 port with_port serial_rx
    set_serial_rx ui with_ui bgR set_bgR bgG set_bgG bgB set_bgB useRGBWheel
    set_useRGBWheel rgbHue set_rgbHue needsFullRedraw set_needsFullRedraw
    needsAxisRedraw set_needsAxisRedraw needsStatusRedraw
    set_needsStatusRedraw lastPosRedraw set_lastPosRedraw lastUI set_lastUI
  ] in *.
Definition xyz0 : XYZ := MkXYZ 0 0 0.

(** State when [setup] returns: the initialisers of the globals, and the
    full redraw done. *)
Definition initState : State :=
  MkState
    (MkEncoderState 0 0 0 1 0 0)
    (MkSafetyState false 0 MS_IDLE ESTOP_RELEASED false 0 false false 0)
    (MkPendantState MACHINE_FIRECONTROL PROTOCOL_LANGMUIR AXIS_Z SPEED_MEDIUM
       JOG_SMALL FEED_50 VIEW_WCS false "G54" false false VIEW_NORMAL)
    (MkButtonState 0 0 false false false false false 0 false 0 false 0)
    (MkPowerCtl POWER_ACTIVE true 0 0 0)
    (MkHostPositionSnapshot 0 0 0 xyz0 xyz0 0 0 xyz0 xyz0 xyz0 xyz0 xyz0 xyz0)
    (MkSerialPort [])
    (MkDisplayState 0 0 0 false 0 false false false 0 0).

(** ** Helpers of the sketch *)

Definition requestFullRedraw (s : State) : State := set_needsFullRedraw true s.

(** [doFullRedraw]: the drawing itself leaves the modelled state alone. *)
Definition doFullRedraw (s : State) : State := set_needsFullRedraw false s.

(** A decimal literal [m * 10^-d] of the source. *)
Definition dec (m : Z) (d : Z) : Q := Qred (m # pow10 d).

Definition getMachineName (s : State) : string :=
  match currentMachine (sel s) with
  | MACHINE_FIRECONTROL => "FIRECONTROL"
  | MACHINE_CUTCONTROL => "CUTCONTROL"
  | MACHINE_MACH3 => "MACH3"
  | MACHINE_MACH4 => "MACH4"
  | MACHINE_LINUXCNC => "LINUXCNC"
  | MACHINE_UCCNC => "UCCNC"
  | MACHINE_CARBIDE => "CARBIDE"
  | MACHINE_UGS => "UGS"
  | MACHINE_MANUAL => "MANUAL"
  end.

Definition getFeedRatePercent (s : State) : string :=
  match currentFeedRate (sel s) with
  | FEED_25 => "25%"
  | FEED_50 => "50%"
  | FEED_75 => "75%"
  | FEED_100 => "100%"
  end.

Definition getJogDistanceValue (s : State) : Q :=
  let fire := MachineType_beq (currentMachine (sel s)) MACHINE_FIRECONTROL in
  if useImperialUnits (sel s) then
    if fire then
      match currentJogDistance (sel s) with
      | JOG_FINE => dec 5 4 | JOG_SMALL => dec 1 3
      | JOG_MEDIUM => dec 1 2 | JOG_LARGE => dec 1 1
      end
    else
      match currentJogDistance (sel s) with
      | JOG_FINE => dec 4 3 | JOG_SMALL => dec 39 3
      | JOG_MEDIUM => dec 394 3 | JOG_LARGE => dec 3937 3
      end
  else
    if fire then
      match currentJogDistance (sel s) with
      | JOG_FINE => dec 125 4 | JOG_SMALL => dec 25 3
      | JOG_MEDIUM => dec 25 2 | JOG_LARGE => dec 25 1
      end
    else
      match currentJogDistance (sel s) with
      | JOG_FINE => dec 1 1 | JOG_SMALL => dec 10 1
      | JOG_MEDIUM => dec 100 1 | JOG_LARGE => dec 1000 1
      end.

Definition hostWCSFresh (now : Z) (s : State) : bool :=
  usub now (tHostWCS (pos s)) <=? 1200.
Definition hostMCSFresh (now : Z) (s : State) : bool :=
  usub now (tHostMCS (pos s)) <=? 1200.

(** The three-part gate written out in [handleEncoder], [handleButton1]
    and the display code. *)
Definition hostGate (now : Z) (s : State) : bool :=
  hostArmed (safety s)
  && (usub now (lastHostPing (safety s)) <=? HOST_TIMEOUT_MS)
  && MotionState_beq (hostMotionState (safety s)) MS_IDLE.

Definition estopReleased (s : State) : bool :=
  EstopState_beq (currentEstopState (safety s)) ESTOP_RELEASED.

(** ** Protocol encoder *)

Definition sendUniversalEstopCommand (estopActive : bool) (s : State)
  : State * list Out :=
  if estopActive then
    (set_systemLocked true s,
     match currentProtocol (sel s) with
     | PROTOCOL_LANGMUIR => [Println "ESTOP:ACTIVE"; Println "PAUSE"]
     | PROTOCOL_GRBL => [WriteByte 133; Println "!"; Println "$X"]
     | PROTOCOL_MACH => [Println "G80"; Println "M0"]
     | PROTOCOL_LINUXCNC => [Println "M1"; Println "G80"]
     end ++ [Println "ESTOP:PRESSED"])
  else
    (set_systemLocked false s,
     match currentProtocol (sel s) with
     | PROTOCOL_GRBL => [Println "$X"; Println "~"]
     | _ => []
     end ++ [Println "ESTOP:RELEASED"]).

Definition speedPick (s : State) (slow fast other : Z) : Z :=
  match currentSpeed (sel s) with
  | SPEED_SLOW => slow
  | SPEED_FAST => fast
  | SPEED_MEDIUM => other
  end.

Definition sendUniversalJogCommand (axis : ascii) (positive : bool)
    (distance : Q) (s : State) : list Out :=
  if systemLocked (safety s) || negb (estopReleased s) then
    [Println "ESTOP:MOTION_BLOCKED"]
  else
    let sign : ascii := if positive then "+"%char else "-"%char in
    let signed := if positive then distance else Qopp distance in
    match currentProtocol (sel s) with
    | PROTOCOL_LANGMUIR =>
        [Printf "JOG:%c,%c%.4f" [AChar axis; AChar sign; AFloat distance];
         Printf "MOVE:%c,%c%.4f%s"
           [AChar axis; AChar sign; AFloat distance;
            AStr (if useImperialUnits (sel s) then "IN" else "MM")]]
    | PROTOCOL_GRBL =>
        [Printf "$J=G91G1%c%.4fF%d"
           [AChar axis; AFloat signed; AInt (speedPick s 500 2000 1000)]]
    | PROTOCOL_MACH =>
        [Printf "G91G1%c%.4fF%d"
           [AChar axis; AFloat signed; AInt (speedPick s 100 1000 500)]]
    | PROTOCOL_LINUXCNC =>
        [Printf "G91 G1 %c%.4f F%d"
           [AChar axis; AFloat signed; AInt (speedPick s 100 1000 500)]]
    end.

Definition sendKeyCommand (command : string) : list Out := [Println command].

(** ** Encoder *)

(** [encoderISR] at microsecond time [now_us] (a [uint32_t]). *)
Definition encoderISR (now_us : Z) (s : State) : State :=
  if (now_us - isr_last_us (enc s)) mod 2 ^ 32 >? 5000
  then set_isr_last_us now_us (set_encAedges (encAedges (enc s) + 1) s)
  else s.

Definition updatePositionTracking (movement : Q) (s : State) : State :=
  match currentAxis (sel s) with
  | AXIS_X => set_xPosition (cfloat_add (xPosition (pos s)) movement) s
  | AXIS_Y => set_yPosition (cfloat_add (yPosition (pos s)) movement) s
  | AXIS_Z => set_zPosition (cfloat_add (zPosition (pos s)) movement) s
  end.

Definition clampPosition (p : Z) : Z :=
  let p1 := if p >? 1000000 then 1000000 else p in
  if p1 <? -1000000 then -1000000 else p1.

Definition legacyKeys (positive : bool) (s : State) : list Out :=
  if CommProtocol_beq (currentProtocol (sel s)) PROTOCOL_LANGMUIR then
    match currentAxis (sel s) with
    | AXIS_Z => sendKeyCommand (if positive then "KEY:PGUP,1" else "KEY:PGDN,1")
                ++ sendKeyCommand (if positive then "KEY:PGUP,0" else "KEY:PGDN,0")
    | AXIS_Y => sendKeyCommand (if positive then "KEY:UP,1" else "KEY:DOWN,1")
                ++ sendKeyCommand (if positive then "KEY:UP,0" else "KEY:DOWN,0")
    | AXIS_X => sendKeyCommand (if positive then "KEY:RIGHT,1" else "KEY:LEFT,1")
                ++ sendKeyCommand (if positive then "KEY:RIGHT,0" else "KEY:LEFT,0")
    end
  else [].

(** [handleEncoder]; [encB] is the level read on phase B, [now] the value
    of [millis()] in the gate.  The locals carry the names of the source;
    [acc] is [scaledEncoderPosition] after [+= rawMovement].  C division
    and remainder truncate towards zero: [Z.quot] and [Z.rem]. *)
Definition handleEncoder (encB : bool) (now : Z) (s : State) : State * list Out :=
  let pulses := encAedges (enc s) in
  if pulses =? 0 then (s, []) else
  let dir := if encB then 1 else -1 in
  let currentPos := clampPosition (encoderPosition (enc s) + dir * pulses) in
  let s1 := set_encoderPosition currentPos (set_encAedges 0 s) in
  let rawMovement := currentPos - lastEncoderPos (enc s) in
  if rawMovement =? 0 then (s1, []) else
  let acc := scaledEncoderPosition (enc s) + rawMovement in
  let s2 := set_scaledEncoderPosition acc (set_lastEncoderPos currentPos s1) in
  let scaledMovement := Z.quot acc (encoderScale (enc s)) in
  if scaledMovement =? 0 then (s2, []) else
  let s3 := set_scaledEncoderPosition (Z.rem acc (encoderScale (enc s))) s2 in
  if negb (hostGate now s3) then (set_scaledEncoderPosition 0 s3, []) else
  let positive := scaledMovement >? 0 in
  let jogDistance := getJogDistanceValue s3 in
  let actual :=
    Qred ((if positive then jogDistance else Qopp jogDistance)
          * inject_Z (Z.abs scaledMovement)) in
  let s4 := updatePositionTracking actual s3 in
  let axisChar : ascii :=
    match currentAxis (sel s4) with
    | AXIS_X => "X"%char | AXIS_Y => "Y"%char | AXIS_Z => "Z"%char
    end in
  let o1 := sendUniversalJogCommand axisChar positive (Qabs actual) s4 in
  let o2 := legacyKeys positive s4 in
  (set_needsAxisRedraw true s4, o1 ++ o2).

(** ** Buttons, toggle switch, power and E-stop *)

(** Actions run one after the other, their output concatenated. *)
Definition Action : Type := State -> State * list Out.

Definition andThen (f g : Action) : Action :=
  fun s => let r1 := f s in
           let r2 := g (fst r1) in
           (fst r2, snd r1 ++ snd r2).

Infix ">>" := andThen (at level 61, left associativity).

Definition silent (f : State -> State) : Action := fun s => (f s, []).

Definition to_int (v : Z) : Z :=
  let u := v mod 2 ^ 32 in if u >=? 2 ^ 31 then u - 2 ^ 32 else u.

(** Release of button 1 that was not consumed: classification by the
    held time [dur]; [now2] is the [millis()] read in the shortcut gate. *)
Definition button1Release (dur now2 : Z) (s : State) : State * list Out :=
  if dur >=? LONG_PRESS_THRESHOLD then
    let s := set_currentJogDistance
               (jog_of_Z (Z.rem (jog_to_Z (currentJogDistance (sel s)) + 1) 4)) s in
    (s,
     [Print "DISTANCE:"; PrintlnFloat (getJogDistanceValue s) 4]
     ++ (if MachineType_beq (currentMachine (sel s)) MACHINE_CUTCONTROL
            && hostGate now2 s
         then match currentJogDistance (sel s) with
              | JOG_FINE => [Println "KEY:1,1"]
              | JOG_SMALL => [Println "KEY:2,1"]
              | JOG_MEDIUM => [Println "KEY:3,1"]
              | JOG_LARGE => [Println "KEY:4,1"]
              end
         else []))
  else
    let s := set_currentAxis
               (axis_of_Z (Z.rem (axis_to_Z (currentAxis (sel s)) + 1) 3)) s in
    (s,
     [Print "AXIS:";
      Println (match currentAxis (sel s) with
               | AXIS_Z => "Z" | AXIS_Y => "Y" | AXIS_X => "X"
               end)]).

Definition handleButton1 (raw : bool) (now now2 : Z) (s : State)
  : State * list Out :=
  let down := negb raw in
  let s := if xorb down (b1_last (btn s)) then set_b1_dbT now s else s in
  if usub now (b1_dbT (btn s)) >? DEBOUNCE_DELAY then
    let r :=
      if down && negb (button1Pressed (btn s)) then
        (set_lastActivityTime now
           (set_btn1PressTime now
              (set_button1Processed false (set_button1Pressed true s))), [])
      else if negb down && button1Pressed (btn s) then
        let s := set_button1Pressed false s in
        let dur := usub now (btn1PressTime (btn s)) in
        if negb (button1Processed (btn s)) then
          let r := button1Release dur now2 s in
          (set_button1Processed true (fst r), snd r)
        else (s, [])
      else (s, []) in
    (set_b1_last down (fst r), snd r)
  else (s, []).

Definition button2Release (dur : Z) (s : State) : State * list Out :=
  if dur >=? LONG_PRESS_THRESHOLD then
    if negb (viewLockedByHost (sel s)) then
      let s := set_coordView
                 (match coordView (sel s) with
                  | VIEW_WCS => VIEW_MCS | VIEW_MCS => VIEW_WCS end) s in
      (requestFullRedraw s,
       [Print "COORD:VIEW,";
        Println (match coordView (sel s) with
                 | VIEW_WCS => "WCS" | VIEW_MCS => "MCS" end)])
    else (s, [])
  else
    if MachineType_beq (currentMachine (sel s)) MACHINE_CUTCONTROL then
      let s := set_currentFeedRate
                 (feed_of_Z (Z.rem (feed_to_Z (currentFeedRate (sel s)) + 1) 4)) s in
      (s, [Print "FEEDRATE:"; Println (getFeedRatePercent s)])
    else
      let s := set_currentSpeed
                 (speed_of_Z (Z.rem (speed_to_Z (currentSpeed (sel s)) + 1) 3)) s in
      (s,
       [Print "SPEED:";
        Println (match currentSpeed (sel s) with
                 | SPEED_SLOW => "SLOW" | SPEED_FAST => "FAST"
                 | SPEED_MEDIUM => "MEDIUM" end)]).

Definition handleButton2 (raw : bool) (now : Z) (s : State)
  : State * list Out :=
  let down := negb raw in
  let s := if xorb down (b2_last (btn s)) then set_b2_dbT now s else s in
  if usub now (b2_dbT (btn s)) >? DEBOUNCE_DELAY then
    let r :=
      if down && negb (button2Pressed (btn s)) then
        (set_lastActivityTime now
           (set_btn2PressTime now
              (set_button2Processed false (set_button2Pressed true s))), [])
      else if negb down && button2Pressed (btn s) then
        let s := set_button2Pressed false s in
        let dur := usub now (btn2PressTime (btn s)) in
        if negb (button2Processed (btn s)) then
          let r := button2Release dur s in
          (set_button2Processed true (fst r), snd r)
        else (s, [])
      else (s, []) in
    (set_b2_last down (fst r), snd r)
  else (s, []).

(** [handleBothButtons]: the help overlay is drawn at once, the return to
    the normal view asks for a full redraw. *)
Definition handleBothButtons (btn1Raw btn2Raw : bool) (now : Z) (s : State)
  : State :=
  if negb btn1Raw && negb btn2Raw then
    if negb (bothButtonsHeld (btn s)) then
      set_bothButtonsTime now (set_bothButtonsHeld true s)
    else if usub now (bothButtonsTime (btn s)) >=? HELP_HOLD_TIME then
      let s :=
        match currentViewMode (sel s) with
        | VIEW_NORMAL =>
            set_button2Processed true
              (set_button1Processed true (set_currentViewMode VIEW_HELP s))
        | VIEW_HELP =>
            set_button2Processed true
              (set_button1Processed true
                 (requestFullRedraw (set_currentViewMode VIEW_NORMAL s)))
        end in
      set_bothButtonsTime (uadd now 10000) s
    else s
  else set_bothButtonsHeld false s.

(** [handleToggleSwitch]; [t1] and [t2] are its two [millis()] reads. *)
Definition handleToggleSwitch (raw : bool) (t1 t2 : Z) (s : State)
  : State * list Out :=
  let current := negb raw in
  if xorb current (lastToggleState (pwr s)) then
    let s := set_lastActivityTime t1 (set_lastToggleState current s) in
    if current then
      if negb (PowerState_beq (currentPowerState (pwr s)) POWER_ACTIVE) then
        (doFullRedraw (set_sleepCountdown 0 (set_currentPowerState POWER_ACTIVE s)),
         [Println "POWER:ACTIVE"])
      else (s, [])
    else
      if PowerState_beq (currentPowerState (pwr s)) POWER_ACTIVE then
        (set_sleepCountdown 5
           (set_sleepCountdownStart t2 (set_currentPowerState POWER_COUNTDOWN s)),
         [Println "POWER:COUNTDOWN"])
      else (s, [])
  else (s, []).

Definition handlePowerManagement (now : Z) (s : State) : State * list Out :=
  if PowerState_beq (currentPowerState (pwr s)) POWER_COUNTDOWN then
    let elapsed := usub now (sleepCountdownStart (pwr s)) in
    let newCountdown := to_int (5 - elapsed / 1000) in
    let s := if negb (newCountdown =? sleepCountdown (pwr s)) && (newCountdown >=? 0)
             then set_sleepCountdown newCountdown s else s in
    if elapsed >=? SLEEP_COUNTDOWN_TIME then
      (set_currentPowerState POWER_SLEEP s, [Println "POWER:SLEEP"])
    else (s, [])
  else (s, []).

Definition handleEstop (raw : bool) (now : Z) (s : State) : State * list Out :=
  let pressed := negb raw in
  let s := if xorb pressed (estop_last (safety s)) then set_estop_dbT now s else s in
  if usub now (estop_dbT (safety s)) >? ESTOP_DEBOUNCE then
    let r :=
      if xorb pressed (estopPressed (safety s)) then
        let s := set_lastActivityTime now
                   (set_estopPressTime now (set_estopPressed pressed s)) in
        if pressed then
          let r := sendUniversalEstopCommand true
                     (set_currentEstopState ESTOP_PRESSED s) in
          (fst r, snd r ++ [Println "ESTOP:EMERGENCY_STOP_ACTIVATED"])
        else
          let r := sendUniversalEstopCommand false
                     (set_currentEstopState ESTOP_RELEASED s) in
          (doFullRedraw (fst r), snd r ++ [Println "ESTOP:EMERGENCY_STOP_RELEASED"])
      else (s, []) in
    (set_estop_last pressed (fst r), snd r)
  else (s, []).

(** ** Host line decoder *)

(** [==] on [String] values. *)
Infix "==" := String.eqb (at level 70, no associativity).

Definition found (p c : string) : bool := 0 <=? indexOf p 0 c.

(** Guard of the GRBL-style branch of the auto-detection. *)
Definition profileIsLangmuirOrManual (s : State) : bool :=
  match currentMachine (sel s) with
  | MACHINE_FIRECONTROL | MACHINE_CUTCONTROL | MACHINE_MANUAL => true
  | _ => false
  end.

Definition grblToken (c : string) : bool :=
  startsWith "ok" c || startsWith "error:" c || startsWith "ALARM:" c
  || startsWith "$" c.
Definition machToken (c : string) : bool :=
  startsWith "Mach3" c || startsWith "Mach4" c || found "Artsoft" c.
Definition uccncToken (c : string) : bool :=
  startsWith "UCCNC" c || found "cncdrive" c.
Definition linuxcncToken (c : string) : bool :=
  startsWith "LINUXCNC" c || found "emc" c || found "axis" c.
Definition carbideToken (c : string) : bool :=
  found "Carbide" c || found "Shapeoko" c || found "Nomad" c.

(** First part of the loop body of [processSerialCommands]: the profile
    inferred from characteristic text. *)
Definition autoDetect (c : string) (s : State) : State * list Out :=
  if grblToken c then
    if profileIsLangmuirOrManual s then
      (requestFullRedraw
         (set_currentProtocol PROTOCOL_GRBL (set_currentMachine MACHINE_UGS s)),
       [Println "AUTO-DETECTED:UGS/GRBL"])
    else (s, [])
  else if machToken c then
    let s := set_currentMachine
               (if found "Mach4" c then MACHINE_MACH4 else MACHINE_MACH3) s in
    let s := set_currentProtocol PROTOCOL_MACH s in
    (requestFullRedraw s, [Printf "AUTO-DETECTED:%s" [AStr (getMachineName s)]])
  else if uccncToken c then
    (requestFullRedraw
       (set_currentProtocol PROTOCOL_MACH (set_currentMachine MACHINE_UCCNC s)),
     [Println "AUTO-DETECTED:UCCNC"])
  else if linuxcncToken c then
    (requestFullRedraw
       (set_currentProtocol PROTOCOL_LINUXCNC
          (set_currentMachine MACHINE_LINUXCNC s)),
     [Println "AUTO-DETECTED:LINUXCNC"])
  else if carbideToken c then
    (requestFullRedraw
       (set_currentProtocol PROTOCOL_GRBL (set_currentMachine MACHINE_CARBIDE s)),
     [Println "AUTO-DETECTED:CARBIDE"])
  else (s, []).

(** Name token of a [MACHINE:] line; an unknown token keeps the profile. *)
Definition machineOfToken (mt : string) (cur : MachineType) : MachineType :=
  if mt == "FIRECONTROL" then MACHINE_FIRECONTROL
  else if mt == "CUTCONTROL" then MACHINE_CUTCONTROL
  else if mt == "MACH3" then MACHINE_MACH3
  else if mt == "MACH4" then MACHINE_MACH4
  else if mt == "LINUXCNC" then MACHINE_LINUXCNC
  else if mt == "UCCNC" then MACHINE_UCCNC
  else if mt == "CARBIDE" then MACHINE_CARBIDE
  else if mt == "UGS" then MACHINE_UGS
  else if mt == "OPENBUILDS" then MACHINE_UGS
  else if mt == "CNCJS" then MACHINE_UGS
  else if mt == "MANUAL" then MACHINE_MANUAL
  else cur.

(** [getOffsetPtr]: the slot of a work-offset label, as its setter. *)
Definition getOffsetPtr (g : string) : option (XYZ -> State -> State) :=
  if g == "G54" then Some set_offG54 else if g == "G55" then Some set_offG55
  else if g == "G56" then Some set_offG56 else if g == "G57" then Some set_offG57
  else if g == "G58" then Some set_offG58 else if g == "G59" then Some set_offG59
  else None.

(** The three numbers of [X,<f>,Y,<f>,Z,<f>], when the three labels are
    found where the source looks for them. *)
Definition parseXYZ (t : string) : option XYZ :=
  let xI := indexOf "X," 0 t in
  let yI := indexOf ",Y," 0 t in
  let zI := indexOf ",Z," 0 t in
  if (xI >=? 0) && (yI >? 0) && (zI >? 0) then
    Some (MkXYZ (toFloat (substr (xI + 2) yI t))
                (toFloat (substr (yI + 3) zI t))
                (toFloat (substrFrom (zI + 3) t)))
  else None.

Definition uint8 (v : Z) : Z := v mod 256.

Definition constrain (v lo hi : Z) : Z :=
  if v <? lo then lo else if v >? hi then hi else v.

(** The arms of the [if / else if] chain of [processSerialCommands], one
    definition per command; [c] is the trimmed line. *)

Definition onLcdSolid (c : string) (s : State) : State * list Out :=
  let a := indexOf "," 10 c in
  let b := indexOf "," (a + 1) c in
  if (a >? 0) && (b >? 0) then
    (requestFullRedraw
       (set_useRGBWheel false
          (set_bgB (uint8 (toInt (substrFrom (b + 1) c)))
             (set_bgG (uint8 (toInt (substr (a + 1) b c)))
                (set_bgR (uint8 (toInt (substr 10 a c))) s)))), [])
  else (s, []).

Definition onLcdWheel (c : string) (s : State) : State * list Out :=
  (requestFullRedraw
     (set_useRGBWheel true (set_rgbHue (toFloat (substrFrom 10 c)) s)), []).

Definition onMachine (c : string) (s : State) : State * list Out :=
  let nm := machineOfToken (substrFrom 8 c) (currentMachine (sel s)) in
  if negb (MachineType_beq nm (currentMachine (sel s))) then
    let s := requestFullRedraw (set_currentMachine nm s) in
    (s, [Print "MACHINE:"; Println (getMachineName s)])
  else (s, []).

Definition onUnits (c : string) (s : State) : State * list Out :=
  let u := substrFrom 6 c in
  let ni := (u == "INCHES") || (u == "IN") in
  if xorb ni (useImperialUnits (sel s)) then
    (set_needsAxisRedraw true (set_useImperialUnits ni s),
     [Print "UNITS:"; Println (if ni then "INCHES" else "MM")])
  else (s, []).

Definition onSoftware (c : string) (s : State) : State * list Out :=
  let st := substrFrom 9 c == "CONNECTED" in
  if xorb st (softwareConnected (sel s)) then
    (set_needsStatusRedraw true (set_softwareConnected st s),
     [Print "SOFTWARE:"; Println (if st then "CONNECTED" else "DISCONNECTED")])
  else (s, []).

Definition onHostHello (s : State) : State * list Out :=
  (s, [Printf "FW:%s" [AStr FW_VERSION]; Println "PENDANT:HELLO"]).

Definition onArmEnable (now : Z) (s : State) : State * list Out :=
  (set_lastHostPing now (set_hostArmed true s), [Println "ARM:ENABLED"]).

Definition onArmDisable (s : State) : State * list Out :=
  (set_hostArmed false s, [Println "ARM:DISABLED"]).

Definition onHostPing (now : Z) (s : State) : State * list Out :=
  (set_lastHostPing now s, [Println "HOST:PONG"]).

Definition onMotionState (c : string) (s : State) : State * list Out :=
  let t := substrFrom 13 c in
  let nm := if t == "RUN" then MS_RUN else if t == "HOLD" then MS_HOLD else MS_IDLE in
  if negb (MotionState_beq nm (hostMotionState (safety s))) then
    (set_hostMotionState nm s, [Printf "MOTION:%s" [AStr t]])
  else (s, []).

Definition onCoordActive (c : string) (s : State) : State * list Out :=
  let w := trim (substrFrom 13 c) in
  (set_needsStatusRedraw true
     (set_activeWCS (if len w =? 0 then "G54" else w) s), []).

Definition onCoordView (c : string) (s : State) : State * list Out :=
  let v := substrFrom 11 c in
  let s := if v == "WCS" then set_viewLockedByHost true (set_coordView VIEW_WCS s)
           else if v == "MCS" then set_viewLockedByHost true (set_coordView VIEW_MCS s)
           else s in
  (set_needsStatusRedraw true (set_needsAxisRedraw true s), []).

Definition onOffset (c : string) (s : State) : State * list Out :=
  let gEnd := indexOf "," 7 c in
  if gEnd >? 0 then
    match getOffsetPtr (substr 7 gEnd c) with
    | Some tgt =>
        match parseXYZ (removeSpaces (substrFrom (gEnd + 1) c)) with
        | Some v => (tgt v s, [])
        | None => (s, [])
        end
    | None => (s, [])
    end
  else (s, []).

Definition onPosWcs (c : string) (now : Z) (s : State) : State * list Out :=
  match parseXYZ (removeSpaces (substrFrom 8 c)) with
  | Some v => (set_needsAxisRedraw true (set_tHostWCS now (set_hostWCS v s)), [])
  | None => (s, [])
  end.

Definition onPosMcs (c : string) (now : Z) (s : State) : State * list Out :=
  match parseXYZ (removeSpaces (substrFrom 8 c)) with
  | Some v => (set_needsAxisRedraw true (set_tHostMCS now (set_hostMCS v s)), [])
  | None => (s, [])
  end.

Definition onPosReset (s : State) : State * list Out :=
  (set_needsAxisRedraw true
     (set_xPosition 0 (set_yPosition 0 (set_zPosition 0 s))), []).

Definition onPosGet (s : State) : State * list Out :=
  (s, [Printf "POS:X,%.4f" [AFloat (xPosition (pos s))];
       Printf "POS:Y,%.4f" [AFloat (yPosition (pos s))];
       Printf "POS:Z,%.4f" [AFloat (zPosition (pos s))]]).

Definition onPosSet (c : string) (s : State) : State * list Out :=
  let a := indexOf "," 8 c in
  let b := indexOf "," (a + 1) c in
  if (a >? 0) && (b >? 0) then
    let ax := charAt (a + 1) c in
    let val := toFloat (substrFrom (b + 1) c) in
    let s := if Ascii.eqb ax "X" then set_xPosition val s
             else if Ascii.eqb ax "Y" then set_yPosition val s
             else if Ascii.eqb ax "Z" then set_zPosition val s
             else s in
    (set_needsAxisRedraw true s, [])
  else (s, []).

Definition onEncoderScale (c : string) (s : State) : State * list Out :=
  let sc := toInt (substrFrom 14 c) in
  if (sc >=? 1) && (sc <=? 10) then
    (set_scaledEncoderPosition 0 (set_encoderScale sc s),
     [Printf "ENCODER_SCALE_SET:%d" [AInt sc]])
  else (s, []).

Definition onMachineZero (s : State) : State * list Out :=
  (set_needsAxisRedraw true
     (set_lastEncoderPos 0
        (set_scaledEncoderPosition 0
           (set_encoderPosition 0
              (set_xPosition 0 (set_yPosition 0 (set_zPosition 0 s)))))), []).

Definition onEncoderGet (now now2 : Z) (s : State) : State * list Out :=
  (s, [Printf "ENCODER:SCALE,%d" [AInt (encoderScale (enc s))];
       Printf "ENCODER:POS,%ld" [AInt (encoderPosition (enc s))];
       Printf "ENCODER:SCALED,%ld" [AInt (scaledEncoderPosition (enc s))];
       Printf "HOST:WCS_FRESH,%s"
         [AStr (if hostWCSFresh now s then "TRUE" else "FALSE")];
       Printf "HOST:MCS_FRESH,%s"
         [AStr (if hostMCSFresh now2 s then "TRUE" else "FALSE")]]).

Definition onLcdBrightness (c : string) (s : State) : State * list Out :=
  (s, [Printf "BRIGHTNESS:%d" [AInt (constrain (toInt (substrFrom 15 c)) 0 255)]]).

(** The chain itself, in the order of the source; [now] is the
    [millis()] read of the arm taken, [now2] the second read of
    [ENCODER:GET]. *)
Definition dispatch (c : string) (now now2 : Z) (s : State) : State * list Out :=
  if startsWith "LCD:SOLID," c then onLcdSolid c s
  else if startsWith "LCD:WHEEL," c then onLcdWheel c s
  else if startsWith "MACHINE:" c then onMachine c s
  else if startsWith "UNITS:" c then onUnits c s
  else if startsWith "SOFTWARE:" c then onSoftware c s
  else if c == "HOST:HELLO" then onHostHello s
  else if c == "ARM:ENABLE" then onArmEnable now s
  else if c == "ARM:DISABLE" then onArmDisable s
  else if c == "HOST:PING" then onHostPing now s
  else if startsWith "MOTION:STATE," c then onMotionState c s
  else if startsWith "COORD:ACTIVE," c then onCoordActive c s
  else if startsWith "COORD:VIEW," c then onCoordView c s
  else if startsWith "OFFSET:" c then onOffset c s
  else if startsWith "POS:WCS," c then onPosWcs c now s
  else if startsWith "POS:MCS," c then onPosMcs c now s
  else if startsWith "POS:RESET" c then onPosReset s
  else if c == "POS:GET" then onPosGet s
  else if startsWith "POS:SET," c then onPosSet c s
  else if startsWith "ENCODER:SCALE," c then onEncoderScale c s
  else if c == "MACHINE:ZERO" then onMachineZero s
  else if c == "ENCODER:GET" then onEncoderGet now now2 s
  else if startsWith "LCD:BRIGHTNESS," c then onLcdBrightness c s
  else (s, []).

(** One line as read by [readStringUntil]: trimmed, skipped when empty,
    otherwise auto-detection and then the command chain. *)
Definition processLine (line : string) (now now2 : Z) : Action :=
  let c := trim line in
  if len c =? 0 then (fun s => (s, []))
  else autoDetect c >> dispatch c now now2.

(** [processSerialCommands]: every buffered line in turn; [clk k] gives
    the clock reads available to the k-th line. *)
Fixpoint processLines (clk : nat -> Z * Z) (k : nat) (lines : list string)
  : Action :=
  match lines with
  | [] => fun s => (s, [])
  | l :: rest =>
      processLine l (fst (clk k)) (snd (clk k)) >> processLines clk (S k) rest
  end.

Definition processSerialCommands (clk : nat -> Z * Z) : Action :=
  fun s => processLines clk O (serial_rx (port s)) (set_serial_rx [] s).

(** ** Main loop *)

(** What one iteration of [loop] reads from the outside: the pin levels,
    the clock at each read, the encoder interrupts taken and the lines
    received since the previous iteration. *)
Record LoopIn : Type := MkLoopIn {
  isr_us : list Z;
  arrived : list string;
  pin_estop : bool;  t_estop : Z;
  pin_b1_both : bool;  pin_b2_both : bool;  t_both : Z;
  pin_b1 : bool;  t_b1 : Z;  t_b1_gate : Z;
  pin_b2 : bool;  t_b2 : Z;
  pin_toggle : bool;  t_toggle : Z;  t_toggle2 : Z;
  t_power : Z;
  pin_encB : bool;  t_enc : Z;
  t_rx : nat -> Z * Z;
  t_ui : Z
}.

Definition receive (i : LoopIn) (s : State) : State :=
  let s := set_serial_rx (serial_rx (port s) ++ arrived i) s in
  fold_left (fun st us => encoderISR us st) (isr_us i) s.

(** The handlers that run in every iteration, E-stop first. *)
Definition inputPhase (i : LoopIn) : Action :=
  silent (receive i)
  >> handleEstop (pin_estop i) (t_estop i)
  >> silent (handleBothButtons (pin_b1_both i) (pin_b2_both i) (t_both i))
  >> handleButton1 (pin_b1 i) (t_b1 i) (t_b1_gate i)
  >> handleButton2 (pin_b2 i) (t_b2 i)
  >> handleToggleSwitch (pin_toggle i) (t_toggle i) (t_toggle2 i)
  >> handlePowerManagement (t_power i).

(** Deferred drawing at the end of an active iteration. *)
Definition uiPhase (now : Z) (s : State) : State :=
  match currentViewMode (sel s) with
  | VIEW_HELP => s
  | VIEW_NORMAL =>
      let s := if needsFullRedraw (ui s)
               then set_needsStatusRedraw false
                      (set_needsAxisRedraw false (doFullRedraw s))
               else s in
      let s := if needsAxisRedraw (ui s) && (usub now (lastPosRedraw (ui s)) >? 100)
               then set_needsAxisRedraw false (set_lastPosRedraw now s)
               else s in
      if needsStatusRedraw (ui s) || (usub now (lastUI (ui s)) >? 1000)
      then set_needsStatusRedraw false (set_lastUI now s)
      else s
  end.

Definition activePhase (i : LoopIn) : Action :=
  handleEncoder (pin_encB i) (t_enc i)
  >> processSerialCommands (t_rx i)
  >> silent (uiPhase (t_ui i)).

Definition loop (i : LoopIn) : Action :=
  fun s =>
    let r := inputPhase i s in
    if PowerState_beq (currentPowerState (pwr (fst r))) POWER_ACTIVE
       && estopReleased (fst r)
    then (fst (activePhase i (fst r)), snd r ++ snd (activePhase i (fst r)))
    else r.

(** States the device can be in between two iterations of [loop]. *)
Inductive reachable : State -> Prop :=
| reach_init : reachable initState
| reach_loop : forall i s, reachable s -> reachable (fst (loop i s)).

(** Run of [loop] over a list of inputs, with the whole output. *)
Fixpoint run (ins : list LoopIn) : Action :=
  match ins with
  | [] => fun s => (s, [])
  | i :: rest => loop i >> run rest
  end.

(** ** Observations on states and traces used in the statements *)

(** Relative-motion lines of the four dialects. *)
Definition is_jog (o : Out) : bool :=
  match o with
  | Printf fmt _ =>
      (fmt == "JOG:%c,%c%.4f") || (fmt == "MOVE:%c,%c%.4f%s")
      || (fmt == "$J=G91G1%c%.4fF%d") || (fmt == "G91G1%c%.4fF%d")
      || (fmt == "G91 G1 %c%.4f F%d")
  | _ => false
  end.

(** Jog keys of the legacy keyboard path. *)
Definition is_jog_key (o : Out) : bool :=
  match o with
  | Println t =>
      startsWith "KEY:PG" t || startsWith "KEY:UP" t || startsWith "KEY:DOWN" t
      || startsWith "KEY:LEFT" t || startsWith "KEY:RIGHT" t
  | _ => false
  end.

(** Any command that makes the machine move. *)
Definition is_motion (o : Out) : bool := is_jog o || is_jog_key o.

Definition emitsMotion (out : list Out) : bool := existsb is_motion out.

(** Selection echoes of the two buttons. *)
Definition is_echo (o : Out) : bool :=
  match o with
  | Print t =>
      (t == "AXIS:") || (t == "DISTANCE:") || (t == "SPEED:")
      || (t == "FEEDRATE:") || (t == "COORD:VIEW,")
  | _ => false
  end.

(** Acknowledgement of an encoder-scale change. *)
Definition is_scale_ack (o : Out) : bool :=
  match o with
  | Printf fmt _ => fmt == "ENCODER_SCALE_SET:%d"
  | _ => false
  end.

(** The local [rawMovement] of a call of [handleEncoder] from [s]
    (0 when the call returns before computing it). *)
Definition rawMovementOf (encB : bool) (s : State) : Z :=
  let pulses := encAedges (enc s) in
  if pulses =? 0 then 0
  else clampPosition (encoderPosition (enc s) + (if encB then 1 else -1) * pulses)
       - lastEncoderPos (enc s).

(** The local [scaledMovement] of that call (0 when it is not reached). *)
Definition scaledMovementOf (encB : bool) (s : State) : Z :=
  let raw := rawMovementOf encB s in
  if raw =? 0 then 0
  else Z.quot (scaledEncoderPosition (enc s) + raw) (encoderScale (enc s)).

(** The scaled movement for which the call emits a motion command. *)
Definition emittedMovement (encB : bool) (now : Z) (s : State) : Z :=
  if emitsMotion (snd (handleEncoder encB now s))
  then scaledMovementOf encB s else 0.

(** The motion-authorization predicate of the specification. *)
Definition motionAuthorized (now : Z) (s : State) : bool :=
  hostGate now s && estopReleased s.

(** [sendUniversalJogCommand] refuses to print. *)
Definition blockedByLock (s : State) : bool :=
  systemLocked (safety s) || negb (estopReleased s).

(** Lock invariant of the safety state, as a boolean. *)
Definition lockInv (s : State) : bool :=
  implb (negb (estopReleased s)) (systemLocked (safety s)).

(** The lock flag mirrors the E-stop state exactly. *)
Definition lockExact (s : State) : bool :=
  Bool.eqb (systemLocked (safety s)) (negb (estopReleased s)).

(** Remainder invariant of the encoder state. *)
Definition remainderInv (s : State) : Prop :=
  1 <= encoderScale (enc s)
  /\ Z.abs (scaledEncoderPosition (enc s)) < encoderScale (enc s).

(** One call of [handleEncoder]: the state it starts from and its reads. *)
Record EncCall : Type := MkEncCall { pre : State; callB : bool; callNow : Z }.

Definition post (c : EncCall) : State :=
  fst (handleEncoder (callB c) (callNow c) (pre c)).

(** Between two calls anything but the encoder counters and the scale may
    change (other handlers run, the interrupt adds edges). *)
Definition sameCounters (a b : State) : Prop :=
  encoderPosition (enc a) = encoderPosition (enc b)
  /\ lastEncoderPos (enc a) = lastEncoderPos (enc b)
  /\ encoderScale (enc a) = encoderScale (enc b)
  /\ scaledEncoderPosition (enc a) = scaledEncoderPosition (enc b).

(** A sequence of calls from [s0], each starting where the previous one
    left the counters. *)
Fixpoint chained (s0 : State) (cs : list EncCall) : Prop :=
  match cs with
  | [] => True
  | c :: rest => sameCounters s0 (pre c) /\ chained (post c) rest
  end.

Fixpoint lastState (s0 : State) (cs : list EncCall) : State :=
  match cs with
  | [] => s0
  | c :: rest => lastState (post c) rest
  end.

Definition totalRaw (cs : list EncCall) : Z :=
  fold_right (fun c acc => rawMovementOf (callB c) (pre c) + acc) 0 cs.

Definition totalEmitted (cs : list EncCall) : Z :=
  fold_right (fun c acc => emittedMovement (callB c) (callNow c) (pre c) + acc) 0 cs.

(** A call made while motion is authorized and the lock is off. *)
Definition authorizedCall (c : EncCall) : Prop :=
  motionAuthorized (callNow c) (pre c) = true
  /\ systemLocked (safety (pre c)) = false.

(** Inputs of the debounced handlers as they stand in every state the
    device reaches: nothing latched. *)
Definition nothingLatched (s : State) : Prop :=
  estop_last (safety s) = false /\ estopPressed (safety s) = false
  /\ currentEstopState (safety s) = ESTOP_RELEASED
  /\ systemLocked (safety s) = false
  /\ b1_last (btn s) = false /\ button1Pressed (btn s) = false
  /\ b2_last (btn s) = false /\ button2Pressed (btn s) = false.

(** Lines on which the decoder acts: a token of the auto-detection or a
    command of the chain. *)
Definition detectable (c : string) : bool :=
  grblToken c || machToken c || uccncToken c || linuxcncToken c || carbideToken c.

Definition command (c : string) : bool :=
  startsWith "LCD:SOLID," c || startsWith "LCD:WHEEL," c || startsWith "MACHINE:" c
  || startsWith "UNITS:" c || startsWith "SOFTWARE:" c || (c == "HOST:HELLO")
  || (c == "ARM:ENABLE") || (c == "ARM:DISABLE") || (c == "HOST:PING")
  || startsWith "MOTION:STATE," c || startsWith "COORD:ACTIVE," c
  || startsWith "COORD:VIEW," c || startsWith "OFFSET:" c || startsWith "POS:WCS," c
  || startsWith "POS:MCS," c || startsWith "POS:RESET" c || (c == "POS:GET")
  || startsWith "POS:SET," c || startsWith "ENCODER:SCALE," c
  || (c == "MACHINE:ZERO") || (c == "ENCODER:GET") || startsWith "LCD:BRIGHTNESS," c.

Definition recognized (line : string) : bool :=
  detectable (trim line) || command (trim line).

Definition noMotion (out : list Out) : Prop := emitsMotion out = false.
Definition noEcho (out : list Out) : Prop := existsb is_echo out = false.

(** Text in which [atof] and [atol] find no number: after the blanks
    and the sign comes neither a digit, nor a point followed by a digit,
    nor one of the spellings [inf] and [nan]. *)
Definition noNumber (t : string) : bool :=
  let r := snd (read_sign (ltrim t)) in
  negb (prefix_nocase "inf" r) && negb (prefix_nocase "nan" r)
  && match r with
     | String c r' =>
         match digit_of c with
         | Some _ => false
         | None =>
             if Ascii.eqb c "." then
               match r' with
               | String d _ => match digit_of d with Some _ => false | None => true end
               | EmptyString => true
               end
             else true
         end
     | EmptyString => true
     end.

(** ** Concrete inputs used in the examples *)

(** An iteration at time [t] with every input at rest: E-stop pin high
    (read as not pressed), buttons up, toggle on, no interrupt, no line. *)
Definition idleAt (t : Z) : LoopIn :=
  MkLoopIn [] [] true t true true t true t t true t false t t t true t
           (fun _ => (t, t)) t.

Definition withLines (l : list string) (i : LoopIn) : LoopIn :=
  MkLoopIn (isr_us i) l (pin_estop i) (t_estop i) (pin_b1_both i) (pin_b2_both i)
           (t_both i) (pin_b1 i) (t_b1 i) (t_b1_gate i) (pin_b2 i) (t_b2 i)
           (pin_toggle i) (t_toggle i) (t_toggle2 i) (t_power i) (pin_encB i)
           (t_enc i) (t_rx i) (t_ui i).

Definition withEdges (us : list Z) (i : LoopIn) : LoopIn :=
  MkLoopIn us (arrived i) (pin_estop i) (t_estop i) (pin_b1_both i) (pin_b2_both i)
           (t_both i) (pin_b1 i) (t_b1 i) (t_b1_gate i) (pin_b2 i) (t_b2 i)
           (pin_toggle i) (t_toggle i) (t_toggle2 i) (t_power i) (pin_encB i)
           (t_enc i) (t_rx i) (t_ui i).

(** The E-stop pin low, the level that [handleEstop] reads as pressed. *)
Definition withEstopAsserted (i : LoopIn) : LoopIn :=
  MkLoopIn (isr_us i) (arrived i) false (t_estop i) (pin_b1_both i) (pin_b2_both i)
           (t_both i) (pin_b1 i) (t_b1 i) (t_b1_gate i) (pin_b2 i) (t_b2 i)
           (pin_toggle i) (t_toggle i) (t_toggle2 i) (t_power i) (pin_encB i)
           (t_enc i) (t_rx i) (t_ui i).

(** Both buttons down (pins low). *)
Definition withBothButtons (i : LoopIn) : LoopIn :=
  MkLoopIn (isr_us i) (arrived i) (pin_estop i) (t_estop i) false false
           (t_both i) false (t_b1 i) (t_b1_gate i) false (t_b2 i)
           (pin_toggle i) (t_toggle i) (t_toggle2 i) (t_power i) (pin_encB i)
           (t_enc i) (t_rx i) (t_ui i).

(** Button 1 alone down. *)
Definition withButton1 (i : LoopIn) : LoopIn :=
  MkLoopIn (isr_us i) (arrived i) (pin_estop i) (t_estop i) false (pin_b2_both i)
           (t_both i) false (t_b1 i) (t_b1_gate i) (pin_b2 i) (t_b2 i)
           (pin_toggle i) (t_toggle i) (t_toggle2 i) (t_power i) (pin_encB i)
           (t_enc i) (t_rx i) (t_ui i).

(** Button 1 held down from clock [t0] for [ms] milliseconds, read every
    10 ms, then up for 200 ms more. *)
Definition button1Held (t0 ms : Z) : list LoopIn :=
  map (fun k => withButton1 (idleAt (t0 + 10 * Z.of_nat k)))
      (seq 0 (S (Z.to_nat (ms / 10))))
  ++ map (fun k => idleAt (t0 + ms + 10 * Z.of_nat (S k))) (seq 0 20).

(** The toggle switch off (pin high). *)
Definition withToggleOff (i : LoopIn) : LoopIn :=
  MkLoopIn (isr_us i) (arrived i) (pin_estop i) (t_estop i) (pin_b1_both i)
           (pin_b2_both i) (t_both i) (pin_b1 i) (t_b1 i) (t_b1_gate i) (pin_b2 i)
           (t_b2 i) true (t_toggle i) (t_toggle2 i) (t_power i) (pin_encB i)
           (t_enc i) (t_rx i) (t_ui i).

(** A state with the E-stop state pressed and the lock on, the host
    armed, a fresh heartbeat, scale 5, a carried remainder of 3 and 4
    pulses pending.  No run of [loop] from power-up reaches it (the
    E-stop never registers); it serves to call the handlers on their own
    in a locked state. *)
Definition estopHeld : State :=
  set_encAedges 4
    (set_scaledEncoderPosition 3
       (set_encoderScale 5
          (set_lastHostPing 1000
             (set_hostArmed true
                (set_estop_last true
                   (set_estopPressed true
                      (set_systemLocked true
                         (set_currentEstopState ESTOP_PRESSED initState)))))))).


(** ** Further parts of the sketch: colours, texts, display selection *)

Definition uint16 (v : Z) : Z := v mod 65536.

(** [RGB565] and [rgb8_to_565] (the same body); the parameters are
    [uint8_t], the result [uint16_t]. *)
Definition RGB565 (r g b : Z) : Z :=
  uint16 (Z.lor (Z.lor (Z.shiftl (Z.land (uint8 r) 248) 8)
                       (Z.shiftl (Z.land (uint8 g) 252) 3))
                (Z.shiftr (uint8 b) 3)).

Definition rgb8_to_565 (r g b : Z) : Z := RGB565 r g b.

(** [c565_to_rgb8]: the three [uint8_t] results, in the order r, g, b. *)
Definition c565_to_rgb8 (c : Z) : Z * Z * Z :=
  let c := uint16 c in
  (uint8 (Z.land (Z.shiftr c 11) 31 * 255 / 31),
   uint8 (Z.land (Z.shiftr c 5) 63 * 255 / 63),
   uint8 (Z.land c 31 * 255 / 31)).

(** [blend565]: foreground over background with opacity [a]. *)
Definition blend565 (fg bg a : Z) : Z :=
  let a := uint8 a in
  if a =? 255 then uint16 fg
  else if a =? 0 then uint16 bg
  else
    let '(fr, fg8, fb) := c565_to_rgb8 fg in
    let '(br, bg8, bb) := c565_to_rgb8 bg in
    rgb8_to_565 (uint8 ((fr * a + br * (255 - a)) / 255))
                (uint8 ((fg8 * a + bg8 * (255 - a)) / 255))
                (uint8 ((fb * a + bb * (255 - a)) / 255)).

(** The inch mark that ends the imperial texts. *)
Definition inchMark : string := String (ascii_of_nat 34) EmptyString.

(** [getDistanceText]: the jog distance as the axis card shows it. *)
Definition getDistanceText (s : State) : string :=
  let fire := MachineType_beq (currentMachine (sel s)) MACHINE_FIRECONTROL in
  if useImperialUnits (sel s) then
    if fire then
      match currentJogDistance (sel s) with
      | JOG_FINE => String.append "0.0005" inchMark
      | JOG_SMALL => String.append "0.001" inchMark
      | JOG_MEDIUM => String.append "0.01" inchMark
      | JOG_LARGE => String.append "0.1" inchMark
      end
    else
      match currentJogDistance (sel s) with
      | JOG_FINE => String.append "0.004" inchMark
      | JOG_SMALL => String.append "0.039" inchMark
      | JOG_MEDIUM => String.append "0.394" inchMark
      | JOG_LARGE => String.append "3.937" inchMark
      end
  else
    if fire then
      match currentJogDistance (sel s) with
      | JOG_FINE => "0.0125mm" | JOG_SMALL => "0.025mm"
      | JOG_MEDIUM => "0.25mm" | JOG_LARGE => "2.5mm"
      end
    else
      match currentJogDistance (sel s) with
      | JOG_FINE => "0.1mm" | JOG_SMALL => "1.0mm"
      | JOG_MEDIUM => "10.0mm" | JOG_LARGE => "100.0mm"
      end.

(** The numbers [drawPositionDisplay] shows at clock [now], and whether
    they come from a fresh host snapshot. *)
Definition shownPosition (now : Z) (s : State) : XYZ * bool :=
  let showWCS := CoordView_beq (coordView (sel s)) VIEW_WCS in
  let fresh := if showWCS then hostWCSFresh now s else hostMCSFresh now s in
  if fresh then ((if showWCS then hostWCS (pos s) else hostMCS (pos s)), true)
  else (MkXYZ (xPosition (pos s)) (yPosition (pos s)) (zPosition (pos s)), false).

(** The work offset stored under a label, read through [getOffsetPtr]. *)
Definition offsetOf (g : string) (s : State) : option XYZ :=
  if g == "G54" then Some (offG54 (pos s)) else if g == "G55" then Some (offG55 (pos s))
  else if g == "G56" then Some (offG56 (pos s)) else if g == "G57" then Some (offG57 (pos s))
  else if g == "G58" then Some (offG58 (pos s)) else if g == "G59" then Some (offG59 (pos s))
  else None.

(** Power state and toggle reading agree. *)
Definition powerInv (s : State) : Prop :=
  (lastToggleState (pwr s) = true <-> currentPowerState (pwr s) = POWER_ACTIVE)
  /\ 0 <= sleepCountdown (pwr s) <= 5.

(** The position counters stay inside the clamp. *)
Definition clampInv (s : State) : Prop :=
  Z.abs (encoderPosition (enc s)) <= 1000000
  /\ Z.abs (lastEncoderPos (enc s)) <= 1000000.

(** The background colour channels are bytes. *)
Definition colourInv (s : State) : Prop :=
  0 <= bgR (ui s) <= 255 /\ 0 <= bgG (ui s) <= 255 /\ 0 <= bgB (ui s) <= 255.

(** The local position on the three axes. *)
Definition localPosition (s : State) : cfloat * cfloat * cfloat :=
  (xPosition (pos s), yPosition (pos s), zPosition (pos s)).

(** No line of the list is the arming command. *)
Definition noArmLine (lines : list string) : Prop :=
  Forall (fun l => Arduino.trim l <> "ARM:ENABLE") lines.


(** The other view mode. *)
Definition otherViewMode (v : ViewMode) : ViewMode :=
  match v with VIEW_NORMAL => VIEW_HELP | VIEW_HELP => VIEW_NORMAL end.

(** Edge times of the encoder interrupt: each more than 5 ms (on the
    32-bit microsecond clock) after the one before, starting from [last];
    or all within 5 ms of [last]. *)
Fixpoint spaced (last : Z) (us : list Z) : Prop :=
  match us with
  | [] => True
  | u :: rest => (u - last) mod 2 ^ 32 > 5000 /\ spaced u rest
  end.

Definition bounce (last : Z) (us : list Z) : Prop :=
  Forall (fun u => (u - last) mod 2 ^ 32 <= 5000) us.
(** ** Proof automation *)

Ltac split_ifs :=
  repeat match goal with
         | |- context [if ?c then _ else _] => destruct c eqn:?
         | |- context [match parseXYZ ?t with _ => _ end] => destruct (parseXYZ t)
         | |- context [match currentViewMode ?t with _ => _ end] =>
             destruct (currentViewMode t) eqn:?
         end.

(** A frame property: split first, then run through the branches. *)
Tactic Notation "frame" constr(h) :=
  cbv zeta; repeat split; unfold h; split_ifs; st; reflexivity.

(** Unfolds the arm of the decoder at hand and runs through its branches. *)
Ltac arm :=
  unfold onLcdSolid, onLcdWheel, onMachine, onUnits, onSoftware, onHostHello,
    onArmEnable, onArmDisable, onHostPing, onMotionState, onCoordActive,
    onCoordView, onOffset, onPosWcs, onPosMcs, onPosReset, onPosGet, onPosSet,
    onEncoderScale, onMachineZero, onEncoderGet, onLcdBrightness, getOffsetPtr;
  split_ifs; st.


(** Decides the guards of a chain on a line whose first characters are known. *)
Ltac decide_guards :=
  repeat match goal with
         | |- context [if ?c then _ else _] =>
             let v := eval vm_compute in c in
             match v with
             | true => change c with true
             | false => change c with false
             end; cbv iota
         end.

(** * Properties *)

(** ** Sequencing *)

Lemma andThen_fst (f g : Action) s : fst ((f >> g) s) = fst (g (fst (f s))).
Proof. reflexivity. Qed.

Lemma andThen_snd (f g : Action) s :
  snd ((f >> g) s) = snd (f s) ++ snd (g (fst (f s))).
Proof. reflexivity. Qed.

Lemma silent_fst f s : fst (silent f s) = f s.
Proof. reflexivity. Qed.

Lemma silent_snd f s : snd (silent f s) = [].
Proof. reflexivity. Qed.

Lemma usub_diag a : usub a a = 0.
Proof. unfold usub. now rewrite Z.sub_diag. Qed.

(** ** The debounce of the E-stop and of the two buttons

    [last] is assigned only inside the block guarded by
    [(now - dbT) > delay], and [dbT] is set to [now] whenever the reading
    differs from [last]: a reading that differs from [last] never gets into
    the block, so [last] keeps its initial value. *)

Lemma handleEstop_latch raw now s :
  nothingLatched s -> nothingLatched (fst (handleEstop raw now s))
                      /\ snd (handleEstop raw now s) = [].
Proof.
  intros (H1 & H2 & H3 & H4 & H5).
  unfold handleEstop. rewrite H1.
  destruct raw; cbn [negb xorb].
  - destruct (usub now (estop_dbT (safety s)) >? ESTOP_DEBOUNCE) eqn:E.
    + rewrite H2. st. repeat split; tauto.
    + st. repeat split; tauto.
  - st. rewrite usub_diag. change (0 >? ESTOP_DEBOUNCE) with false. st. repeat split; tauto.
Qed.

Lemma handleBothButtons_latch r1 r2 now s :
  nothingLatched s -> nothingLatched (handleBothButtons r1 r2 now s).
Proof.
  unfold nothingLatched, handleBothButtons. intros H.
  split_ifs; st; exact H.
Qed.

Lemma handleButton1_latch raw now now2 s :
  nothingLatched s ->
  nothingLatched (fst (handleButton1 raw now now2 s))
  /\ snd (handleButton1 raw now now2 s) = []
  /\ sel (fst (handleButton1 raw now now2 s)) = sel s.
Proof.
  intros (H1 & H2 & H3 & H4 & H5 & H6 & H7 & H8).
  unfold handleButton1. rewrite H5.
  destruct raw; cbn [negb xorb].
  - destruct (usub now (b1_dbT (btn s)) >? DEBOUNCE_DELAY) eqn:E.
    + rewrite H6. st. unfold nothingLatched. st. tauto.
    + unfold nothingLatched. tauto.
  - st. rewrite usub_diag. change (0 >? DEBOUNCE_DELAY) with false. st. unfold nothingLatched. st. tauto.
Qed.

Lemma handleButton2_latch raw now s :
  nothingLatched s ->
  nothingLatched (fst (handleButton2 raw now s))
  /\ snd (handleButton2 raw now s) = []
  /\ sel (fst (handleButton2 raw now s)) = sel s.
Proof.
  intros (H1 & H2 & H3 & H4 & H5 & H6 & H7 & H8).
  unfold handleButton2. rewrite H7.
  destruct raw; cbn [negb xorb].
  - destruct (usub now (b2_dbT (btn s)) >? DEBOUNCE_DELAY) eqn:E.
    + rewrite H8. st. unfold nothingLatched. st. tauto.
    + unfold nothingLatched. tauto.
  - st. rewrite usub_diag. change (0 >? DEBOUNCE_DELAY) with false. st. unfold nothingLatched. st. tauto.
Qed.

(** Handlers that never write the safety state or the button state. *)

Lemma handleToggleSwitch_frame raw t1 t2 s :
  let s' := fst (handleToggleSwitch raw t1 t2 s) in
  safety s' = safety s /\ btn s' = btn s /\ sel s' = sel s /\ enc s' = enc s
  /\ port s' = port s.
Proof. frame handleToggleSwitch. Qed.

Lemma handlePowerManagement_frame now s :
  let s' := fst (handlePowerManagement now s) in
  safety s' = safety s /\ btn s' = btn s /\ sel s' = sel s /\ enc s' = enc s
  /\ port s' = port s.
Proof. frame handlePowerManagement. Qed.

Lemma encoderISR_frame us s :
  let s' := encoderISR us s in
  safety s' = safety s /\ btn s' = btn s /\ sel s' = sel s /\ pwr s' = pwr s
  /\ port s' = port s
  /\ encoderPosition (enc s') = encoderPosition (enc s)
  /\ lastEncoderPos (enc s') = lastEncoderPos (enc s)
  /\ encoderScale (enc s') = encoderScale (enc s)
  /\ scaledEncoderPosition (enc s') = scaledEncoderPosition (enc s).
Proof. frame encoderISR. Qed.

Lemma receive_frame i s :
  let s' := receive i s in
  safety s' = safety s /\ btn s' = btn s /\ sel s' = sel s /\ pwr s' = pwr s
  /\ encoderPosition (enc s') = encoderPosition (enc s)
  /\ lastEncoderPos (enc s') = lastEncoderPos (enc s)
  /\ encoderScale (enc s') = encoderScale (enc s)
  /\ scaledEncoderPosition (enc s') = scaledEncoderPosition (enc s).
Proof.
  unfold receive.
  set (s0 := set_serial_rx _ s).
  assert (H0 : safety s0 = safety s /\ btn s0 = btn s /\ sel s0 = sel s
               /\ pwr s0 = pwr s
               /\ encoderPosition (enc s0) = encoderPosition (enc s)
               /\ lastEncoderPos (enc s0) = lastEncoderPos (enc s)
               /\ encoderScale (enc s0) = encoderScale (enc s)
               /\ scaledEncoderPosition (enc s0) = scaledEncoderPosition (enc s))
    by (subst s0; st; tauto).
  clearbody s0. revert s0 H0.
  induction (isr_us i) as [|us l IH]; intros s0 H0; cbn [fold_left].
  - exact H0.
  - apply IH.
    destruct (encoderISR_frame us s0) as (A1 & A2 & A3 & A4 & _ & A5 & A6 & A7 & A8).
    destruct H0 as (B1 & B2 & B3 & B4 & B5 & B6 & B7 & B8).
    repeat split; congruence.
Qed.

Lemma handleEncoder_frame encB now s :
  let s' := fst (handleEncoder encB now s) in
  safety s' = safety s /\ btn s' = btn s /\ sel s' = sel s /\ pwr s' = pwr s
  /\ port s' = port s /\ encoderScale (enc s') = encoderScale (enc s).
Proof.
  cbv zeta; repeat split; unfold handleEncoder, updatePositionTracking;
    split_ifs; st; try reflexivity; destruct (currentAxis (sel s)); reflexivity.
Qed.

Lemma autoDetect_frame c s :
  let s' := fst (autoDetect c s) in
  safety s' = safety s /\ btn s' = btn s /\ pwr s' = pwr s /\ port s' = port s
  /\ enc s' = enc s /\ pos s' = pos s.
Proof. frame autoDetect. Qed.

(** Case analysis on the arm of the chain that a line takes. *)
Lemma dispatch_cases (P : State * list Out -> Prop) c now now2 s :
  P (onLcdSolid c s) -> P (onLcdWheel c s) -> P (onMachine c s) ->
  P (onUnits c s) -> P (onSoftware c s) -> P (onHostHello s) ->
  P (onArmEnable now s) -> P (onArmDisable s) -> P (onHostPing now s) ->
  P (onMotionState c s) -> P (onCoordActive c s) -> P (onCoordView c s) ->
  P (onOffset c s) -> P (onPosWcs c now s) -> P (onPosMcs c now s) ->
  P (onPosReset s) -> P (onPosGet s) -> P (onPosSet c s) ->
  P (onEncoderScale c s) -> P (onMachineZero s) -> P (onEncoderGet now now2 s) ->
  P (onLcdBrightness c s) -> P (s, []) ->
  P (dispatch c now now2 s).
Proof.
  intros. unfold dispatch.
  repeat match goal with
         | |- P (if ?b then _ else _) => destruct b; [assumption|]
         end.
  assumption.
Qed.

Lemma dispatch_frame c now now2 s :
  let s' := fst (dispatch c now now2 s) in
  btn s' = btn s /\ pwr s' = pwr s /\ port s' = port s
  /\ currentEstopState (safety s') = currentEstopState (safety s)
  /\ systemLocked (safety s') = systemLocked (safety s)
  /\ estop_last (safety s') = estop_last (safety s)
  /\ estopPressed (safety s') = estopPressed (safety s)
  /\ currentAxis (sel s') = currentAxis (sel s)
  /\ currentJogDistance (sel s') = currentJogDistance (sel s)
  /\ currentSpeed (sel s') = currentSpeed (sel s)
  /\ currentFeedRate (sel s') = currentFeedRate (sel s).
Proof.
  cbv zeta; repeat split; apply dispatch_cases; arm; reflexivity.
Qed.

Lemma handleEstop_frame raw now s :
  let s' := fst (handleEstop raw now s) in
  btn s' = btn s /\ sel s' = sel s /\ enc s' = enc s /\ port s' = port s
  /\ hostArmed (safety s') = hostArmed (safety s)
  /\ lastHostPing (safety s') = lastHostPing (safety s)
  /\ hostMotionState (safety s') = hostMotionState (safety s).
Proof.
  cbv zeta; repeat split; unfold handleEstop, sendUniversalEstopCommand;
    split_ifs; st; reflexivity.
Qed.

Lemma handleBothButtons_frame r1 r2 now s :
  let s' := handleBothButtons r1 r2 now s in
  safety s' = safety s /\ enc s' = enc s /\ pwr s' = pwr s /\ port s' = port s
  /\ currentAxis (sel s') = currentAxis (sel s)
  /\ currentJogDistance (sel s') = currentJogDistance (sel s)
  /\ currentSpeed (sel s') = currentSpeed (sel s)
  /\ currentFeedRate (sel s') = currentFeedRate (sel s)
  /\ coordView (sel s') = coordView (sel s).
Proof. frame handleBothButtons. Qed.

Lemma handleButton1_frame raw now now2 s :
  let s' := fst (handleButton1 raw now now2 s) in
  safety s' = safety s /\ enc s' = enc s /\ port s' = port s.
Proof.
  cbv zeta; repeat split; unfold handleButton1, button1Release;
    split_ifs; st; reflexivity.
Qed.

Lemma handleButton2_frame raw now s :
  let s' := fst (handleButton2 raw now s) in
  safety s' = safety s /\ enc s' = enc s /\ port s' = port s.
Proof.
  cbv zeta; repeat split; unfold handleButton2, button2Release;
    split_ifs; st; reflexivity.
Qed.

Lemma uiPhase_frame now s :
  let s' := uiPhase now s in
  safety s' = safety s /\ enc s' = enc s /\ btn s' = btn s /\ sel s' = sel s
  /\ pwr s' = pwr s /\ port s' = port s /\ pos s' = pos s.
Proof. frame uiPhase. Qed.

(** What a whole line leaves alone. *)
Lemma processLine_frame line now now2 s :
  let s' := fst (processLine line now now2 s) in
  btn s' = btn s /\ pwr s' = pwr s /\ port s' = port s
  /\ currentEstopState (safety s') = currentEstopState (safety s)
  /\ systemLocked (safety s') = systemLocked (safety s)
  /\ estop_last (safety s') = estop_last (safety s)
  /\ estopPressed (safety s') = estopPressed (safety s)
  /\ currentAxis (sel s') = currentAxis (sel s)
  /\ currentJogDistance (sel s') = currentJogDistance (sel s)
  /\ currentSpeed (sel s') = currentSpeed (sel s)
  /\ currentFeedRate (sel s') = currentFeedRate (sel s).
Proof.
  cbv zeta. unfold processLine.
  destruct (len (trim line) =? 0); [st; tauto|].
  rewrite andThen_fst.
  pose proof (dispatch_frame (trim line) now now2 (fst (autoDetect (trim line) s))) as D.
  cbv zeta in D.
  destruct D as (D1 & D2 & D3 & D4 & D5 & D6 & D7 & D8 & D9 & D10 & D11).
  rewrite D1, D2, D3, D4, D5, D6, D7, D8, D9, D10, D11.
  destruct (autoDetect_frame (trim line) s) as (A1 & A2 & A3 & A4 & _).
  rewrite A1, A2, A3, A4.
  repeat split; unfold autoDetect; split_ifs; st; reflexivity.
Qed.

Lemma processLines_frame clk lines : forall k s,
  let s' := fst (processLines clk k lines s) in
  btn s' = btn s /\ pwr s' = pwr s /\ port s' = port s
  /\ currentEstopState (safety s') = currentEstopState (safety s)
  /\ systemLocked (safety s') = systemLocked (safety s)
  /\ estop_last (safety s') = estop_last (safety s)
  /\ estopPressed (safety s') = estopPressed (safety s)
  /\ currentAxis (sel s') = currentAxis (sel s)
  /\ currentJogDistance (sel s') = currentJogDistance (sel s)
  /\ currentSpeed (sel s') = currentSpeed (sel s)
  /\ currentFeedRate (sel s') = currentFeedRate (sel s).
Proof.
  induction lines as [|l rest IH]; intros k s; cbv zeta.
  - cbn [processLines fst]. tauto.
  - cbn [processLines]. rewrite andThen_fst.
    specialize (IH (S k) (fst (processLine l (fst (clk k)) (snd (clk k)) s))).
    cbv zeta in IH.
    pose proof (processLine_frame l (fst (clk k)) (snd (clk k)) s) as P.
    cbv zeta in P.
    destruct IH as (A1 & A2 & A3 & A4 & A5 & A6 & A7 & A8 & A9 & A10 & A11).
    destruct P as (B1 & B2 & B3 & B4 & B5 & B6 & B7 & B8 & B9 & B10 & B11).
    repeat split; congruence.
Qed.

Lemma processSerialCommands_frame clk s :
  let s' := fst (processSerialCommands clk s) in
  btn s' = btn s /\ pwr s' = pwr s
  /\ currentEstopState (safety s') = currentEstopState (safety s)
  /\ systemLocked (safety s') = systemLocked (safety s)
  /\ estop_last (safety s') = estop_last (safety s)
  /\ estopPressed (safety s') = estopPressed (safety s)
  /\ currentAxis (sel s') = currentAxis (sel s)
  /\ currentJogDistance (sel s') = currentJogDistance (sel s)
  /\ currentSpeed (sel s') = currentSpeed (sel s)
  /\ currentFeedRate (sel s') = currentFeedRate (sel s).
Proof.
  cbv zeta. unfold processSerialCommands.
  pose proof (processLines_frame clk (serial_rx (port s)) O (set_serial_rx [] s)) as P.
  cbv zeta in P. st. tauto.
Qed.

(** The part of the state that the debounce lemma speaks of. *)
Lemma nothingLatched_ext a b :
  btn a = btn b ->
  currentEstopState (safety a) = currentEstopState (safety b) ->
  systemLocked (safety a) = systemLocked (safety b) ->
  estop_last (safety a) = estop_last (safety b) ->
  estopPressed (safety a) = estopPressed (safety b) ->
  nothingLatched b -> nothingLatched a.
Proof.
  unfold nothingLatched. intros -> -> -> -> ->. tauto.
Qed.

Lemma activePhase_latch i s :
  nothingLatched s -> nothingLatched (fst (activePhase i s)).
Proof.
  intros H. unfold activePhase. rewrite !andThen_fst, !silent_fst.
  destruct (uiPhase_frame (t_ui i)
              (fst (processSerialCommands (t_rx i)
                      (fst (handleEncoder (pin_encB i) (t_enc i) s)))))
    as (U1 & _ & U2 & _).
  destruct (processSerialCommands_frame (t_rx i)
              (fst (handleEncoder (pin_encB i) (t_enc i) s)))
    as (P1 & _ & P2 & P3 & P4 & P5 & _).
  destruct (handleEncoder_frame (pin_encB i) (t_enc i) s) as (E1 & E2 & _).
  eapply nothingLatched_ext; [ | | | | | exact H]; congruence.
Qed.

(** ** What the handlers print *)

Lemma noMotion_app a b : noMotion a -> noMotion b -> noMotion (a ++ b).
Proof.
  unfold noMotion, emitsMotion. intros Ha Hb. now rewrite existsb_app, Ha, Hb.
Qed.

Lemma noEcho_app a b : noEcho a -> noEcho b -> noEcho (a ++ b).
Proof.
  unfold noEcho. intros Ha Hb. now rewrite existsb_app, Ha, Hb.
Qed.

Lemma handleEstop_out raw now s :
  noMotion (snd (handleEstop raw now s)) /\ noEcho (snd (handleEstop raw now s)).
Proof.
  split; unfold handleEstop, sendUniversalEstopCommand;
    split_ifs; st; destruct (currentProtocol (sel s)); reflexivity.
Qed.

Lemma handleButton1_out raw now now2 s :
  noMotion (snd (handleButton1 raw now now2 s)).
Proof.
  unfold handleButton1, button1Release; split_ifs; st; try reflexivity;
    try destruct (jog_of_Z _); try destruct (axis_of_Z _); reflexivity.
Qed.

Lemma handleButton2_out raw now s :
  noMotion (snd (handleButton2 raw now s)).
Proof.
  unfold handleButton2, button2Release; split_ifs; st; try reflexivity;
    try destruct (coordView _); try destruct (speed_of_Z _);
    try destruct (feed_of_Z _); reflexivity.
Qed.

Lemma handleToggleSwitch_out raw t1 t2 s :
  noMotion (snd (handleToggleSwitch raw t1 t2 s))
  /\ noEcho (snd (handleToggleSwitch raw t1 t2 s)).
Proof. split; unfold handleToggleSwitch; split_ifs; reflexivity. Qed.

Lemma handlePowerManagement_out now s :
  noMotion (snd (handlePowerManagement now s))
  /\ noEcho (snd (handlePowerManagement now s)).
Proof. split; unfold handlePowerManagement; split_ifs; reflexivity. Qed.

(** The input handlers never print a motion command. *)
Lemma inputPhase_noMotion i s : noMotion (snd (inputPhase i s)).
Proof.
  unfold inputPhase. rewrite !andThen_snd, !silent_snd.
  repeat apply noMotion_app.
  - reflexivity.
  - apply handleEstop_out.
  - reflexivity.
  - apply handleButton1_out.
  - apply handleButton2_out.
  - apply handleToggleSwitch_out.
  - apply handlePowerManagement_out.
Qed.

(** From a state in which nothing is latched the input handlers latch
    nothing, leave every selection as it is and print no echo. *)
Lemma inputPhase_latch i s :
  nothingLatched s ->
  nothingLatched (fst (inputPhase i s))
  /\ currentAxis (sel (fst (inputPhase i s))) = currentAxis (sel s)
  /\ currentJogDistance (sel (fst (inputPhase i s))) = currentJogDistance (sel s)
  /\ currentSpeed (sel (fst (inputPhase i s))) = currentSpeed (sel s)
  /\ currentFeedRate (sel (fst (inputPhase i s))) = currentFeedRate (sel s)
  /\ coordView (sel (fst (inputPhase i s))) = coordView (sel s)
  /\ noEcho (snd (inputPhase i s)).
Proof.
  intros H0.
  unfold inputPhase.
  rewrite !andThen_snd, !andThen_fst, !silent_fst, !silent_snd.
  set (s1 := receive i s).
  set (s2 := fst (handleEstop (pin_estop i) (t_estop i) s1)).
  set (s3 := handleBothButtons (pin_b1_both i) (pin_b2_both i) (t_both i) s2).
  set (s4 := fst (handleButton1 (pin_b1 i) (t_b1 i) (t_b1_gate i) s3)).
  set (s5 := fst (handleButton2 (pin_b2 i) (t_b2 i) s4)).
  set (s6 := fst (handleToggleSwitch (pin_toggle i) (t_toggle i) (t_toggle2 i) s5)).
  assert (H1 : nothingLatched s1).
  { destruct (receive_frame i s) as (A1 & A2 & _).
    eapply nothingLatched_ext; [ | | | | | exact H0]; subst s1; congruence. }
  assert (R3 : sel s1 = sel s) by apply receive_frame.
  destruct (handleEstop_latch (pin_estop i) (t_estop i) s1 H1) as (H2 & O2).
  assert (E2 : sel s2 = sel s1) by apply handleEstop_frame.
  pose proof (handleBothButtons_latch (pin_b1_both i) (pin_b2_both i) (t_both i) s2 H2)
    as H3.
  destruct (handleBothButtons_frame (pin_b1_both i) (pin_b2_both i) (t_both i) s2)
    as (_ & _ & _ & _ & B1 & B2 & B3 & B4 & B5).
  destruct (handleButton1_latch (pin_b1 i) (t_b1 i) (t_b1_gate i) s3 H3)
    as (H4 & O4 & S4).
  destruct (handleButton2_latch (pin_b2 i) (t_b2 i) s4 H4) as (H5 & O5 & S5).
  destruct (handleToggleSwitch_frame (pin_toggle i) (t_toggle i) (t_toggle2 i) s5)
    as (T1 & T2 & T3 & _).
  destruct (handlePowerManagement_frame (t_power i) s6) as (P1 & P2 & P3 & _).
  fold s2 in H2, O2. fold s3 in H3, B1, B2, B3, B4, B5.
  fold s4 in H4, O4, S4, H5, O5, S5. fold s5 in H5, O5, S5, T1, T2, T3.
  fold s6 in T1, T2, T3, P1, P2, P3.
  rewrite O2, O4, O5. cbn [app].
  split.
  { eapply nothingLatched_ext; [ | | | | | exact H5]; congruence. }
  rewrite P3, T3, S5, S4, B1, B2, B3, B4, B5, E2, R3.
  repeat split; try reflexivity.
  apply noEcho_app; [apply handleToggleSwitch_out | apply handlePowerManagement_out].
Qed.

(** In every state the device reaches nothing is latched: the E-stop
    input and the two buttons never register. *)
Lemma loop_latch i s : nothingLatched s -> nothingLatched (fst (loop i s)).
Proof.
  intros H. unfold loop.
  destruct (inputPhase_latch i s H) as (H1 & _).
  destruct (PowerState_beq _ _ && estopReleased _); cbn [fst].
  - now apply activePhase_latch.
  - exact H1.
Qed.

Lemma reachable_latch s : reachable s -> nothingLatched s.
Proof.
  induction 1 as [|i s _ IH].
  - unfold nothingLatched. cbn. tauto.
  - now apply loop_latch.
Qed.

(** ** The encoder handler, case by case *)

Lemma updatePositionTracking_frame a s :
  let s' := updatePositionTracking a s in
  safety s' = safety s /\ sel s' = sel s /\ enc s' = enc s /\ btn s' = btn s
  /\ pwr s' = pwr s /\ port s' = port s.
Proof.
  cbv zeta; repeat split; unfold updatePositionTracking;
    destruct (currentAxis (sel s)); reflexivity.
Qed.

(** No pulse, or a position held by the clamp: nothing moves. *)
Lemma handleEncoder_idle encB now s :
  rawMovementOf encB s = 0 ->
  snd (handleEncoder encB now s) = []
  /\ scaledEncoderPosition (enc (fst (handleEncoder encB now s)))
     = scaledEncoderPosition (enc s)
  /\ lastEncoderPos (enc (fst (handleEncoder encB now s))) = lastEncoderPos (enc s).
Proof.
  unfold rawMovementOf, handleEncoder. intros H.
  destruct (encAedges (enc s) =? 0).
  - repeat split.
  - rewrite H. change (0 =? 0) with true. repeat split.
Qed.

(** Less than one scaled tick: the raw movement is carried. *)
Lemma handleEncoder_small encB now s :
  rawMovementOf encB s <> 0 -> scaledMovementOf encB s = 0 ->
  snd (handleEncoder encB now s) = []
  /\ scaledEncoderPosition (enc (fst (handleEncoder encB now s)))
     = scaledEncoderPosition (enc s) + rawMovementOf encB s
  /\ lastEncoderPos (enc (fst (handleEncoder encB now s)))
     = lastEncoderPos (enc s) + rawMovementOf encB s.
Proof.
  unfold scaledMovementOf, rawMovementOf, handleEncoder. intros H1 H2.
  destruct (encAedges (enc s) =? 0); [easy|].
  apply Z.eqb_neq in H1. rewrite H1 in *.
  apply Z.eqb_eq in H2. rewrite H2.
  repeat split; st; lia.
Qed.

(** A scaled movement is ready and the gate of the handler fails. *)
Lemma handleEncoder_blocked encB now s :
  scaledMovementOf encB s <> 0 -> hostGate now s = false ->
  snd (handleEncoder encB now s) = []
  /\ scaledEncoderPosition (enc (fst (handleEncoder encB now s))) = 0
  /\ lastEncoderPos (enc (fst (handleEncoder encB now s)))
     = lastEncoderPos (enc s) + rawMovementOf encB s.
Proof.
  unfold scaledMovementOf, rawMovementOf, handleEncoder. intros H1 H2.
  destruct (encAedges (enc s) =? 0); [easy|].
  destruct (_ - _ =? 0) eqn:E; [easy|].
  apply Z.eqb_neq in H1. rewrite H1.
  match goal with |- context [hostGate now ?t] => set (s3 := t) end.
  assert (G : hostGate now s3 = hostGate now s) by reflexivity.
  rewrite G, H2. cbn [negb].
  repeat split; subst s3; st; try reflexivity; lia.
Qed.

Lemma sendUniversalJogCommand_motion a p d s :
  emitsMotion (sendUniversalJogCommand a p d s) = negb (blockedByLock s).
Proof.
  unfold sendUniversalJogCommand, blockedByLock.
  destruct (systemLocked (safety s) || negb (estopReleased s)); [reflexivity|].
  destruct (currentProtocol (sel s)); reflexivity.
Qed.

Lemma legacyKeys_motion p s :
  emitsMotion (legacyKeys p s)
  = CommProtocol_beq (currentProtocol (sel s)) PROTOCOL_LANGMUIR.
Proof.
  unfold legacyKeys.
  destruct (CommProtocol_beq _ _); [|reflexivity].
  destruct (currentAxis (sel s)), p; reflexivity.
Qed.

(** A scaled movement is ready and the gate of the handler passes. *)
Lemma handleEncoder_jog encB now s :
  scaledMovementOf encB s <> 0 -> hostGate now s = true ->
  emitsMotion (snd (handleEncoder encB now s))
  = negb (blockedByLock s)
    || CommProtocol_beq (currentProtocol (sel s)) PROTOCOL_LANGMUIR
  /\ scaledEncoderPosition (enc (fst (handleEncoder encB now s)))
     = Z.rem (scaledEncoderPosition (enc s) + rawMovementOf encB s)
             (encoderScale (enc s))
  /\ lastEncoderPos (enc (fst (handleEncoder encB now s)))
     = lastEncoderPos (enc s) + rawMovementOf encB s.
Proof.
  unfold scaledMovementOf, rawMovementOf, handleEncoder. intros H1 H2.
  destruct (encAedges (enc s) =? 0); [easy|].
  destruct (_ - _ =? 0) eqn:E; [easy|].
  apply Z.eqb_neq in H1. rewrite H1.
  match goal with |- context [hostGate now ?t] => set (s3 := t) end.
  assert (G : hostGate now s3 = hostGate now s) by reflexivity.
  rewrite G, H2. cbn [negb].
  match goal with |- context [updatePositionTracking ?a s3] =>
    set (s4 := updatePositionTracking a s3);
    destruct (updatePositionTracking_frame a s3) as (F1 & F2 & F3 & _)
  end.
  fold s4 in F1, F2, F3.
  split; [|split].
  - cbn [snd]. unfold emitsMotion. rewrite existsb_app.
    fold (emitsMotion (legacyKeys
            ((scaledEncoderPosition (enc s)
              + (clampPosition (encoderPosition (enc s)
                   + (if encB then 1 else -1) * encAedges (enc s))
                 - lastEncoderPos (enc s))) ÷ encoderScale (enc s) >? 0) s4)).
    rewrite legacyKeys_motion, F2.
    match goal with |- existsb is_motion ?l || _ = _ => fold (emitsMotion l) end.
    rewrite sendUniversalJogCommand_motion.
    unfold blockedByLock, estopReleased. rewrite F1. reflexivity.
  - st. rewrite F3. subst s3. reflexivity.
  - st. rewrite F3. subst s3. st. lia.
Qed.

Lemma scaledMovementOf_raw encB s :
  scaledMovementOf encB s <> 0 -> rawMovementOf encB s <> 0.
Proof.
  unfold scaledMovementOf. destruct (rawMovementOf encB s =? 0) eqn:E.
  - congruence.
  - intros _. now apply Z.eqb_neq.
Qed.

Lemma scaledMovementOf_quot encB s :
  rawMovementOf encB s <> 0 ->
  scaledMovementOf encB s
  = (scaledEncoderPosition (enc s) + rawMovementOf encB s) ÷ encoderScale (enc s).
Proof.
  intros H. unfold scaledMovementOf. apply Z.eqb_neq in H. now rewrite H.
Qed.

(** ** Remainder invariant *)

Lemma remainderInv_ext a b :
  encoderScale (enc a) = encoderScale (enc b) ->
  scaledEncoderPosition (enc a) = scaledEncoderPosition (enc b) ->
  remainderInv b -> remainderInv a.
Proof. unfold remainderInv. intros -> ->. tauto. Qed.

Lemma handleEncoder_remainder encB now s :
  remainderInv s -> remainderInv (fst (handleEncoder encB now s)).
Proof.
  intros [Hs Hr]. unfold remainderInv.
  assert (S : encoderScale (enc (fst (handleEncoder encB now s)))
              = encoderScale (enc s)) by apply handleEncoder_frame.
  rewrite S. split; [exact Hs|].
  destruct (Z.eq_dec (rawMovementOf encB s) 0) as [R|R].
  - destruct (handleEncoder_idle encB now s R) as (_ & -> & _). exact Hr.
  - destruct (Z.eq_dec (scaledMovementOf encB s) 0) as [M|M].
    + destruct (handleEncoder_small encB now s R M) as (_ & -> & _).
      rewrite (scaledMovementOf_quot _ _ R) in M.
      apply Z.quot_small_iff in M; lia.
    + destruct (hostGate now s) eqn:G.
      * destruct (handleEncoder_jog encB now s M G) as (_ & -> & _).
        pose proof (Z.rem_bound_abs
                      (scaledEncoderPosition (enc s) + rawMovementOf encB s)
                      (encoderScale (enc s))). lia.
      * destruct (handleEncoder_blocked encB now s M G) as (_ & -> & _). lia.
Qed.

Lemma dispatch_remainder c now now2 s :
  remainderInv s -> remainderInv (fst (dispatch c now now2 s)).
Proof.
  intros H.
  apply dispatch_cases; arm; try exact H;
    unfold remainderInv in *; st; try exact H; lia.
Qed.

Lemma processLine_remainder line now now2 s :
  remainderInv s -> remainderInv (fst (processLine line now now2 s)).
Proof.
  intros H. unfold processLine.
  destruct (len (trim line) =? 0); [exact H|].
  rewrite andThen_fst. apply dispatch_remainder.
  destruct (autoDetect_frame (trim line) s) as (_ & _ & _ & _ & E & _).
  eapply remainderInv_ext; [ | | exact H]; now rewrite E.
Qed.

Lemma processLines_remainder clk lines : forall k s,
  remainderInv s -> remainderInv (fst (processLines clk k lines s)).
Proof.
  induction lines as [|l rest IH]; intros k s H; cbn [processLines].
  - exact H.
  - rewrite andThen_fst. apply IH. now apply processLine_remainder.
Qed.

Lemma inputPhase_counters i s : sameCounters s (fst (inputPhase i s)).
Proof.
  unfold inputPhase. rewrite !andThen_fst, !silent_fst.
  set (s1 := receive i s).
  set (s2 := fst (handleEstop (pin_estop i) (t_estop i) s1)).
  set (s3 := handleBothButtons (pin_b1_both i) (pin_b2_both i) (t_both i) s2).
  set (s4 := fst (handleButton1 (pin_b1 i) (t_b1 i) (t_b1_gate i) s3)).
  set (s5 := fst (handleButton2 (pin_b2 i) (t_b2 i) s4)).
  set (s6 := fst (handleToggleSwitch (pin_toggle i) (t_toggle i) (t_toggle2 i) s5)).
  destruct (receive_frame i s) as (_ & _ & _ & _ & R1 & R2 & R3 & R4).
  assert (E2 : enc s2 = enc s1) by apply handleEstop_frame.
  assert (E3 : enc s3 = enc s2) by apply handleBothButtons_frame.
  assert (E4 : enc s4 = enc s3) by apply handleButton1_frame.
  assert (E5 : enc s5 = enc s4) by apply handleButton2_frame.
  assert (E6 : enc s6 = enc s5) by apply handleToggleSwitch_frame.
  assert (E7 : enc (fst (handlePowerManagement (t_power i) s6)) = enc s6)
    by apply handlePowerManagement_frame.
  unfold sameCounters. rewrite E7, E6, E5, E4, E3, E2. fold s1 in R1, R2, R3, R4.
  repeat split; congruence.
Qed.

Lemma activePhase_remainder i s :
  remainderInv s -> remainderInv (fst (activePhase i s)).
Proof.
  intros H. unfold activePhase. rewrite !andThen_fst, !silent_fst.
  set (s1 := fst (handleEncoder (pin_encB i) (t_enc i) s)).
  assert (H1 : remainderInv s1) by now apply handleEncoder_remainder.
  unfold processSerialCommands.
  assert (H2 : remainderInv (set_serial_rx [] s1)) by exact H1.
  pose proof (processLines_remainder (t_rx i) (serial_rx (port s1)) O _ H2) as H3.
  destruct (uiPhase_frame (t_ui i)
              (fst (processLines (t_rx i) O (serial_rx (port s1)) (set_serial_rx [] s1))))
    as (_ & E & _).
  eapply remainderInv_ext; [ | | exact H3]; now rewrite E.
Qed.

Lemma loop_remainder i s : remainderInv s -> remainderInv (fst (loop i s)).
Proof.
  intros H. unfold loop.
  assert (H1 : remainderInv (fst (inputPhase i s))).
  { destruct (inputPhase_counters i s) as (_ & _ & A & B).
    eapply remainderInv_ext; [ | | exact H]; congruence. }
  destruct (PowerState_beq _ _ && estopReleased _); cbn [fst].
  - now apply activePhase_remainder.
  - exact H1.
Qed.

Lemma reachable_run ins : forall s, reachable s -> reachable (fst (run ins s)).
Proof.
  induction ins as [|i rest IH]; intros s H; cbn [run].
  - exact H.
  - rewrite andThen_fst. apply IH. now constructor.
Qed.

(** C5. In every state reached after any sequence of loop iterations
    (encoder-handler calls and host lines in any order), the absolute
    value of [scaledEncoderPosition] is strictly below [encoderScale],
    which is at least 1. *)
Theorem C5_remainder_below_scale :
  forall s, reachable s -> remainderInv s.
Proof.
  induction 1 as [|i s _ IH].
  - unfold remainderInv. cbn. lia.
  - now apply loop_remainder.
Qed.

Lemma C5_witness :
  let sW := fst (run [withLines ["ENCODER:SCALE,5"] (idleAt 100);
                      withEdges [10000; 20000; 30000] (idleAt 200)] initState) in
  remainderInv sW
  /\ scaledEncoderPosition (enc sW) = 3 /\ encoderScale (enc sW) = 5.
Proof.
  cbv zeta. split.
  - apply C5_remainder_below_scale. apply reachable_run, reach_init.
  - vm_compute. split; reflexivity.
Defined.

(** ** Lock invariant *)

Lemma lockExact_ext a b :
  currentEstopState (safety a) = currentEstopState (safety b) ->
  systemLocked (safety a) = systemLocked (safety b) ->
  lockExact a = lockExact b.
Proof. unfold lockExact, estopReleased. now intros -> ->. Qed.

Lemma handleEstop_lock raw now s :
  lockExact s = true -> lockExact (fst (handleEstop raw now s)) = true.
Proof.
  intros H. unfold handleEstop, sendUniversalEstopCommand.
  split_ifs; st; try exact H; reflexivity.
Qed.

Lemma inputPhase_lock i s :
  lockExact s = true -> lockExact (fst (inputPhase i s)) = true.
Proof.
  intros H. unfold inputPhase. rewrite !andThen_fst, !silent_fst.
  set (s1 := receive i s).
  set (s2 := fst (handleEstop (pin_estop i) (t_estop i) s1)).
  set (s3 := handleBothButtons (pin_b1_both i) (pin_b2_both i) (t_both i) s2).
  set (s4 := fst (handleButton1 (pin_b1 i) (t_b1 i) (t_b1_gate i) s3)).
  set (s5 := fst (handleButton2 (pin_b2 i) (t_b2 i) s4)).
  set (s6 := fst (handleToggleSwitch (pin_toggle i) (t_toggle i) (t_toggle2 i) s5)).
  assert (E1 : safety s1 = safety s) by apply receive_frame.
  assert (H2 : lockExact s2 = true).
  { apply handleEstop_lock. rewrite <- H. apply lockExact_ext; now rewrite E1. }
  assert (E3 : safety s3 = safety s2) by apply handleBothButtons_frame.
  assert (E4 : safety s4 = safety s3) by apply handleButton1_frame.
  assert (E5 : safety s5 = safety s4) by apply handleButton2_frame.
  assert (E6 : safety s6 = safety s5) by apply handleToggleSwitch_frame.
  assert (E7 : safety (fst (handlePowerManagement (t_power i) s6)) = safety s6)
    by apply handlePowerManagement_frame.
  rewrite <- H2. apply lockExact_ext; congruence.
Qed.

Lemma activePhase_lock i s :
  lockExact (fst (activePhase i s)) = lockExact s.
Proof.
  unfold activePhase. rewrite !andThen_fst, !silent_fst.
  set (s1 := fst (handleEncoder (pin_encB i) (t_enc i) s)).
  set (s2 := fst (processSerialCommands (t_rx i) s1)).
  assert (E1 : safety s1 = safety s) by apply handleEncoder_frame.
  destruct (processSerialCommands_frame (t_rx i) s1) as (_ & _ & A & B & _).
  fold s2 in A, B.
  assert (E3 : safety (uiPhase (t_ui i) s2) = safety s2) by apply uiPhase_frame.
  apply lockExact_ext; congruence.
Qed.

Lemma loop_lock i s : lockExact s = true -> lockExact (fst (loop i s)) = true.
Proof.
  intros H. unfold loop.
  pose proof (inputPhase_lock i s H) as H1.
  destruct (PowerState_beq _ _ && estopReleased _); cbn [fst].
  - now rewrite activePhase_lock.
  - exact H1.
Qed.

Lemma lockExact_lockInv s : lockExact s = true -> lockInv s = true.
Proof.
  unfold lockExact, lockInv.
  destruct (systemLocked (safety s)), (estopReleased s); easy.
Qed.

Lemma reachable_lock s : reachable s -> lockExact s = true.
Proof.
  induction 1 as [|i s _ IH]; [reflexivity | now apply loop_lock].
Qed.

(** C2. In every reachable state the system-locked flag is set whenever
    the E-stop state is not released, whatever the arming flag; and the
    main loop keeps the flag an exact mirror of the E-stop state from any
    state in which it is one (pressed states included). *)
Theorem C2_locked_while_estop_not_released :
  (forall s, reachable s -> lockInv s = true)
  /\ (forall i s, lockExact s = true ->
        lockExact (fst (loop i s)) = true /\ lockInv (fst (loop i s)) = true).
Proof.
  split.
  - intros s H. now apply lockExact_lockInv, reachable_lock.
  - intros i s H. pose proof (loop_lock i s H) as L.
    split; [exact L | now apply lockExact_lockInv].
Qed.

Lemma C2_witness :
  lockInv (fst (loop (idleAt 100) initState)) = true
  /\ lockExact estopHeld = true
  /\ currentEstopState (safety (fst (loop (idleAt 2000) estopHeld))) = ESTOP_PRESSED
  /\ lockInv (fst (loop (idleAt 2000) estopHeld)) = true.
Proof.
  split; [|split; [|split]].
  - apply (proj1 C2_locked_while_estop_not_released). apply reach_loop, reach_init.
  - reflexivity.
  - vm_compute. reflexivity.
  - apply (proj2 C2_locked_while_estop_not_released). reflexivity.
Defined.

(** ** Gate of the encoder handler *)

Lemma hostGate_false now s :
  hostArmed (safety s) = false
  \/ HOST_TIMEOUT_MS < usub now (lastHostPing (safety s))
  \/ hostMotionState (safety s) <> MS_IDLE ->
  hostGate now s = false.
Proof.
  unfold hostGate. intros [H | [H | H]].
  - now rewrite H.
  - apply Z.leb_gt in H. rewrite H. now rewrite andb_false_r.
  - destruct (hostMotionState (safety s)); try easy; now rewrite andb_false_r.
Qed.

(** C3 (failing run). From power-up, with the E-stop pin at its pressed
    level in every iteration, the host sets the encoder scale to 2 and
    arms the pendant, and the encoder is turned three detents.  In the
    third iteration a scaled movement is ready with the E-stop asserted:
    the E-stop state is still released, a jog command is printed and the
    remainder is left at 1, where the claim has nothing printed and the
    remainder reset to zero. *)
Theorem C3_estop_asserted_movement_is_emitted :
  let ins := [withEstopAsserted (idleAt 1000);
              withLines ["ENCODER:SCALE,2"; "ARM:ENABLE"]
                (withEstopAsserted (idleAt 1500))] in
  let i := withEdges [10000; 20000; 30000] (withEstopAsserted (idleAt 2000)) in
  let s := fst (run ins initState) in
  Forall (fun j => pin_estop j = false) (ins ++ [i])
  /\ currentEstopState (safety (fst (inputPhase i s))) = ESTOP_RELEASED
  /\ scaledMovementOf (pin_encB i) (fst (inputPhase i s)) = 1
  /\ snd (loop i s)
     = [Printf "JOG:%c,%c%.4f" [AChar "Z"; AChar "+"; AFloat (1 # 40)];
        Printf "MOVE:%c,%c%.4f%s" [AChar "Z"; AChar "+"; AFloat (1 # 40); AStr "MM"];
        Println "KEY:PGUP,1"; Println "KEY:PGUP,0"]
  /\ emitsMotion (snd (loop i s)) = true
  /\ scaledEncoderPosition (enc (fst (loop i s))) = 1.
Proof.
  cbv zeta. split; [repeat constructor|].
  vm_compute. repeat split.
Qed.

(** Ticks below one scaled step are carried whether or not the host has
    armed, because the handler returns before its gate: with scale 5,
    four detents turned before [ARM:ENABLE] and one after it print a jog
    command. *)
Example substep_ticks_count_after_arming :
  let ins := [withLines ["ENCODER:SCALE,5"] (idleAt 1000);
              withEdges [10000; 20000; 30000; 40000] (idleAt 1500);
              withLines ["ARM:ENABLE"] (idleAt 2000)] in
  let i := withEdges [50000] (idleAt 2500) in
  let s := fst (run ins initState) in
  noMotion (snd (run ins initState))
  /\ scaledEncoderPosition (enc s) = 4
  /\ emitsMotion (snd (loop i s)) = true.
Proof. vm_compute. repeat split. Qed.

(** ** Tick accounting *)

Lemma handleEncoder_account encB now s :
  motionAuthorized now s = true -> systemLocked (safety s) = false ->
  emittedMovement encB now s * encoderScale (enc s)
  + scaledEncoderPosition (enc (fst (handleEncoder encB now s)))
  = scaledEncoderPosition (enc s) + rawMovementOf encB s.
Proof.
  unfold motionAuthorized, emittedMovement. intros A L.
  apply andb_true_iff in A. destruct A as [G R].
  destruct (Z.eq_dec (rawMovementOf encB s) 0) as [R0|R0].
  - destruct (handleEncoder_idle encB now s R0) as (-> & -> & _). cbn. lia.
  - destruct (Z.eq_dec (scaledMovementOf encB s) 0) as [M|M].
    + destruct (handleEncoder_small encB now s R0 M) as (-> & -> & _). cbn. lia.
    + destruct (handleEncoder_jog encB now s M G) as (-> & -> & _).
      unfold blockedByLock. rewrite L, R. cbn [negb orb].
      rewrite (scaledMovementOf_quot _ _ R0).
      pose proof (Z.quot_rem' (scaledEncoderPosition (enc s) + rawMovementOf encB s)
                    (encoderScale (enc s))). lia.
Qed.

(** C4 (amended). Over any sequence of encoder-handler calls with a
    fixed scale in which motion is authorized at every call, the emitted
    scaled movements times the scale, plus the final remainder, equal the
    initial remainder plus the raw movement consumed. *)
Theorem C4_ticks_conserved_while_authorized :
  forall cs s0,
    chained s0 cs -> Forall authorizedCall cs ->
    totalEmitted cs * encoderScale (enc s0)
    + scaledEncoderPosition (enc (lastState s0 cs))
    = scaledEncoderPosition (enc s0) + totalRaw cs.
Proof.
  induction cs as [|c rest IH]; intros s0 Hc Ha.
  - cbn. lia.
  - cbn [chained] in Hc. destruct Hc as ((_ & _ & S & R) & Hc).
    inversion Ha as [|? ? [A L] Ha']; subst.
    specialize (IH (post c) Hc Ha').
    assert (E : encoderScale (enc (post c)) = encoderScale (enc (pre c)))
      by apply handleEncoder_frame.
    pose proof (handleEncoder_account (callB c) (callNow c) (pre c) A L) as Acc.
    fold (post c) in Acc.
    cbn [totalEmitted totalRaw fold_right lastState].
    fold (totalEmitted rest). fold (totalRaw rest).
    rewrite E in IH. rewrite S, R. lia.
Qed.

Lemma C4_witness :
  let a0 := set_encAedges 3
              (set_encoderScale 2 (set_hostArmed true initState)) in
  let c1 := MkEncCall a0 true 100 in
  let c2 := MkEncCall (set_encAedges 2 (post c1)) true 200 in
  totalEmitted [c1; c2] = 2 /\ totalRaw [c1; c2] = 5
  /\ totalEmitted [c1; c2] * encoderScale (enc a0)
     + scaledEncoderPosition (enc (lastState a0 [c1; c2]))
     = scaledEncoderPosition (enc a0) + totalRaw [c1; c2].
Proof.
  cbv zeta. split; [vm_compute; reflexivity|]. split; [vm_compute; reflexivity|].
  apply C4_ticks_conserved_while_authorized.
  - vm_compute. repeat split; reflexivity.
  - repeat constructor; vm_compute; reflexivity.
Defined.

(** C4, as stated, fails when the host is not armed: five pulses at scale
    1 are consumed, nothing is emitted and the remainder is cleared. *)
Lemma C4_counterexample :
  let c := MkEncCall (set_encAedges 5 initState) true 100 in
  chained initState [c]
  /\ totalRaw [c] = 5 /\ totalEmitted [c] = 0
  /\ scaledEncoderPosition (enc (lastState initState [c])) = 0
  /\ totalEmitted [c] * encoderScale (enc initState)
     + scaledEncoderPosition (enc (lastState initState [c])) <> totalRaw [c].
Proof.
  vm_compute. repeat split; try reflexivity; discriminate.
Qed.

(** ** Motion gate of the main loop *)

Lemma dispatch_noMotion c now now2 s : noMotion (snd (dispatch c now now2 s)).
Proof.
  apply dispatch_cases; arm; try reflexivity;
    destruct (machineOfToken _ _); reflexivity.
Qed.

Lemma autoDetect_noMotion c s : noMotion (snd (autoDetect c s)).
Proof. unfold autoDetect. split_ifs; reflexivity. Qed.

Lemma processLine_noMotion line now now2 s :
  noMotion (snd (processLine line now now2 s)).
Proof.
  unfold processLine. destruct (len (trim line) =? 0); [reflexivity|].
  rewrite andThen_snd.
  apply noMotion_app; [apply autoDetect_noMotion | apply dispatch_noMotion].
Qed.

Lemma processLines_noMotion clk lines : forall k s,
  noMotion (snd (processLines clk k lines s)).
Proof.
  induction lines as [|l rest IH]; intros k s; cbn [processLines].
  - reflexivity.
  - rewrite andThen_snd. apply noMotion_app; [apply processLine_noMotion | apply IH].
Qed.

Lemma handleEncoder_motion encB now s :
  lockExact s = true -> estopReleased s = true ->
  emitsMotion (snd (handleEncoder encB now s))
  = negb (scaledMovementOf encB s =? 0) && hostGate now s.
Proof.
  intros L R.
  destruct (Z.eq_dec (scaledMovementOf encB s) 0) as [M|M].
  - rewrite M. cbn [Z.eqb negb andb].
    destruct (Z.eq_dec (rawMovementOf encB s) 0) as [R0|R0].
    + now destruct (handleEncoder_idle encB now s R0) as (-> & _).
    + now destruct (handleEncoder_small encB now s R0 M) as (-> & _).
  - apply Z.eqb_neq in M as M'. rewrite M'. cbn [negb andb].
    destruct (hostGate now s) eqn:G.
    + destruct (handleEncoder_jog encB now s M G) as (-> & _).
      unfold lockExact in L. unfold blockedByLock. rewrite R in *.
      cbn [negb] in *. apply eqb_prop in L. now rewrite L.
    + now destruct (handleEncoder_blocked encB now s M G) as (-> & _).
Qed.

(** The gate as the loop applies it: in an iteration started from a state
    whose lock flag mirrors the E-stop state, a motion command is printed
    exactly when, after the input handlers, the power state is active, the
    E-stop state is released, a scaled movement is ready, and the host is
    armed, heard from within the timeout and idle. *)
Lemma loop_motion_gate i s :
  lockExact s = true ->
  emitsMotion (snd (loop i s))
  = PowerState_beq (currentPowerState (pwr (fst (inputPhase i s)))) POWER_ACTIVE
    && estopReleased (fst (inputPhase i s))
    && (negb (scaledMovementOf (pin_encB i) (fst (inputPhase i s)) =? 0)
        && hostGate (t_enc i) (fst (inputPhase i s))).
Proof.
  intros L. pose proof (inputPhase_lock i s L) as L1.
  pose proof (inputPhase_noMotion i s) as N1.
  unfold loop.
  set (s1 := fst (inputPhase i s)) in *.
  destruct (PowerState_beq (currentPowerState (pwr s1)) POWER_ACTIVE) eqn:P;
    [|exact N1].
  destruct (estopReleased s1) eqn:R; [|exact N1].
  cbn [andb snd].
  unfold emitsMotion. rewrite existsb_app. fold (emitsMotion (snd (inputPhase i s))).
  rewrite N1. cbn [orb].
  unfold activePhase. rewrite !andThen_snd, silent_snd, app_nil_r, existsb_app.
  fold (emitsMotion (snd (handleEncoder (pin_encB i) (t_enc i) s1))).
  rewrite (handleEncoder_motion _ _ _ L1 R).
  match goal with |- _ || existsb is_motion ?l = _ =>
    assert (N : existsb is_motion l = false) by apply processLines_noMotion
  end.
  rewrite N. now rewrite orb_false_r.
Qed.

(** The level on the E-stop pin has no part in it: in every state the
    device reaches the E-stop state is released and the lock is off. *)
Lemma estop_input_never_registers s :
  reachable s ->
  currentEstopState (safety s) = ESTOP_RELEASED /\ systemLocked (safety s) = false.
Proof.
  intros H. destruct (reachable_latch s H) as (_ & _ & A & B & _). now split.
Qed.

(** So the gate of a reachable iteration does not depend on the E-stop
    pin at all. *)
Lemma reachable_motion_gate i s :
  reachable s ->
  emitsMotion (snd (loop i s))
  = PowerState_beq (currentPowerState (pwr (fst (inputPhase i s)))) POWER_ACTIVE
    && (negb (scaledMovementOf (pin_encB i) (fst (inputPhase i s)) =? 0)
        && hostGate (t_enc i) (fst (inputPhase i s))).
Proof.
  intros H.
  rewrite (loop_motion_gate i s (reachable_lock s H)).
  apply reachable_latch in H.
  destruct (inputPhase_latch i s H) as ((_ & _ & R & _) & _).
  unfold estopReleased. rewrite R.
  change (EstopState_beq ESTOP_RELEASED ESTOP_RELEASED) with true.
  now rewrite andb_true_r.
Qed.

(** C1 (failing run). From power-up, with the E-stop pin at its pressed
    level in every iteration, the host arms the pendant and the encoder is
    turned three detents: the E-stop state is still released and a jog
    command is printed. *)
Theorem C1_motion_with_estop_input_asserted :
  let ins := [withEstopAsserted (idleAt 1000);
              withEstopAsserted (idleAt 1500);
              withLines ["ARM:ENABLE"] (withEstopAsserted (idleAt 2000));
              withEdges [10000; 20000; 30000] (withEstopAsserted (idleAt 2500))] in
  Forall (fun i => pin_estop i = false) ins
  /\ currentEstopState (safety (fst (run ins initState))) = ESTOP_RELEASED
  /\ snd (run ins initState)
     = [Println "ARM:ENABLED";
        Printf "JOG:%c,%c%.4f" [AChar "Z"; AChar "+"; AFloat (3 # 40)];
        Printf "MOVE:%c,%c%.4f%s" [AChar "Z"; AChar "+"; AFloat (3 # 40); AStr "MM"];
        Println "KEY:PGUP,1"; Println "KEY:PGUP,0"]
  /\ emitsMotion (snd (run ins initState)) = true.
Proof.
  cbv zeta. split; [repeat constructor|].
  vm_compute. repeat split; reflexivity.
Qed.

(** ** Button 1: classification of a release *)

(** C9 (failing run). From power-up button 1 is held down for 1200 ms,
    read every 10 ms, and then released; later it is held for 500 ms and
    released.  The claim classifies the first release as long (the jog
    distance advances) and the second as short (the axis advances).
    Neither press is ever registered: the jog distance and the axis are
    those of power-up and nothing is printed. *)
Theorem C9_holds_are_never_classified :
  let r := run (button1Held 1000 1200 ++ button1Held 3000 500) initState in
  Forall (fun i => pin_b1 i = false) (firstn 121 (button1Held 1000 1200))
  /\ currentJogDistance (sel (fst r)) = currentJogDistance (sel initState)
  /\ currentAxis (sel (fst r)) = currentAxis (sel initState)
  /\ button1Pressed (btn (fst r)) = false
  /\ snd r = [].
Proof.
  cbv zeta. split.
  - vm_compute. repeat constructor.
  - vm_compute. repeat split.
Qed.

(** ** Strings *)

Lemma substring_skip p t n :
  String.substring (String.length p) n (p ++ t)%string = String.substring 0 n t.
Proof. induction p as [|a p IH]; [reflexivity | exact IH]. Qed.

Lemma substring_all t : String.substring 0 (String.length t) t = t.
Proof. induction t as [|a t IH]; [reflexivity | cbn; now rewrite IH]. Qed.

Lemma length_app p t :
  String.length (p ++ t)%string = (String.length p + String.length t)%nat.
Proof. induction p as [|a p IH]; [reflexivity | cbn; now rewrite IH]. Qed.

Lemma substrFrom_app p t :
  Z.of_nat (String.length p) < 2 ^ 32 ->
  substrFrom (Z.of_nat (String.length p)) (p ++ t)%string = t.
Proof.
  intros Hp. unfold substrFrom, substrU, uint, len.
  rewrite Z.mod_small by lia.
  rewrite length_app, Nat2Z.inj_add.
  destruct (Z.ltb_spec (Z.of_nat (String.length p) + Z.of_nat (String.length t))
              (Z.of_nat (String.length p))) as [H|H]; [lia|].
  destruct (Z.leb_spec (Z.of_nat (String.length p) + Z.of_nat (String.length t))
              (Z.of_nat (String.length p))) as [H1|H1].
  - destruct t; [reflexivity | cbn [String.length] in H1; lia].
  - rewrite Z.min_id, Nat2Z.id.
    replace (Z.to_nat (Z.of_nat (String.length p) + Z.of_nat (String.length t)
                       - Z.of_nat (String.length p))) with (String.length t) by lia.
    now rewrite substring_skip, substring_all.
Qed.

Lemma prefix_split p : forall c, String.prefix p c = true -> exists r, c = (p ++ r)%string.
Proof.
  induction p as [|a p IH]; intros c H.
  - now exists c.
  - destruct c as [|b c]; [discriminate|]. cbn in H.
    destruct (ascii_dec a b) as [->|]; [|discriminate].
    destruct (IH c H) as [r ->]. now exists r.
Qed.

Lemma startsWith_app p t : startsWith p (p ++ t) = true.
Proof.
  unfold startsWith. induction p as [|a p IH]; cbn.
  - now destruct t.
  - destruct (ascii_dec a a); [exact IH | congruence].
Qed.

Lemma dispatch_encoderScale t now now2 s :
  dispatch ("ENCODER:SCALE," ++ t) now now2 s
  = onEncoderScale ("ENCODER:SCALE," ++ t) s.
Proof. unfold dispatch. decide_guards. now rewrite startsWith_app. Qed.

Lemma autoDetect_noAck c s : existsb is_scale_ack (snd (autoDetect c s)) = false.
Proof. unfold autoDetect. split_ifs; reflexivity. Qed.

(** C10. A line whose trimmed text is [ENCODER:SCALE,] followed by [t]
    sets the scale to [toInt t] and clears the remainder, with an
    acknowledgement, when that number lies in 1..10; otherwise scale and
    remainder stay as they are and no acknowledgement is printed. *)
Theorem C10_encoder_scale_line :
  forall line t now now2 s,
    trim line = ("ENCODER:SCALE," ++ t)%string ->
    let n := toInt t in
    let r := processLine line now now2 s in
    (1 <= n <= 10 ->
       encoderScale (enc (fst r)) = n
       /\ scaledEncoderPosition (enc (fst r)) = 0
       /\ existsb is_scale_ack (snd r) = true)
    /\ (~ (1 <= n <= 10) ->
       encoderScale (enc (fst r)) = encoderScale (enc s)
       /\ scaledEncoderPosition (enc (fst r)) = scaledEncoderPosition (enc s)
       /\ existsb is_scale_ack (snd r) = false).
Proof.
  intros line t now now2 s Ht. cbv zeta.
  unfold processLine. rewrite Ht.
  change (len ("ENCODER:SCALE," ++ t) =? 0) with false. cbv iota.
  rewrite andThen_fst, andThen_snd, existsb_app, autoDetect_noAck, dispatch_encoderScale.
  cbn [orb].
  destruct (autoDetect_frame ("ENCODER:SCALE," ++ t) s) as (_ & _ & _ & _ & E & _).
  unfold onEncoderScale.
  change 14 with (Z.of_nat (String.length "ENCODER:SCALE,")).
  rewrite substrFrom_app by (vm_compute; reflexivity).
  split; intros Hn.
  - assert (G : (toInt t >=? 1) && (toInt t <=? 10) = true).
    { apply andb_true_iff. split; [apply Z.geb_le | apply Z.leb_le]; lia. }
    rewrite G. st. repeat split.
  - assert (G : (toInt t >=? 1) && (toInt t <=? 10) = false).
    { apply andb_false_iff.
      destruct (Z.le_gt_cases 1 (toInt t)) as [A|A].
      - right. apply Z.leb_gt. lia.
      - left. rewrite Z.geb_leb. apply Z.leb_gt. lia. }
    rewrite G. st. rewrite E. repeat split.
Qed.

Lemma C10_witness :
  let s := set_scaledEncoderPosition 3 (set_encoderScale 5 initState) in
  (encoderScale (enc (fst (processLine "ENCODER:SCALE,7" 0 0 s))) = 7
   /\ scaledEncoderPosition (enc (fst (processLine "ENCODER:SCALE,7" 0 0 s))) = 0
   /\ existsb is_scale_ack (snd (processLine "ENCODER:SCALE,7" 0 0 s)) = true)
  /\ (encoderScale (enc (fst (processLine "ENCODER:SCALE,11" 0 0 s))) = 5
      /\ scaledEncoderPosition (enc (fst (processLine "ENCODER:SCALE,11" 0 0 s))) = 3
      /\ existsb is_scale_ack (snd (processLine "ENCODER:SCALE,11" 0 0 s)) = false).
Proof.
  cbv zeta. split.
  - apply (proj1 (C10_encoder_scale_line "ENCODER:SCALE,7" "7" 0 0
                    (set_scaledEncoderPosition 3 (set_encoderScale 5 initState))
                    eq_refl)).
    vm_compute. split; discriminate.
  - apply (proj2 (C10_encoder_scale_line "ENCODER:SCALE,11" "11" 0 0
                    (set_scaledEncoderPosition 3 (set_encoderScale 5 initState))
                    eq_refl)).
    vm_compute. intros [_ H]. apply H. reflexivity.
Defined.

(** ** Help overlay and the buttons *)

Lemma sendUniversalJogCommand_noEcho a p d s :
  noEcho (sendUniversalJogCommand a p d s).
Proof.
  unfold sendUniversalJogCommand.
  destruct (systemLocked (safety s) || negb (estopReleased s)); [reflexivity|].
  destruct (currentProtocol (sel s)); reflexivity.
Qed.

Lemma legacyKeys_noEcho p s : noEcho (legacyKeys p s).
Proof.
  unfold legacyKeys.
  destruct (CommProtocol_beq _ _); [|reflexivity].
  destruct (currentAxis (sel s)), p; reflexivity.
Qed.

Lemma handleEncoder_noEcho encB now s : noEcho (snd (handleEncoder encB now s)).
Proof.
  unfold handleEncoder.
  destruct (encAedges (enc s) =? 0); [reflexivity|].
  destruct (_ - _ =? 0); [reflexivity|].
  destruct (_ ÷ _ =? 0); [reflexivity|].
  destruct (negb _); [reflexivity|].
  cbn [snd]. apply noEcho_app;
    [apply sendUniversalJogCommand_noEcho | apply legacyKeys_noEcho].
Qed.

Lemma dispatch_noEcho c now now2 s : noEcho (snd (dispatch c now now2 s)).
Proof. apply dispatch_cases; arm; reflexivity. Qed.

Lemma autoDetect_noEcho c s : noEcho (snd (autoDetect c s)).
Proof. unfold autoDetect. split_ifs; reflexivity. Qed.

Lemma processLines_noEcho clk lines : forall k s,
  noEcho (snd (processLines clk k lines s)).
Proof.
  induction lines as [|l rest IH]; intros k s; cbn [processLines].
  - reflexivity.
  - rewrite andThen_snd. apply noEcho_app; [|apply IH].
    unfold processLine. destruct (len (trim l) =? 0); [reflexivity|].
    rewrite andThen_snd.
    apply noEcho_app; [apply autoDetect_noEcho | apply dispatch_noEcho].
Qed.

(** Encoder, host lines and deferred drawing leave the button-driven
    selections alone and print no echo. *)
Lemma activePhase_selection i s :
  currentAxis (sel (fst (activePhase i s))) = currentAxis (sel s)
  /\ currentJogDistance (sel (fst (activePhase i s))) = currentJogDistance (sel s)
  /\ currentSpeed (sel (fst (activePhase i s))) = currentSpeed (sel s)
  /\ currentFeedRate (sel (fst (activePhase i s))) = currentFeedRate (sel s)
  /\ noEcho (snd (activePhase i s)).
Proof.
  unfold activePhase. rewrite !andThen_fst, !andThen_snd, !silent_fst, silent_snd.
  set (s1 := fst (handleEncoder (pin_encB i) (t_enc i) s)).
  set (s2 := fst (processSerialCommands (t_rx i) s1)).
  assert (E1 : sel s1 = sel s) by apply handleEncoder_frame.
  destruct (processSerialCommands_frame (t_rx i) s1)
    as (_ & _ & _ & _ & _ & _ & A & B & C & D).
  fold s2 in A, B, C, D.
  assert (E3 : sel (uiPhase (t_ui i) s2) = sel s2) by apply uiPhase_frame.
  rewrite E3, A, B, C, D, E1.
  repeat split.
  rewrite app_nil_r. apply noEcho_app.
  - apply handleEncoder_noEcho.
  - apply processLines_noEcho.
Qed.

(** C7. In every reachable state whose view mode is the help overlay, a
    loop iteration, whatever the button pins read (short press, long
    press, held or released), changes neither axis, jog distance, speed
    nor feed rate and prints no selection echo, and its input handlers
    leave the coordinate view as it is. *)
Theorem C7_buttons_inert_in_help :
  forall s i,
    reachable s -> currentViewMode (sel s) = VIEW_HELP ->
    coordView (sel (fst (inputPhase i s))) = coordView (sel s)
    /\ currentAxis (sel (fst (loop i s))) = currentAxis (sel s)
    /\ currentJogDistance (sel (fst (loop i s))) = currentJogDistance (sel s)
    /\ currentSpeed (sel (fst (loop i s))) = currentSpeed (sel s)
    /\ currentFeedRate (sel (fst (loop i s))) = currentFeedRate (sel s)
    /\ noEcho (snd (loop i s)).
Proof.
  intros s i H _.
  apply reachable_latch in H.
  destruct (inputPhase_latch i s H) as (_ & A & B & C & D & E & F).
  split; [exact E|].
  unfold loop.
  destruct (PowerState_beq _ _ && estopReleased _); cbn [fst snd].
  - destruct (activePhase_selection i (fst (inputPhase i s)))
      as (A' & B' & C' & D' & F').
    rewrite A', B', C', D', A, B, C, D.
    repeat split. now apply noEcho_app.
  - now repeat split.
Qed.

Lemma C7_witness :
  let sHelp := fst (run [withBothButtons (idleAt 100);
                         withBothButtons (idleAt 1700)] initState) in
  currentViewMode (sel sHelp) = VIEW_HELP
  /\ currentAxis (sel (fst (loop (withButton1 (idleAt 5000)) sHelp)))
     = currentAxis (sel sHelp)
  /\ noEcho (snd (loop (withButton1 (idleAt 5000)) sHelp)).
Proof.
  cbv zeta. split; [vm_compute; reflexivity|].
  pose proof (C7_buttons_inert_in_help
                (fst (run [withBothButtons (idleAt 100);
                           withBothButtons (idleAt 1700)] initState))
                (withButton1 (idleAt 5000))
                (reachable_run _ _ reach_init)
                ltac:(vm_compute; reflexivity)) as (_ & A & _ & _ & _ & B).
  split; [exact A | exact B].
Defined.

(** ** Auto-detection *)

Lemma dispatch_grbl c now now2 s :
  grblToken c = true -> dispatch c now now2 s = (s, []) /\ (len c =? 0) = false.
Proof.
  unfold grblToken, startsWith. intros H.
  repeat (apply orb_true_iff in H; destruct H as [H|H]);
    apply prefix_split in H; destruct H as [r ->];
    (split; [unfold dispatch; decide_guards; reflexivity | reflexivity]).
Qed.

(** C6 (amended). A line that starts with [ok], [error:], [ALARM:] or
    [$] switches the profile to UGS and the dialect to GRBL when the
    current profile is FIRECONTROL, CUTCONTROL or MANUAL, whether that
    profile is the power-up default or was selected by a [MACHINE:] line;
    with any other profile the line changes nothing and prints nothing. *)
Theorem C6_grbl_detection_guard :
  forall line now now2 s,
    grblToken (trim line) = true ->
    let r := processLine line now now2 s in
    (profileIsLangmuirOrManual s = true ->
       currentMachine (sel (fst r)) = MACHINE_UGS
       /\ currentProtocol (sel (fst r)) = PROTOCOL_GRBL)
    /\ (profileIsLangmuirOrManual s = false -> r = (s, [])).
Proof.
  intros line now now2 s H. cbv zeta.
  unfold processLine.
  destruct (dispatch_grbl (trim line) now now2 s H) as (_ & L). rewrite L.
  unfold andThen, autoDetect. rewrite H.
  split; intros P; rewrite P; cbn [fst snd].
  - destruct (dispatch_grbl (trim line) now now2
                (requestFullRedraw
                   (set_currentProtocol PROTOCOL_GRBL (set_currentMachine MACHINE_UGS s)))
                H) as (D & _).
    rewrite D. split; reflexivity.
  - destruct (dispatch_grbl (trim line) now now2 s H) as (D & _).
    now rewrite D.
Qed.

Lemma C6_witness :
  (currentMachine (sel (fst (processLine "ok" 0 0 initState))) = MACHINE_UGS
   /\ currentProtocol (sel (fst (processLine "ok" 0 0 initState))) = PROTOCOL_GRBL)
  /\ processLine "ok" 0 0 (set_currentMachine MACHINE_MACH3 initState)
     = (set_currentMachine MACHINE_MACH3 initState, []).
Proof.
  split.
  - now apply (proj1 (C6_grbl_detection_guard "ok" 0 0 initState eq_refl)).
  - now apply (proj2 (C6_grbl_detection_guard "ok" 0 0
                        (set_currentMachine MACHINE_MACH3 initState) eq_refl)).
Defined.

(** C6, as stated, fails: the host selects CUTCONTROL with a [MACHINE:]
    line and the next [ok] replaces that selection by UGS and GRBL. *)
Lemma C6_counterexample :
  let s1 := fst (processLine "MACHINE:CUTCONTROL" 0 0 initState) in
  currentMachine (sel s1) = MACHINE_CUTCONTROL
  /\ currentMachine (sel (fst (processLine "ok" 0 0 s1))) = MACHINE_UGS
  /\ currentProtocol (sel (fst (processLine "ok" 0 0 s1))) = PROTOCOL_GRBL.
Proof. vm_compute. repeat split; reflexivity. Qed.

(** The name-token branches of the auto-detection carry no guard at
    all. *)
Example name_token_overrides_selection :
  let s1 := fst (processLine "MACHINE:UGS" 0 0 initState) in
  currentMachine (sel s1) = MACHINE_UGS
  /\ currentMachine (sel (fst (processLine "Carbide Motion" 0 0 s1))) = MACHINE_CARBIDE.
Proof. vm_compute. split; reflexivity. Qed.

(** ** Unrecognized lines and malformed fields *)

Lemma unrecognized_ignored c now now2 s :
  detectable c = false -> command c = false ->
  autoDetect c s = (s, []) /\ dispatch c now now2 s = (s, []).
Proof.
  unfold detectable, command. intros D C.
  repeat match goal with
         | H : _ || _ = false |- _ => apply orb_false_iff in H; destruct H
         end.
  split.
  - unfold autoDetect.
    repeat match goal with
           | H : ?c = false |- context [if ?c then _ else _] => rewrite H
           end.
    reflexivity.
  - unfold dispatch.
    repeat match goal with
           | H : ?c = false |- context [if ?c then _ else _] => rewrite H
           end.
    reflexivity.
Qed.

Lemma noNumber_zero t : noNumber t = true -> toFloat t = 0%Q /\ toInt t = 0.
Proof.
  unfold noNumber, toFloat, toInt.
  destruct (read_sign (ltrim t)) as [neg r]. cbn [snd].
  destruct (prefix_nocase "inf" r); [discriminate|].
  destruct (prefix_nocase "nan" r); [discriminate|].
  cbn [negb andb].
  destruct r as [|c r']; [intros _; split; now destruct neg|].
  unfold read_dec_float. cbn [read_digits].
  destruct (digit_of c) eqn:Dc; [discriminate|].
  assert (H0 : read_hex_float (String c r') = None).
  { unfold read_hex_float. destruct r' as [|c1 r0]; [reflexivity|].
    destruct (Ascii.eqb c "0") eqn:E0; [|reflexivity].
    apply Ascii.eqb_eq in E0. subst c. discriminate. }
  rewrite H0.
  destruct (Ascii.eqb c ".") eqn:Ec.
  - destruct r' as [|d r'']; cbn [read_digits].
    + intros _. split; now destruct neg.
    + destruct (digit_of d); [discriminate|].
      intros _. split; now destruct neg.
  - intros _. split; now destruct neg.
Qed.

Lemma dispatch_posWcs rest now now2 s :
  dispatch ("POS:WCS," ++ rest) now now2 s = onPosWcs ("POS:WCS," ++ rest) now s.
Proof. unfold dispatch. decide_guards. now rewrite startsWith_app. Qed.

Lemma dispatch_posMcs rest now now2 s :
  dispatch ("POS:MCS," ++ rest) now now2 s = onPosMcs ("POS:MCS," ++ rest) now s.
Proof.
  unfold dispatch. decide_guards.
  rewrite (startsWith_app "POS:MCS," rest). reflexivity.
Qed.

Lemma dispatch_lcdSolid rest now now2 s :
  dispatch ("LCD:SOLID," ++ rest) now now2 s = onLcdSolid ("LCD:SOLID," ++ rest) s.
Proof. unfold dispatch. now rewrite startsWith_app. Qed.

Lemma autoDetect_ui c s :
  let s' := fst (autoDetect c s) in
  bgR (ui s') = bgR (ui s) /\ bgG (ui s') = bgG (ui s) /\ bgB (ui s') = bgB (ui s).
Proof. frame autoDetect. Qed.

(** C8 (amended). A line that is neither a detection token nor a
    command of the chain changes nothing and prints nothing.  Text in
    which no number and no [inf] or [nan] spelling begins reads as 0
    with [toFloat] and [toInt]; text spelled [inf] or [nan] reads as an
    infinity or a NaN with [toFloat].  In a [POS:WCS], [POS:MCS] or
    [LCD:SOLID] line whose separators are found, every field is stored as
    the value read from its text (so 0 for a field such as [abc]); when
    the separators are not found the stored fields stay as they are. *)
Theorem C8_unrecognized_and_malformed :
  (forall line now now2 s,
      recognized line = false -> processLine line now now2 s = (s, []))
  /\ (forall t, noNumber t = true -> toFloat t = 0%Q /\ toInt t = 0)
  /\ (forall t v, parseXYZ t = Some v ->
        x v = toFloat (substr (indexOf "X," 0 t + 2) (indexOf ",Y," 0 t) t)
        /\ y v = toFloat (substr (indexOf ",Y," 0 t + 3) (indexOf ",Z," 0 t) t)
        /\ z v = toFloat (substrFrom (indexOf ",Z," 0 t + 3) t))
  /\ (forall line rest now now2 s,
        trim line = ("POS:WCS," ++ rest)%string ->
        let s' := fst (processLine line now now2 s) in
        match parseXYZ (removeSpaces rest) with
        | Some v => hostWCS (pos s') = v
        | None => hostWCS (pos s') = hostWCS (pos s)
        end)
  /\ (forall line rest now now2 s,
        trim line = ("POS:MCS," ++ rest)%string ->
        let s' := fst (processLine line now now2 s) in
        match parseXYZ (removeSpaces rest) with
        | Some v => hostMCS (pos s') = v
        | None => hostMCS (pos s') = hostMCS (pos s)
        end)
  /\ (forall line rest now now2 s,
        trim line = ("LCD:SOLID," ++ rest)%string ->
        let c := trim line in
        let a := indexOf "," 10 c in
        let b := indexOf "," (a + 1) c in
        let s' := fst (processLine line now now2 s) in
        if (a >? 0) && (b >? 0)
        then bgR (ui s') = uint8 (toInt (substr 10 a c))
             /\ bgG (ui s') = uint8 (toInt (substr (a + 1) b c))
             /\ bgB (ui s') = uint8 (toInt (substrFrom (b + 1) c))
        else bgR (ui s') = bgR (ui s) /\ bgG (ui s') = bgG (ui s)
             /\ bgB (ui s') = bgB (ui s))
  /\ (forall t,
        let neg := fst (read_sign (ltrim t)) in
        let r := snd (read_sign (ltrim t)) in
        (prefix_nocase "inf" r = true -> toFloat t = Infinite neg)
        /\ (prefix_nocase "inf" r = false -> prefix_nocase "nan" r = true ->
            toFloat t = NotANumber)).
Proof.
  split; [|split; [|split; [|split; [|split; [|split]]]]].
  - intros line now now2 s H. unfold recognized in H.
    apply orb_false_iff in H. destruct H as [D C].
    unfold processLine. destruct (len (trim line) =? 0); [reflexivity|].
    unfold andThen.
    destruct (unrecognized_ignored (trim line) now now2 s D C) as (A & B).
    rewrite A. cbn [fst snd]. now rewrite B.
  - exact noNumber_zero.
  - intros t v. unfold parseXYZ.
    destruct ((indexOf "X," 0 t >=? 0) && (indexOf ",Y," 0 t >? 0)
              && (indexOf ",Z," 0 t >? 0)); [|discriminate].
    intros [= <-]. repeat split.
  - intros line rest now now2 s Ht. cbv zeta.
    unfold processLine. rewrite Ht.
    change (len ("POS:WCS," ++ rest) =? 0) with false. cbv iota.
    rewrite andThen_fst, dispatch_posWcs. unfold onPosWcs.
    change 8 with (Z.of_nat (String.length "POS:WCS,")).
    rewrite substrFrom_app by (vm_compute; reflexivity).
    destruct (autoDetect_frame ("POS:WCS," ++ rest) s) as (_ & _ & _ & _ & _ & P).
    destruct (parseXYZ (removeSpaces rest)); st; [reflexivity | now rewrite P].
  - intros line rest now now2 s Ht. cbv zeta.
    unfold processLine. rewrite Ht.
    change (len ("POS:MCS," ++ rest) =? 0) with false. cbv iota.
    rewrite andThen_fst, dispatch_posMcs. unfold onPosMcs.
    change 8 with (Z.of_nat (String.length "POS:MCS,")).
    rewrite substrFrom_app by (vm_compute; reflexivity).
    destruct (autoDetect_frame ("POS:MCS," ++ rest) s) as (_ & _ & _ & _ & _ & P).
    destruct (parseXYZ (removeSpaces rest)); st; [reflexivity | now rewrite P].
  - intros line rest now now2 s Ht. cbv zeta.
    unfold processLine. rewrite Ht.
    change (len ("LCD:SOLID," ++ rest) =? 0) with false. cbv iota.
    rewrite andThen_fst, dispatch_lcdSolid. unfold onLcdSolid.
    destruct (autoDetect_ui ("LCD:SOLID," ++ rest) s) as (A & B & C).
    destruct ((indexOf "," 10 ("LCD:SOLID," ++ rest) >? 0)
              && (indexOf "," (indexOf "," 10 ("LCD:SOLID," ++ rest) + 1)
                    ("LCD:SOLID," ++ rest) >? 0)); st.
    + repeat split.
    + rewrite A, B, C. repeat split.
  - intros t. cbv zeta. unfold toFloat.
    destruct (read_sign (ltrim t)) as [neg r]. cbn [fst snd].
    split.
    + intros H. now rewrite H.
    + intros H1 H2. now rewrite H1, H2.
Qed.

(** C8, as stated, fails: the X field of the work position holds 5 and
    a [POS:WCS] line with the malformed field [abc] stores 0 in it. *)
Lemma C8_counterexample :
  let s1 := fst (processLine "POS:WCS,X,5,Y,1,Z,2" 10 10 initState) in
  let s2 := fst (processLine "POS:WCS,X,abc,Y,1,Z,2" 20 20 s1) in
  x (hostWCS (pos s1)) = 5%Q
  /\ x (hostWCS (pos s2)) = 0%Q
  /\ x (hostWCS (pos s2)) <> x (hostWCS (pos s1)).
Proof. vm_compute. repeat split; try reflexivity; discriminate. Qed.

Lemma C8_witness :
  processLine "HELLO WORLD" 0 0 initState = (initState, [])
  /\ (toFloat "abc" = 0%Q /\ toInt "abc" = 0)
  /\ hostWCS (pos (fst (processLine "POS:WCS,X,abc,Y,1,Z,2" 20 20 initState)))
     = MkXYZ 0 1 2
  /\ hostWCS (pos (fst (processLine "POS:WCS,X,1,Y,2" 20 20 initState)))
     = hostWCS (pos initState)
  /\ hostWCS (pos (fst (processLine "POS:WCS,X,NaN,Y,-inf,Z,2" 20 20 initState)))
     = MkXYZ NotANumber (Infinite true) 2.
Proof.
  pose proof C8_unrecognized_and_malformed as (A & B & _ & C & _).
  split; [|split; [|split; [|split]]].
  - apply A. vm_compute. reflexivity.
  - apply B. vm_compute. reflexivity.
  - exact (C "POS:WCS,X,abc,Y,1,Z,2" "X,abc,Y,1,Z,2" 20 20 initState eq_refl).
  - exact (C "POS:WCS,X,1,Y,2" "X,1,Y,2" 20 20 initState eq_refl).
  - exact (C "POS:WCS,X,NaN,Y,-inf,Z,2" "X,NaN,Y,-inf,Z,2" 20 20 initState eq_refl).
Defined.
(** ** Case analysis on an iteration of [loop] *)

Lemma fst_of_pair {A B : Type} (a : A) (b : B) : fst (a, b) = a.
Proof. reflexivity. Qed.

Lemma snd_of_pair {A B : Type} (a : A) (b : B) : snd (a, b) = b.
Proof. reflexivity. Qed.

Lemma loop_cases (P : State -> list Out -> Prop) i s :
  (PowerState_beq (currentPowerState (pwr (fst (inputPhase i s)))) POWER_ACTIVE
     && estopReleased (fst (inputPhase i s)) = true ->
   P (fst (activePhase i (fst (inputPhase i s))))
     (snd (inputPhase i s) ++ snd (activePhase i (fst (inputPhase i s))))) ->
  (PowerState_beq (currentPowerState (pwr (fst (inputPhase i s)))) POWER_ACTIVE
     && estopReleased (fst (inputPhase i s)) = false ->
   P (fst (inputPhase i s)) (snd (inputPhase i s))) ->
  P (fst (loop i s)) (snd (loop i s)).
Proof.
  intros A B. unfold loop. cbv zeta.
  destruct (PowerState_beq _ _ && estopReleased _).
  - rewrite fst_of_pair, snd_of_pair. apply A. reflexivity.
  - apply B. reflexivity.
Qed.

(** ** Power state *)

Lemma powerInv_ext a b :
  lastToggleState (pwr a) = lastToggleState (pwr b) ->
  currentPowerState (pwr a) = currentPowerState (pwr b) ->
  sleepCountdown (pwr a) = sleepCountdown (pwr b) ->
  powerInv b -> powerInv a.
Proof. unfold powerInv. intros -> -> ->. tauto. Qed.

Lemma handleEstop_power raw now s :
  let s' := fst (handleEstop raw now s) in
  lastToggleState (pwr s') = lastToggleState (pwr s)
  /\ currentPowerState (pwr s') = currentPowerState (pwr s)
  /\ sleepCountdown (pwr s') = sleepCountdown (pwr s).
Proof.
  cbv zeta; repeat split; unfold handleEstop, sendUniversalEstopCommand;
    split_ifs; st; reflexivity.
Qed.

Lemma handleButton1_power raw now now2 s :
  let s' := fst (handleButton1 raw now now2 s) in
  lastToggleState (pwr s') = lastToggleState (pwr s)
  /\ currentPowerState (pwr s') = currentPowerState (pwr s)
  /\ sleepCountdown (pwr s') = sleepCountdown (pwr s).
Proof.
  cbv zeta; repeat split; unfold handleButton1, button1Release;
    split_ifs; st; reflexivity.
Qed.

Lemma handleButton2_power raw now s :
  let s' := fst (handleButton2 raw now s) in
  lastToggleState (pwr s') = lastToggleState (pwr s)
  /\ currentPowerState (pwr s') = currentPowerState (pwr s)
  /\ sleepCountdown (pwr s') = sleepCountdown (pwr s).
Proof.
  cbv zeta; repeat split; unfold handleButton2, button2Release;
    split_ifs; st; reflexivity.
Qed.

Lemma power_beq_eq a b : PowerState_beq a b = true <-> a = b.
Proof. destruct a, b; cbn; split; intros H; congruence. Qed.

Lemma handleToggleSwitch_power raw t1 t2 s :
  powerInv s -> powerInv (fst (handleToggleSwitch raw t1 t2 s)).
Proof.
  unfold powerInv, handleToggleSwitch. intros ([H1 H2] & H3).
  destruct (xorb (negb raw) (lastToggleState (pwr s))) eqn:X;
    [|cbn [fst]; tauto].
  st.
  destruct (PowerState_beq (currentPowerState (pwr s)) POWER_ACTIVE) eqn:P;
    [apply power_beq_eq in P
    |apply not_true_iff_false in P; rewrite power_beq_eq in P];
    destruct raw; cbn [negb] in *; st;
    (repeat split; try lia; try congruence; try tauto).
  all: destruct (lastToggleState (pwr s)); cbn in X; try discriminate;
    try (exfalso; apply P; now apply H1).
  all: try (intros _; now apply H2).
Qed.

Lemma to_int_small v : - 2 ^ 31 <= v < 2 ^ 31 -> to_int v = v.
Proof.
  intros H. unfold to_int.
  destruct (Z.lt_ge_cases v 0) as [N|N].
  - assert (E : v mod 2 ^ 32 = v + 2 ^ 32).
    { symmetry. apply Z.mod_unique with (q := -1); lia. }
    rewrite E. destruct (Z.geb_spec (v + 2 ^ 32) (2 ^ 31)); lia.
  - rewrite Z.mod_small by lia.
    destruct (Z.geb_spec v (2 ^ 31)); lia.
Qed.

Lemma usub_range a b : 0 <= usub a b < 2 ^ 32.
Proof. unfold usub. apply Z.mod_pos_bound. lia. Qed.

Lemma handlePowerManagement_power now s :
  powerInv s -> powerInv (fst (handlePowerManagement now s)).
Proof.
  unfold powerInv, handlePowerManagement. intros ([H1 H2] & H3).
  destruct (PowerState_beq (currentPowerState (pwr s)) POWER_COUNTDOWN) eqn:P;
    [|cbn [fst]; tauto].
  apply power_beq_eq in P.
  pose proof (usub_range now (sleepCountdownStart (pwr s))) as U.
  set (e := usub now (sleepCountdownStart (pwr s))) in *.
  assert (T : to_int (5 - e / 1000) = 5 - e / 1000).
  { apply to_int_small.
    change (2 ^ 32) with 4294967296 in U.
    assert (0 <= e / 1000) by (apply Z.div_pos; lia).
    assert (B : e / 1000 <= 4294967295 / 1000) by (apply Z.div_le_mono; lia).
    change (4294967295 / 1000) with 4294967 in B.
    change (2 ^ 31) with 2147483648. lia. }
  rewrite T.
  assert (Q : 0 <= e / 1000) by (apply Z.div_pos; lia).
  assert (L : lastToggleState (pwr s) <> true) by (intros E; apply H1 in E; congruence).
  destruct (negb (5 - e / 1000 =? sleepCountdown (pwr s)) && (5 - e / 1000 >=? 0)) eqn:G.
  - apply andb_true_iff in G. destruct G as [_ G].
    apply Z.geb_le in G.
    destruct (e >=? SLEEP_COUNTDOWN_TIME); st;
      (repeat split; try lia; try congruence; intros; tauto).
  - destruct (e >=? SLEEP_COUNTDOWN_TIME); st;
      (repeat split; try lia; try congruence; intros; tauto).
Qed.

Lemma inputPhase_power i s : powerInv s -> powerInv (fst (inputPhase i s)).
Proof.
  intros H. unfold inputPhase. rewrite !andThen_fst, !silent_fst.
  set (s1 := receive i s).
  set (s2 := fst (handleEstop (pin_estop i) (t_estop i) s1)).
  set (s3 := handleBothButtons (pin_b1_both i) (pin_b2_both i) (t_both i) s2).
  set (s4 := fst (handleButton1 (pin_b1 i) (t_b1 i) (t_b1_gate i) s3)).
  set (s5 := fst (handleButton2 (pin_b2 i) (t_b2 i) s4)).
  apply handlePowerManagement_power, handleToggleSwitch_power.
  assert (E1 : pwr s1 = pwr s) by apply receive_frame.
  destruct (handleEstop_power (pin_estop i) (t_estop i) s1) as (A2 & B2 & C2).
  assert (E3 : pwr s3 = pwr s2) by apply handleBothButtons_frame.
  destruct (handleButton1_power (pin_b1 i) (t_b1 i) (t_b1_gate i) s3) as (A4 & B4 & C4).
  destruct (handleButton2_power (pin_b2 i) (t_b2 i) s4) as (A5 & B5 & C5).
  fold s2 in A2, B2, C2. fold s4 in A4, B4, C4. fold s5 in A5, B5, C5.
  eapply powerInv_ext; [ | | | exact H]; congruence.
Qed.

Lemma activePhase_pwr i s : pwr (fst (activePhase i s)) = pwr s.
Proof.
  unfold activePhase. rewrite !andThen_fst, !silent_fst.
  set (s1 := fst (handleEncoder (pin_encB i) (t_enc i) s)).
  set (s2 := fst (processSerialCommands (t_rx i) s1)).
  assert (E1 : pwr s1 = pwr s) by apply handleEncoder_frame.
  assert (E2 : pwr s2 = pwr s1) by apply processSerialCommands_frame.
  assert (E3 : pwr (uiPhase (t_ui i) s2) = pwr s2) by apply uiPhase_frame.
  congruence.
Qed.

Lemma loop_power i s : powerInv s -> powerInv (fst (loop i s)).
Proof.
  intros H. apply (inputPhase_power i) in H.
  pattern (fst (loop i s)), (snd (loop i s)); apply loop_cases;
    intros _; cbv beta; [|exact H].
  eapply powerInv_ext; [ | | | exact H]; now rewrite activePhase_pwr.
Qed.

(** X1. In every reachable state the power state is active exactly when
    the toggle switch was last read on, and the sleep countdown shown lies
    between 0 and 5. *)
Theorem X1_power_follows_toggle :
  forall s, reachable s -> powerInv s.
Proof.
  induction 1 as [|i s _ IH].
  - unfold powerInv. cbn. split; [tauto | lia].
  - now apply loop_power.
Qed.

Lemma X1_witness :
  let s := fst (run [withToggleOff (idleAt 1000); withToggleOff (idleAt 3500)] initState) in
  powerInv s /\ currentPowerState (pwr s) = POWER_COUNTDOWN
  /\ sleepCountdown (pwr s) = 3.
Proof.
  cbv zeta. split.
  - apply X1_power_follows_toggle. apply reachable_run, reach_init.
  - vm_compute. split; reflexivity.
Defined.
Lemma uadd_usub t d :
  0 <= t < 2 ^ 32 -> 0 <= d < 2 ^ 32 -> usub (uadd t d) t = d.
Proof.
  intros Ht Hd. unfold usub, uadd.
  rewrite Zminus_mod_idemp_l.
  replace (t + d - t) with d by lia.
  now apply Z.mod_small.
Qed.

(** X2. Switching the toggle off while active starts the countdown; the
    power handler called [d] ms later (clock wrap included) shows
    [5 - d / 1000] while [d < 5000] and puts the device to sleep exactly
    when [d >= 5000]. *)
Theorem X2_sleep_five_seconds_after_switch_off :
  forall t1 t0 d s,
    0 <= t0 < 2 ^ 32 -> 0 <= d < 2 ^ 32 ->
    currentPowerState (pwr s) = POWER_ACTIVE ->
    lastToggleState (pwr s) = true ->
    let s1 := fst (handleToggleSwitch true t1 t0 s) in
    let s2 := fst (handlePowerManagement (uadd t0 d) s1) in
    currentPowerState (pwr s1) = POWER_COUNTDOWN
    /\ sleepCountdown (pwr s1) = 5
    /\ (d < 5000 ->
        currentPowerState (pwr s2) = POWER_COUNTDOWN
        /\ sleepCountdown (pwr s2) = 5 - d / 1000
        /\ snd (handlePowerManagement (uadd t0 d) s1) = [])
    /\ (5000 <= d ->
        currentPowerState (pwr s2) = POWER_SLEEP
        /\ snd (handlePowerManagement (uadd t0 d) s1) = [Println "POWER:SLEEP"]).
Proof.
  intros t1 t0 d s Ht Hd PA LT. cbv zeta.
  unfold handleToggleSwitch. rewrite LT. cbn [negb xorb]. st.
  rewrite PA. change (PowerState_beq POWER_ACTIVE POWER_ACTIVE) with true.
  cbv iota. st.
  split; [reflexivity|]. split; [reflexivity|].
  unfold handlePowerManagement. st.
  change (PowerState_beq POWER_COUNTDOWN POWER_COUNTDOWN) with true. cbv iota.
  rewrite (uadd_usub t0 d Ht Hd).
  assert (Q0 : 0 <= d / 1000) by (apply Z.div_pos; lia).
  assert (T : to_int (5 - d / 1000) = 5 - d / 1000).
  { apply to_int_small.
    change (2 ^ 32) with 4294967296 in Hd.
    assert (B : d / 1000 <= 4294967295 / 1000) by (apply Z.div_le_mono; lia).
    change (4294967295 / 1000) with 4294967 in B.
    change (2 ^ 31) with 2147483648. lia. }
  rewrite T. unfold SLEEP_COUNTDOWN_TIME.
  split; intros D.
  - assert (Q1 : d / 1000 < 5) by (apply Z.div_lt_upper_bound; lia).
    destruct (Z.geb_spec d 5000) as [G|G]; [lia|].
    destruct (Z.eqb_spec (5 - d / 1000) 5) as [E|E]; cbn [negb andb].
    + st. repeat split. st. lia.
    + destruct (Z.geb_spec (5 - d / 1000) 0) as [G0|G0]; [|lia].
      st. repeat split.
  - destruct (Z.geb_spec d 5000) as [G|G]; [|lia].
    destruct (negb (5 - d / 1000 =? 5) && (5 - d / 1000 >=? 0)); st; now split.
Qed.

Lemma X2_witness :
  let s1 := fst (handleToggleSwitch true 4294967000 4294967000 initState) in
  currentPowerState (pwr (fst (handlePowerManagement (uadd 4294967000 4999) s1)))
  = POWER_COUNTDOWN
  /\ currentPowerState (pwr (fst (handlePowerManagement (uadd 4294967000 5000) s1)))
     = POWER_SLEEP.
Proof.
  cbv zeta.
  assert (A : 0 <= 4294967000 < 2 ^ 32) by (change (2 ^ 32) with 4294967296; lia).
  assert (B : 0 <= 4999 < 2 ^ 32) by (change (2 ^ 32) with 4294967296; lia).
  assert (C : 0 <= 5000 < 2 ^ 32) by (change (2 ^ 32) with 4294967296; lia).
  split.
  - apply (X2_sleep_five_seconds_after_switch_off 4294967000 4294967000 4999
             initState A B eq_refl eq_refl). lia.
  - apply (X2_sleep_five_seconds_after_switch_off 4294967000 4294967000 5000
             initState A C eq_refl eq_refl). lia.
Defined.

(** ** Iterations that are not active *)

Lemma encoderISR_pos us s : pos (encoderISR us s) = pos s.
Proof. unfold encoderISR. destruct (_ >? _); reflexivity. Qed.

Lemma encoderISR_pulses us s :
  encAedges (enc s) <= encAedges (enc (encoderISR us s)).
Proof. unfold encoderISR. destruct (_ >? _); st; lia. Qed.

Lemma receive_pos i s :
  pos (receive i s) = pos s
  /\ encAedges (enc s) <= encAedges (enc (receive i s)).
Proof.
  unfold receive.
  set (s0 := set_serial_rx _ s).
  assert (H0 : pos s0 = pos s /\ encAedges (enc s) <= encAedges (enc s0))
    by (subst s0; st; split; [reflexivity | lia]).
  clearbody s0. revert s0 H0.
  induction (isr_us i) as [|us l IH]; intros s0 [A B]; cbn [fold_left].
  - now split.
  - apply IH. rewrite encoderISR_pos. split; [exact A|].
    pose proof (encoderISR_pulses us s0). lia.
Qed.

Lemma handleEstop_pos raw now s : pos (fst (handleEstop raw now s)) = pos s.
Proof.
  unfold handleEstop, sendUniversalEstopCommand; split_ifs; st; reflexivity.
Qed.

Lemma handleBothButtons_pos r1 r2 now s :
  pos (handleBothButtons r1 r2 now s) = pos s.
Proof. unfold handleBothButtons; split_ifs; st; reflexivity. Qed.

Lemma handleButton1_pos raw now now2 s :
  pos (fst (handleButton1 raw now now2 s)) = pos s.
Proof. unfold handleButton1, button1Release; split_ifs; st; reflexivity. Qed.

Lemma handleButton2_pos raw now s :
  pos (fst (handleButton2 raw now s)) = pos s.
Proof. unfold handleButton2, button2Release; split_ifs; st; reflexivity. Qed.

Lemma handleToggleSwitch_pos raw t1 t2 s :
  pos (fst (handleToggleSwitch raw t1 t2 s)) = pos s.
Proof. unfold handleToggleSwitch; split_ifs; st; reflexivity. Qed.

Lemma handlePowerManagement_pos now s :
  pos (fst (handlePowerManagement now s)) = pos s.
Proof. unfold handlePowerManagement; split_ifs; st; reflexivity. Qed.

(** The input handlers leave everything the host has told the pendant as
    it is, and keep the pulses the interrupt has counted. *)
Lemma inputPhase_host i s :
  let s' := fst (inputPhase i s) in
  hostArmed (safety s') = hostArmed (safety s)
  /\ lastHostPing (safety s') = lastHostPing (safety s)
  /\ hostMotionState (safety s') = hostMotionState (safety s)
  /\ pos s' = pos s
  /\ encAedges (enc s) <= encAedges (enc s').
Proof.
  cbv zeta. unfold inputPhase. rewrite !andThen_fst, !silent_fst.
  set (s1 := receive i s).
  set (s2 := fst (handleEstop (pin_estop i) (t_estop i) s1)).
  set (s3 := handleBothButtons (pin_b1_both i) (pin_b2_both i) (t_both i) s2).
  set (s4 := fst (handleButton1 (pin_b1 i) (t_b1 i) (t_b1_gate i) s3)).
  set (s5 := fst (handleButton2 (pin_b2 i) (t_b2 i) s4)).
  set (s6 := fst (handleToggleSwitch (pin_toggle i) (t_toggle i) (t_toggle2 i) s5)).
  set (s7 := fst (handlePowerManagement (t_power i) s6)).
  assert (S1 : safety s1 = safety s) by apply receive_frame.
  destruct (handleEstop_frame (pin_estop i) (t_estop i) s1)
    as (_ & _ & N2 & _ & A2 & B2 & C2).
  fold s2 in N2, A2, B2, C2.
  assert (S3 : safety s3 = safety s2) by apply handleBothButtons_frame.
  assert (S4 : safety s4 = safety s3) by apply handleButton1_frame.
  assert (S5 : safety s5 = safety s4) by apply handleButton2_frame.
  assert (S6 : safety s6 = safety s5) by apply handleToggleSwitch_frame.
  assert (S7 : safety s7 = safety s6) by apply handlePowerManagement_frame.
  assert (N3 : enc s3 = enc s2) by apply handleBothButtons_frame.
  assert (N4 : enc s4 = enc s3) by apply handleButton1_frame.
  assert (N5 : enc s5 = enc s4) by apply handleButton2_frame.
  assert (N6 : enc s6 = enc s5) by apply handleToggleSwitch_frame.
  assert (N7 : enc s7 = enc s6) by apply handlePowerManagement_frame.
  destruct (receive_pos i s) as [P1 E1]. fold s1 in P1, E1.
  assert (P2 : pos s2 = pos s1) by apply handleEstop_pos.
  assert (P3 : pos s3 = pos s2) by apply handleBothButtons_pos.
  assert (P4 : pos s4 = pos s3) by apply handleButton1_pos.
  assert (P5 : pos s5 = pos s4) by apply handleButton2_pos.
  assert (P6 : pos s6 = pos s5) by apply handleToggleSwitch_pos.
  assert (P7 : pos s7 = pos s6) by apply handlePowerManagement_pos.
  rewrite S7, S6, S5, S4, S3, A2, B2, C2, S1.
  rewrite P7, P6, P5, P4, P3, P2, P1.
  rewrite N7, N6, N5, N4, N3, N2.
  repeat split. exact E1.
Qed.

(** X3. An iteration that ends its input handlers with the power state
    not active (counting down or asleep) or the E-stop state not released
    reads no line and runs no encoder step: the arming flag, the
    heartbeat time, the host motion state, the positions, offsets and the
    encoder counters are unchanged, the counted pulses stay pending and no
    motion command is printed. *)
Theorem X3_inactive_iteration_reads_nothing :
  forall i s,
    PowerState_beq (currentPowerState (pwr (fst (inputPhase i s)))) POWER_ACTIVE
      && estopReleased (fst (inputPhase i s)) = false ->
    let s' := fst (loop i s) in
    hostArmed (safety s') = hostArmed (safety s)
    /\ lastHostPing (safety s') = lastHostPing (safety s)
    /\ hostMotionState (safety s') = hostMotionState (safety s)
    /\ pos s' = pos s
    /\ sameCounters s s'
    /\ encAedges (enc s) <= encAedges (enc s')
    /\ noMotion (snd (loop i s)).
Proof.
  intros i s G. cbv zeta. unfold loop. rewrite G. 
  destruct (inputPhase_host i s) as (A & B & C & D & E).
  repeat split; try assumption; try apply inputPhase_counters.
  apply inputPhase_noMotion.
Qed.

Lemma X3_witness :
  let i := withLines ["ARM:ENABLE"] (withToggleOff (idleAt 1000)) in
  hostArmed (safety (fst (loop i initState))) = false
  /\ noMotion (snd (loop i initState)).
Proof.
  cbv zeta.
  destruct (X3_inactive_iteration_reads_nothing
              (withLines ["ARM:ENABLE"] (withToggleOff (idleAt 1000))) initState)
    as (A & _ & _ & _ & _ & _ & M).
  - vm_compute. reflexivity.
  - split; [exact A | exact M].
Defined.

(** ** Encoder position clamp *)

Lemma clampPosition_range p : Z.abs (clampPosition p) <= 1000000.
Proof.
  unfold clampPosition.
  destruct (Z.gtb_spec p 1000000); [
    destruct (Z.ltb_spec 1000000 (-1000000)); lia |
    destruct (Z.ltb_spec p (-1000000)); lia ].
Qed.

Lemma clampInv_ext a b :
  encoderPosition (enc a) = encoderPosition (enc b) ->
  lastEncoderPos (enc a) = lastEncoderPos (enc b) ->
  clampInv b -> clampInv a.
Proof. unfold clampInv. intros -> ->. tauto. Qed.

Lemma handleEncoder_clamp encB now s :
  clampInv s -> clampInv (fst (handleEncoder encB now s)).
Proof.
  unfold clampInv. intros [A B].
  split; unfold handleEncoder, updatePositionTracking; split_ifs; st;
    try destruct (currentAxis (sel s)); st;
    first [assumption | apply clampPosition_range].
Qed.

Lemma dispatch_clamp c now now2 s :
  clampInv s -> clampInv (fst (dispatch c now now2 s)).
Proof.
  unfold clampInv. intros [A B].
  split; apply dispatch_cases; arm; st; try assumption; cbn; lia.
Qed.

Lemma processLine_clamp line now now2 s :
  clampInv s -> clampInv (fst (processLine line now now2 s)).
Proof.
  intros H. unfold processLine.
  destruct (len (trim line) =? 0); [exact H|].
  rewrite andThen_fst. apply dispatch_clamp.
  assert (E : enc (fst (autoDetect (trim line) s)) = enc s) by apply autoDetect_frame.
  eapply clampInv_ext; [ | | exact H]; now rewrite E.
Qed.

Lemma processLines_clamp clk lines : forall k s,
  clampInv s -> clampInv (fst (processLines clk k lines s)).
Proof.
  induction lines as [|l rest IH]; intros k s H; cbn [processLines].
  - exact H.
  - rewrite andThen_fst. apply IH. now apply processLine_clamp.
Qed.

Lemma loop_clamp i s : clampInv s -> clampInv (fst (loop i s)).
Proof.
  intros H.
  assert (H1 : clampInv (fst (inputPhase i s))).
  { destruct (inputPhase_counters i s) as (A & B & _).
    eapply clampInv_ext; [ | | exact H]; congruence. }
  pattern (fst (loop i s)), (snd (loop i s)); apply loop_cases;
    intros _; cbv beta; [|exact H1].
  unfold activePhase. rewrite !andThen_fst, !silent_fst.
  set (s1 := fst (handleEncoder (pin_encB i) (t_enc i) (fst (inputPhase i s)))).
  assert (H2 : clampInv s1) by now apply handleEncoder_clamp.
  set (s2 := fst (processSerialCommands (t_rx i) s1)).
  assert (H3 : clampInv s2).
  { subst s2. unfold processSerialCommands. apply processLines_clamp.
    eapply clampInv_ext; [ | | exact H2]; reflexivity. }
  assert (E : enc (uiPhase (t_ui i) s2) = enc s2) by apply uiPhase_frame.
  eapply clampInv_ext; [ | | exact H3]; now rewrite E.
Qed.

(** X4. In every reachable state the encoder position and the last
    position the encoder step has consumed lie within plus or minus one
    million counts, whatever number of pulses has been counted. *)
Theorem X4_encoder_position_clamped :
  forall s, reachable s -> clampInv s.
Proof.
  induction 1 as [|i s _ IH].
  - unfold clampInv. cbn. lia.
  - now apply loop_clamp.
Qed.

(** ** Debounce of the two buttons *)

(** X5. No run of [loop] changes the selection the buttons are there for:
    in every reachable state the axis, the jog distance, the speed and the
    feed rate are those of power-up, and neither button has registered a
    press. *)
Theorem X5_buttons_never_change_selection :
  forall s,
    reachable s ->
    currentAxis (sel s) = AXIS_Z
    /\ currentJogDistance (sel s) = JOG_SMALL
    /\ currentSpeed (sel s) = SPEED_MEDIUM
    /\ currentFeedRate (sel s) = FEED_50
    /\ button1Pressed (btn s) = false
    /\ button2Pressed (btn s) = false.
Proof.
  intros s H.
  assert (L : nothingLatched s) by now apply reachable_latch.
  destruct L as (_ & _ & _ & _ & _ & P1 & _ & P2).
  cut (currentAxis (sel s) = AXIS_Z
       /\ currentJogDistance (sel s) = JOG_SMALL
       /\ currentSpeed (sel s) = SPEED_MEDIUM
       /\ currentFeedRate (sel s) = FEED_50); [tauto|].
  clear P1 P2.
  induction H as [|i s H IH].
  - cbn. tauto.
  - destruct IH as (A & B & C & D).
    destruct (inputPhase_latch i s (reachable_latch s H))
      as (_ & A1 & B1 & C1 & D1 & _).
    pattern (fst (loop i s)), (snd (loop i s)); apply loop_cases;
      intros _; cbv beta.
    + destruct (activePhase_selection i (fst (inputPhase i s)))
        as (A2 & B2 & C2 & D2 & _).
      repeat split; congruence.
    + repeat split; congruence.
Qed.

Lemma X5_witness :
  let s := fst (run [withButton1 (idleAt 1000); withButton1 (idleAt 1100);
                     idleAt 1200; idleAt 1300] initState) in
  currentAxis (sel s) = AXIS_Z /\ button1Pressed (btn s) = false.
Proof.
  cbv zeta.
  destruct (X5_buttons_never_change_selection
              (fst (run [withButton1 (idleAt 1000); withButton1 (idleAt 1100);
                         idleAt 1200; idleAt 1300] initState)))
    as (A & _ & _ & _ & B & _).
  - apply reachable_run, reach_init.
  - split; [exact A | exact B].
Defined.

Lemma X4_witness :
  clampInv (fst (run [withEdges [10000; 20000; 30000] (idleAt 1000)] initState)).
Proof.
  apply X4_encoder_position_clamped. apply reachable_run, reach_init.
Defined.

(** ** Host view lock *)

Lemma handleBothButtons_viewLock r1 r2 now s :
  viewLockedByHost (sel (handleBothButtons r1 r2 now s)) = viewLockedByHost (sel s).
Proof. unfold handleBothButtons; split_ifs; st; reflexivity. Qed.

Lemma handleButton1_viewLock raw now now2 s :
  viewLockedByHost (sel (fst (handleButton1 raw now now2 s)))
  = viewLockedByHost (sel s).
Proof. unfold handleButton1, button1Release; split_ifs; st; reflexivity. Qed.

Lemma handleButton2_viewLock raw now s :
  viewLockedByHost (sel (fst (handleButton2 raw now s)))
  = viewLockedByHost (sel s).
Proof. unfold handleButton2, button2Release; split_ifs; st; reflexivity. Qed.

Lemma autoDetect_viewLock c s :
  viewLockedByHost (sel (fst (autoDetect c s))) = viewLockedByHost (sel s).
Proof. unfold autoDetect; split_ifs; st; reflexivity. Qed.

Lemma dispatch_viewLock c now now2 s :
  viewLockedByHost (sel s) = true ->
  viewLockedByHost (sel (fst (dispatch c now now2 s))) = true.
Proof.
  intros H. apply dispatch_cases; arm; st; first [exact H | reflexivity].
Qed.

Lemma processLines_viewLock clk lines : forall k s,
  viewLockedByHost (sel s) = true ->
  viewLockedByHost (sel (fst (processLines clk k lines s))) = true.
Proof.
  induction lines as [|l rest IH]; intros k s H; cbn [processLines].
  - exact H.
  - rewrite andThen_fst. apply IH. unfold processLine.
    destruct (len (trim l) =? 0); [exact H|].
    rewrite andThen_fst. apply dispatch_viewLock.
    now rewrite autoDetect_viewLock.
Qed.

Lemma loop_viewLock i s :
  viewLockedByHost (sel s) = true ->
  viewLockedByHost (sel (fst (loop i s))) = true.
Proof.
  intros H.
  assert (H1 : viewLockedByHost (sel (fst (inputPhase i s))) = true).
  { unfold inputPhase. rewrite !andThen_fst, !silent_fst.
    set (s1 := receive i s).
    set (s2 := fst (handleEstop (pin_estop i) (t_estop i) s1)).
    set (s3 := handleBothButtons (pin_b1_both i) (pin_b2_both i) (t_both i) s2).
    set (s4 := fst (handleButton1 (pin_b1 i) (t_b1 i) (t_b1_gate i) s3)).
    set (s5 := fst (handleButton2 (pin_b2 i) (t_b2 i) s4)).
    set (s6 := fst (handleToggleSwitch (pin_toggle i) (t_toggle i) (t_toggle2 i) s5)).
    assert (E1 : sel s1 = sel s) by apply receive_frame.
    assert (E2 : sel s2 = sel s1) by apply handleEstop_frame.
    assert (E6 : sel s6 = sel s5) by apply handleToggleSwitch_frame.
    assert (E7 : sel (fst (handlePowerManagement (t_power i) s6)) = sel s6)
      by apply handlePowerManagement_frame.
    rewrite E7, E6. subst s5 s4 s3.
    rewrite handleButton2_viewLock, handleButton1_viewLock,
      handleBothButtons_viewLock.
    now rewrite E2, E1. }
  pattern (fst (loop i s)), (snd (loop i s)); apply loop_cases;
    intros _; cbv beta; [|exact H1].
  unfold activePhase. rewrite !andThen_fst, !silent_fst.
  set (s1 := fst (handleEncoder (pin_encB i) (t_enc i) (fst (inputPhase i s)))).
  assert (E1 : sel s1 = sel (fst (inputPhase i s))) by apply handleEncoder_frame.
  set (s2 := fst (processSerialCommands (t_rx i) s1)).
  assert (E3 : sel (uiPhase (t_ui i) s2) = sel s2) by apply uiPhase_frame.
  rewrite E3. subst s2. unfold processSerialCommands.
  apply processLines_viewLock. st. now rewrite E1.
Qed.

Lemma run_viewLock ins : forall s,
  viewLockedByHost (sel s) = true ->
  viewLockedByHost (sel (fst (run ins s))) = true.
Proof.
  induction ins as [|i rest IH]; intros s H; cbn [run].
  - exact H.
  - rewrite andThen_fst. apply IH. now apply loop_viewLock.
Qed.

Lemma handleButton2_locked raw now s :
  viewLockedByHost (sel s) = true ->
  coordView (sel (fst (handleButton2 raw now s))) = coordView (sel s).
Proof.
  intros H. unfold handleButton2, button2Release.
  split_ifs; st; try reflexivity;
    match goal with
    | E : negb (viewLockedByHost (sel s)) = true |- _ =>
        rewrite H in E; discriminate
    end.
Qed.

(** X6. Once the host has sent [COORD:VIEW,WCS] or [COORD:VIEW,MCS] the
    view is the one it names and stays locked for good: no later run of
    [loop], whatever it receives and reads, clears the lock, and after any
    such run button 2 cannot change the coordinate view. *)
Theorem X6_host_view_lock_is_permanent :
  forall c now now2 s0 ins raw t,
    c = "COORD:VIEW,WCS" \/ c = "COORD:VIEW,MCS" ->
    let s := fst (processLine c now now2 s0) in
    let s' := fst (run ins s) in
    coordView (sel s) = (if c == "COORD:VIEW,WCS" then VIEW_WCS else VIEW_MCS)
    /\ viewLockedByHost (sel s') = true
    /\ coordView (sel (fst (handleButton2 raw t s'))) = coordView (sel s').
Proof.
  intros c now now2 s0 ins raw t Hc. cbv zeta.
  assert (L : coordView (sel (fst (processLine c now now2 s0)))
              = (if c == "COORD:VIEW,WCS" then VIEW_WCS else VIEW_MCS)
              /\ viewLockedByHost (sel (fst (processLine c now now2 s0))) = true).
  { destruct Hc as [-> | ->]; split;
      unfold processLine; decide_guards; rewrite andThen_fst;
      unfold autoDetect; decide_guards; cbn [fst];
      unfold dispatch; decide_guards; unfold onCoordView; decide_guards;
      st; reflexivity. }
  destruct L as [L1 L2].
  split; [exact L1|].
  pose proof (run_viewLock ins _ L2) as L3.
  split; [exact L3|]. now apply handleButton2_locked.
Qed.

Lemma X6_witness :
  let s := fst (processLine "COORD:VIEW,MCS" 1000 1000 initState) in
  let s' := fst (run [idleAt 2000] s) in
  coordView (sel s) = VIEW_MCS
  /\ viewLockedByHost (sel s') = true
  /\ coordView (sel (fst (handleButton2 true 5000 s'))) = coordView (sel s').
Proof.
  cbv zeta.
  apply (X6_host_view_lock_is_permanent "COORD:VIEW,MCS" 1000 1000 initState
           [idleAt 2000] true 5000).
  right. reflexivity.
Defined.

(** ** Arming and heartbeat *)

Lemma receive_rx i s :
  serial_rx (port (receive i s)) = serial_rx (port s) ++ arrived i.
Proof.
  unfold receive.
  set (s0 := set_serial_rx _ s).
  assert (H0 : serial_rx (port s0) = serial_rx (port s) ++ arrived i)
    by reflexivity.
  clearbody s0. revert s0 H0.
  induction (isr_us i) as [|us l IH]; intros s0 H0; cbn [fold_left].
  - exact H0.
  - apply IH.
    assert (E : port (encoderISR us s0) = port s0) by apply encoderISR_frame.
    now rewrite E.
Qed.

Lemma inputPhase_rx i s :
  serial_rx (port (fst (inputPhase i s))) = serial_rx (port s) ++ arrived i.
Proof.
  unfold inputPhase. rewrite !andThen_fst, !silent_fst.
  set (s1 := receive i s).
  set (s2 := fst (handleEstop (pin_estop i) (t_estop i) s1)).
  set (s3 := handleBothButtons (pin_b1_both i) (pin_b2_both i) (t_both i) s2).
  set (s4 := fst (handleButton1 (pin_b1 i) (t_b1 i) (t_b1_gate i) s3)).
  set (s5 := fst (handleButton2 (pin_b2 i) (t_b2 i) s4)).
  set (s6 := fst (handleToggleSwitch (pin_toggle i) (t_toggle i) (t_toggle2 i) s5)).
  assert (E2 : port s2 = port s1) by apply handleEstop_frame.
  assert (E3 : port s3 = port s2) by apply handleBothButtons_frame.
  assert (E4 : port s4 = port s3) by apply handleButton1_frame.
  assert (E5 : port s5 = port s4) by apply handleButton2_frame.
  assert (E6 : port s6 = port s5) by apply handleToggleSwitch_frame.
  assert (E7 : port (fst (handlePowerManagement (t_power i) s6)) = port s6)
    by apply handlePowerManagement_frame.
  rewrite E7, E6, E5, E4, E3, E2. apply receive_rx.
Qed.

Lemma handleEncoder_unarmed encB now s :
  hostArmed (safety s) = false -> snd (handleEncoder encB now s) = [].
Proof.
  intros H.
  assert (G : hostGate now s = false) by (unfold hostGate; now rewrite H).
  destruct (Z.eq_dec (rawMovementOf encB s) 0) as [R|R].
  - now apply handleEncoder_idle.
  - destruct (Z.eq_dec (scaledMovementOf encB s) 0) as [M|M].
    + now apply handleEncoder_small.
    + now apply handleEncoder_blocked.
Qed.

Lemma dispatch_unarmed c now now2 s :
  (c == "ARM:ENABLE") = false -> hostArmed (safety s) = false ->
  hostArmed (safety (fst (dispatch c now now2 s))) = false.
Proof.
  intros E H. unfold dispatch. rewrite E.
  repeat match goal with
         | |- context [if startsWith ?p c then _ else _] =>
             destruct (startsWith p c)
         | |- context [if c == ?p then _ else _] => destruct (c == p)
         end;
    arm; st; first [exact H | reflexivity].
Qed.

Lemma processLines_unarmed clk lines : forall k s,
  noArmLine lines -> hostArmed (safety s) = false ->
  hostArmed (safety (fst (processLines clk k lines s))) = false.
Proof.
  induction lines as [|l rest IH]; intros k s N H; cbn [processLines].
  - exact H.
  - inversion N as [|? ? N1 N2]; subst.
    rewrite andThen_fst. apply IH; [exact N2|].
    unfold processLine. destruct (len (trim l) =? 0); [exact H|].
    rewrite andThen_fst. apply dispatch_unarmed.
    + now apply String.eqb_neq.
    + assert (E : safety (fst (autoDetect (trim l) s)) = safety s)
        by apply autoDetect_frame.
      now rewrite E.
Qed.

Lemma loop_unarmed i s :
  hostArmed (safety s) = false ->
  noArmLine (serial_rx (port s) ++ arrived i) ->
  hostArmed (safety (fst (loop i s))) = false
  /\ noMotion (snd (loop i s))
  /\ noArmLine (serial_rx (port (fst (loop i s)))).
Proof.
  intros H N.
  destruct (inputPhase_host i s) as (A & _).
  pose proof (inputPhase_rx i s) as R.
  pose proof (inputPhase_noMotion i s) as M.
  pattern (fst (loop i s)), (snd (loop i s)); apply loop_cases;
    intros _; cbv beta.
  - set (s0 := fst (inputPhase i s)) in *. clearbody s0.
    unfold activePhase.
    rewrite !andThen_fst, !andThen_snd, !silent_fst, silent_snd.
    set (s1 := fst (handleEncoder (pin_encB i) (t_enc i) s0)).
    assert (E1 : safety s1 = safety s0) by apply handleEncoder_frame.
    assert (P1 : port s1 = port s0) by apply handleEncoder_frame.
    assert (O1 : snd (handleEncoder (pin_encB i) (t_enc i) s0) = [])
      by (apply handleEncoder_unarmed; exact (eq_trans A H)).
    clearbody s1.
    set (s2 := fst (processSerialCommands (t_rx i) s1)).
    assert (E3 : safety (uiPhase (t_ui i) s2) = safety s2) by apply uiPhase_frame.
    assert (P3 : port (uiPhase (t_ui i) s2) = port s2) by apply uiPhase_frame.
    assert (P2 : port s2 = port (set_serial_rx [] s1)).
    { subst s2. unfold processSerialCommands. apply processLines_frame. }
    rewrite E3, P3, P2, O1. st.
    split; [|split].
    + subst s2. unfold processSerialCommands. apply processLines_unarmed.
      * rewrite P1, R. exact N.
      * st. rewrite E1. exact (eq_trans A H).
    + apply noMotion_app; [exact M|]. cbn [app]. rewrite app_nil_r.
      unfold processSerialCommands. apply processLines_noMotion.
    + constructor.
  - split; [exact (eq_trans A H)|]. split; [exact M|]. now rewrite R.
Qed.

(** X7. Only [ARM:ENABLE] arms.  From a state that is not armed, a run of
    [loop] in which no buffered or received line is [ARM:ENABLE] ends not
    armed and prints no motion command, whatever else the host sends and
    however the encoder is turned. *)
Theorem X7_unarmed_until_arm_enable :
  forall ins s,
    hostArmed (safety s) = false ->
    noArmLine (serial_rx (port s)) ->
    Forall (fun i => noArmLine (arrived i)) ins ->
    hostArmed (safety (fst (run ins s))) = false
    /\ noMotion (snd (run ins s)).
Proof.
  induction ins as [|i rest IH]; intros s H N F; cbn [run].
  - now split.
  - inversion F as [|? ? F1 F2]; subst.
    destruct (loop_unarmed i s H) as (A & M & N').
    { apply Forall_app. now split. }
    rewrite andThen_fst, andThen_snd.
    destruct (IH (fst (loop i s)) A N' F2) as (A2 & M2).
    split; [exact A2 | now apply noMotion_app].
Qed.

Lemma X7_witness :
  let ins := [withLines ["HOST:PING"; "MOTION:STATE,IDLE"]
                (withEdges [10000; 20000; 30000] (idleAt 1000));
              withLines ["ARM:DISABLE"] (withEdges [40000; 50000] (idleAt 1500))] in
  hostArmed (safety (fst (run ins initState))) = false
  /\ noMotion (snd (run ins initState)).
Proof.
  cbv zeta. apply X7_unarmed_until_arm_enable.
  - reflexivity.
  - constructor.
  - constructor; [|constructor; [|constructor]].
    + constructor; [|constructor; [|constructor]];
        intros E; vm_compute in E; discriminate.
    + constructor; [|constructor]; intros E; vm_compute in E; discriminate.
Defined.

(** X8. The heartbeat window.  After [ARM:ENABLE], or [HOST:PING] on an
    armed pendant, read at clock [t] with the host idle, the motion gate
    evaluated [d] ms later is open exactly when [d <= 3500], also when the
    32-bit millisecond clock wraps in between. *)
Theorem X8_heartbeat_window :
  forall c t t2 d s,
    c = "ARM:ENABLE" \/ (c = "HOST:PING" /\ hostArmed (safety s) = true) ->
    0 <= t < 2 ^ 32 -> 0 <= d < 2 ^ 32 ->
    hostMotionState (safety s) = MS_IDLE ->
    hostGate (uadd t d) (fst (processLine c t t2 s)) = (d <=? 3500).
Proof.
  intros c t t2 d s Hc Ht Hd Hm.
  destruct Hc as [-> | [-> Ha]];
    unfold processLine; decide_guards; rewrite andThen_fst;
    unfold autoDetect; decide_guards; cbn [fst];
    unfold dispatch; decide_guards;
    [unfold onArmEnable | unfold onHostPing];
    unfold hostGate; st;
    rewrite (uadd_usub t d Ht Hd), Hm; try rewrite Ha;
    change (MotionState_beq MS_IDLE MS_IDLE) with true;
    unfold HOST_TIMEOUT_MS; cbn [andb]; apply andb_true_r.
Qed.

Lemma X8_witness :
  hostGate (uadd 4294967000 3500)
    (fst (processLine "ARM:ENABLE" 4294967000 4294967000 initState)) = true
  /\ hostGate (uadd 4294967000 3501)
       (fst (processLine "ARM:ENABLE" 4294967000 4294967000 initState)) = false.
Proof.
  assert (A : 0 <= 4294967000 < 2 ^ 32) by (change (2 ^ 32) with 4294967296; lia).
  assert (B : 0 <= 3500 < 2 ^ 32) by (change (2 ^ 32) with 4294967296; lia).
  assert (C : 0 <= 3501 < 2 ^ 32) by (change (2 ^ 32) with 4294967296; lia).
  split.
  - exact (X8_heartbeat_window "ARM:ENABLE" 4294967000 4294967000 3500 initState
             (or_introl eq_refl) A B eq_refl).
  - exact (X8_heartbeat_window "ARM:ENABLE" 4294967000 4294967000 3501 initState
             (or_introl eq_refl) A C eq_refl).
Defined.

(** ** Machine profile lines *)

Lemma MachineType_beq_eq a b : MachineType_beq a b = true <-> a = b.
Proof. destruct a, b; cbn; split; intros H; congruence. Qed.

(** X9. The name that [getMachineName] prints for a profile selects that
    profile again when it comes back in a [MACHINE:] line; the line leaves
    the dialect of the jog commands as it was, and is acknowledged only
    when the profile changes. *)
Theorem X9_machine_name_round_trip :
  forall s0 s now now2,
    let r := processLine ("MACHINE:" ++ getMachineName s0) now now2 s in
    currentMachine (sel (fst r)) = currentMachine (sel s0)
    /\ currentProtocol (sel (fst r)) = currentProtocol (sel s)
    /\ snd r = (if MachineType_beq (currentMachine (sel s0)) (currentMachine (sel s))
                then []
                else [Print "MACHINE:"; Println (getMachineName s0)]).
Proof.
  intros s0 s now now2. cbv zeta. unfold getMachineName.
  destruct (currentMachine (sel s0));
    unfold processLine; decide_guards; rewrite andThen_fst, andThen_snd;
    unfold autoDetect; decide_guards; cbn [fst snd app];
    unfold dispatch; decide_guards; unfold onMachine, machineOfToken;
    decide_guards;
    match goal with
    | |- context [MachineType_beq ?m (currentMachine (sel s))] =>
        destruct (MachineType_beq m (currentMachine (sel s))) eqn:E
    end; cbn [negb fst snd];
    try (apply MachineType_beq_eq in E); unfold getMachineName, requestFullRedraw;
    st; repeat split; congruence.
Qed.

(** X10. A line that starts with [MACHINE:] is taken by the profile arm
    of the chain, whatever follows the colon: it leaves the dialect, the
    encoder counters, the positions and the safety state alone.  The line
    [MACHINE:ZERO] is such a line, so the zeroing arm further down the
    chain is never taken. *)
Theorem X10_machine_lines_only_set_profile :
  forall c now now2 s,
    startsWith "MACHINE:" c = true ->
    let s' := fst (dispatch c now now2 s) in
    dispatch c now now2 s = onMachine c s
    /\ currentProtocol (sel s') = currentProtocol (sel s)
    /\ enc s' = enc s /\ pos s' = pos s /\ safety s' = safety s.
Proof.
  intros c now now2 s H. cbv zeta.
  assert (D : dispatch c now now2 s = onMachine c s).
  { unfold startsWith in H. apply prefix_split in H. destruct H as [r ->].
    unfold dispatch. decide_guards. now rewrite startsWith_app. }
  rewrite D. split; [reflexivity|].
  repeat split; unfold onMachine; split_ifs; st; reflexivity.
Qed.

Lemma X10_witness :
  dispatch "MACHINE:ZERO" 1000 1000 estopHeld = (estopHeld, []).
Proof.
  destruct (X10_machine_lines_only_set_profile "MACHINE:ZERO" 1000 1000 estopHeld
              eq_refl) as (D & _).
  rewrite D. reflexivity.
Defined.

(** ** The two-button gesture *)

Lemma uadd_uadd_usub a e k :
  usub (uadd a e) (uadd a k) = (e - k) mod 2 ^ 32.
Proof.
  unfold usub, uadd. rewrite <- Zminus_mod. f_equal. lia.
Qed.

(** X13. The help gesture.  With both buttons down, the first call only
    starts the hold; a second call [d] ms later (clock wrap included)
    switches between the normal view and the help overlay exactly when
    [d >= 1500], and then marks both buttons as consumed.  A call with
    either button up ends the hold and leaves the view. *)
Theorem X13_help_gesture_needs_1500_ms :
  forall t d r1 r2 s,
    0 <= t < 2 ^ 32 -> 0 <= d < 2 ^ 32 ->
    bothButtonsHeld (btn s) = false ->
    let s1 := handleBothButtons false false t s in
    let s2 := handleBothButtons false false (uadd t d) s1 in
    currentViewMode (sel s1) = currentViewMode (sel s)
    /\ currentViewMode (sel s2)
       = (if d >=? HELP_HOLD_TIME then otherViewMode (currentViewMode (sel s))
          else currentViewMode (sel s))
    /\ ((d >=? HELP_HOLD_TIME) = true ->
        button1Processed (btn s2) = true /\ button2Processed (btn s2) = true)
    /\ ((r1 || r2) = true ->
        bothButtonsHeld (btn (handleBothButtons r1 r2 (uadd t d) s1)) = false
        /\ currentViewMode (sel (handleBothButtons r1 r2 (uadd t d) s1))
           = currentViewMode (sel s)).
Proof.
  intros t d r1 r2 s Ht Hd H. cbv zeta.
  assert (E1 : handleBothButtons false false t s
               = set_bothButtonsTime t (set_bothButtonsHeld true s)).
  { unfold handleBothButtons. cbn [negb andb]. now rewrite H. }
  rewrite E1. clear E1.
  split; [reflexivity|].
  split; [|split].
  - unfold handleBothButtons. cbn [negb andb]. st.
    rewrite (uadd_usub t d Ht Hd).
    destruct (d >=? HELP_HOLD_TIME); [|reflexivity].
    destruct (currentViewMode (sel s)); reflexivity.
  - intros D. unfold handleBothButtons. cbn [negb andb]. st.
    rewrite (uadd_usub t d Ht Hd), D.
    destruct (currentViewMode (sel s)); split; reflexivity.
  - intros R. unfold handleBothButtons.
    destruct r1, r2; try discriminate; cbn [negb andb]; split; reflexivity.
Qed.

Lemma X13_witness :
  let s1 := handleBothButtons false false 4294967000 initState in
  currentViewMode (sel (handleBothButtons false false (uadd 4294967000 1499) s1))
  = VIEW_NORMAL
  /\ currentViewMode (sel (handleBothButtons false false (uadd 4294967000 1500) s1))
     = VIEW_HELP.
Proof.
  cbv zeta.
  assert (A : 0 <= 4294967000 < 2 ^ 32) by (change (2 ^ 32) with 4294967296; lia).
  assert (B : 0 <= 1499 < 2 ^ 32) by (change (2 ^ 32) with 4294967296; lia).
  assert (C : 0 <= 1500 < 2 ^ 32) by (change (2 ^ 32) with 4294967296; lia).
  split.
  - exact (proj1 (proj2 (X13_help_gesture_needs_1500_ms 4294967000 1499 true true
                           initState A B eq_refl))).
  - exact (proj1 (proj2 (X13_help_gesture_needs_1500_ms 4294967000 1500 true true
                           initState A C eq_refl))).
Defined.

(** X14. After the gesture has switched the view at clock [now], with
    both buttons still down, a further call less than 10000 ms later
    switches the view back at once: the time stamp is set 10000 ms ahead
    and the unsigned difference to it wraps to a value far above the hold
    time.  From 10000 ms on the view is kept until 1500 ms more have
    passed. *)
Theorem X14_held_buttons_switch_back :
  forall now e s,
    0 <= now < 2 ^ 32 -> 0 <= e < 11500 ->
    bothButtonsHeld (btn s) = true ->
    usub now (bothButtonsTime (btn s)) >= HELP_HOLD_TIME ->
    let s1 := handleBothButtons false false now s in
    let s2 := handleBothButtons false false (uadd now e) s1 in
    currentViewMode (sel s1) = otherViewMode (currentViewMode (sel s))
    /\ currentViewMode (sel s2)
       = (if e <? 10000 then currentViewMode (sel s)
          else currentViewMode (sel s1)).
Proof.
  intros now e s Hn He H G. cbv zeta.
  assert (G' : (usub now (bothButtonsTime (btn s)) >=? HELP_HOLD_TIME) = true)
    by (apply Z.geb_le; lia).
  assert (E1 : handleBothButtons false false now s
               = set_bothButtonsTime (uadd now 10000)
                   match currentViewMode (sel s) with
                   | VIEW_NORMAL =>
                       set_button2Processed true
                         (set_button1Processed true (set_currentViewMode VIEW_HELP s))
                   | VIEW_HELP =>
                       set_button2Processed true
                         (set_button1Processed true
                            (requestFullRedraw (set_currentViewMode VIEW_NORMAL s)))
                   end).
  { unfold handleBothButtons. cbn [negb andb]. now rewrite H, G'. }
  rewrite E1. clear E1.
  split; [destruct (currentViewMode (sel s)); reflexivity|].
  unfold handleBothButtons. cbn [negb andb].
  assert (U : usub (uadd now e) (uadd now 10000) = (e - 10000) mod 2 ^ 32)
    by apply uadd_uadd_usub.
  unfold HELP_HOLD_TIME in *.
  destruct (Z.ltb_spec e 10000) as [L|L].
  - assert (W : (e - 10000) mod 2 ^ 32 = e - 10000 + 2 ^ 32).
    { symmetry. apply Z.mod_unique with (q := -1);
        change (2 ^ 32) with 4294967296; lia. }
    assert (T : (usub (uadd now e) (uadd now 10000) >=? 1500) = true).
    { rewrite U, W. apply Z.geb_le. change (2 ^ 32) with 4294967296. lia. }
    destruct (currentViewMode (sel s)); unfold requestFullRedraw; st;
      rewrite H, T; cbn [negb]; reflexivity.
  - assert (W : (e - 10000) mod 2 ^ 32 = e - 10000).
    { apply Z.mod_small. change (2 ^ 32) with 4294967296. lia. }
    assert (T : (usub (uadd now e) (uadd now 10000) >=? 1500) = false).
    { rewrite U, W. destruct (Z.geb_spec (e - 10000) 1500); [lia|reflexivity]. }
    destruct (currentViewMode (sel s)); unfold requestFullRedraw; st;
      rewrite H, T; cbn [negb]; reflexivity.
Qed.

Lemma X14_witness :
  let s := handleBothButtons false false 1000 initState in
  let s1 := handleBothButtons false false 2500 s in
  let s2 := handleBothButtons false false (uadd 2500 2) s1 in
  currentViewMode (sel s1) = VIEW_HELP /\ currentViewMode (sel s2) = VIEW_NORMAL.
Proof.
  cbv zeta.
  assert (A : 0 <= 2500 < 2 ^ 32) by (change (2 ^ 32) with 4294967296; lia).
  assert (B : 0 <= 2 < 11500) by lia.
  assert (G : usub 2500 (bothButtonsTime (btn (handleBothButtons false false 1000 initState)))
              >= HELP_HOLD_TIME) by (vm_compute; discriminate).
  exact (X14_held_buttons_switch_back 2500 2
           (handleBothButtons false false 1000 initState) A B eq_refl G).
Defined.

(** ** Encoder interrupt *)

Lemma encoderISRs_spaced us : forall s,
  spaced (isr_last_us (enc s)) us ->
  encAedges (enc (fold_left (fun st u => encoderISR u st) us s))
  = encAedges (enc s) + Z.of_nat (List.length us).
Proof.
  induction us as [|u rest IH]; intros s H.
  - cbn [fold_left List.length Z.of_nat]. lia.
  - destruct H as [H1 H2]. cbn [fold_left].
    assert (G : ((u - isr_last_us (enc s)) mod 2 ^ 32 >? 5000) = true)
      by (apply Z.gtb_lt; lia).
    assert (E : encoderISR u s
                = set_isr_last_us u (set_encAedges (encAedges (enc s) + 1) s))
      by (unfold encoderISR; now rewrite G).
    rewrite E, IH by exact H2.
    st. cbn [List.length]. rewrite Nat2Z.inj_succ. lia.
Qed.

Lemma encoderISRs_bounce us : forall s,
  bounce (isr_last_us (enc s)) us ->
  fold_left (fun st u => encoderISR u st) us s = s.
Proof.
  induction us as [|u rest IH]; intros s H.
  - reflexivity.
  - inversion H as [|? ? H1 H2]; subst. cbn [fold_left].
    assert (G : ((u - isr_last_us (enc s)) mod 2 ^ 32 >? 5000) = false)
      by (destruct (Z.gtb_spec ((u - isr_last_us (enc s)) mod 2 ^ 32) 5000);
          [lia | reflexivity]).
    assert (E : encoderISR u s = s) by (unfold encoderISR; now rewrite G).
    rewrite E. now apply IH.
Qed.

(** X15. Debounce of the encoder interrupt.  Of the edges taken between
    two iterations, those that come more than 5 ms after the previous
    counted edge are all counted; edges that all fall within 5 ms of the
    last counted edge add nothing.  The differences are taken on the
    32-bit microsecond clock. *)
Theorem X15_encoder_edges_debounced :
  forall i s,
    (spaced (isr_last_us (enc s)) (isr_us i) ->
     encAedges (enc (receive i s))
     = encAedges (enc s) + Z.of_nat (List.length (isr_us i)))
    /\ (bounce (isr_last_us (enc s)) (isr_us i) ->
        enc (receive i s) = enc s).
Proof.
  intros i s. unfold receive. split; intros H.
  - rewrite encoderISRs_spaced; [reflexivity | exact H].
  - rewrite encoderISRs_bounce; [reflexivity | exact H].
Qed.

Lemma X15_witness :
  encAedges (enc (receive (withEdges [10000; 20000; 30000] (idleAt 0)) initState)) = 3
  /\ encAedges (enc (receive (withEdges [100; 2000; 5000] (idleAt 0)) initState)) = 0.
Proof.
  split.
  - apply (proj1 (X15_encoder_edges_debounced
                    (withEdges [10000; 20000; 30000] (idleAt 0)) initState)).
    cbn. repeat split; reflexivity.
  - rewrite (proj2 (X15_encoder_edges_debounced
                      (withEdges [100; 2000; 5000] (idleAt 0)) initState)).
    + reflexivity.
    + repeat constructor; cbn; discriminate.
Defined.

(** ** Jog step table *)

(** X16. The jog step is positive and grows strictly with the level
    (fine, small, medium, large) for every profile and unit; at every
    level the FIRECONTROL step is smaller than the step of any other
    profile in the same unit. *)
Theorem X16_jog_steps_ordered :
  forall a b m s,
    jog_to_Z a < jog_to_Z b ->
    m <> MACHINE_FIRECONTROL ->
    (0 < getJogDistanceValue (set_currentJogDistance a s)
     /\ getJogDistanceValue (set_currentJogDistance a s)
        < getJogDistanceValue (set_currentJogDistance b s)
     /\ getJogDistanceValue (set_currentMachine MACHINE_FIRECONTROL s)
        < getJogDistanceValue (set_currentMachine m s))%Q.
Proof.
  intros a b m s H M. unfold getJogDistanceValue. st.
  split; [|split].
  - destruct (useImperialUnits (sel s)), (MachineType_beq _ _), a; reflexivity.
  - destruct (useImperialUnits (sel s)), (MachineType_beq _ _), a, b;
      first [reflexivity | cbn in H; lia].
  - change (MachineType_beq MACHINE_FIRECONTROL MACHINE_FIRECONTROL) with true.
    assert (N : MachineType_beq m MACHINE_FIRECONTROL = false)
      by (destruct m; first [reflexivity | now elim M]).
    rewrite N.
    destruct (useImperialUnits (sel s)), (currentJogDistance (sel s)); reflexivity.
Qed.

Lemma X16_witness :
  (getJogDistanceValue (set_currentJogDistance JOG_SMALL initState)
   < getJogDistanceValue (set_currentJogDistance JOG_MEDIUM initState))%Q.
Proof.
  apply (X16_jog_steps_ordered JOG_SMALL JOG_MEDIUM MACHINE_MACH3 initState).
  - cbn. lia.
  - discriminate.
Defined.

(** ** Position display *)

(** X17. What the position display shows after a host position line.  A
    well-formed [POS:WCS,] line read at clock [t], with the work view
    selected, makes the display show the three numbers of the line for
    the next 1200 ms; later than that the display falls back to the local
    counters, as it does when the machine view is selected and no machine
    position has come.  [POS:MCS,] does the same for the machine view. *)
Theorem X17_host_position_shown_while_fresh :
  forall rest t t2 d s v,
    parseXYZ (removeSpaces rest) = Some v ->
    0 <= t < 2 ^ 32 -> 0 <= d < 2 ^ 32 ->
    let local := MkXYZ (xPosition (pos s)) (yPosition (pos s)) (zPosition (pos s)) in
    let w := fst (dispatch ("POS:WCS," ++ rest) t t2 s) in
    let m := fst (dispatch ("POS:MCS," ++ rest) t t2 s) in
    (coordView (sel s) = VIEW_WCS ->
     shownPosition (uadd t d) w = if d <=? 1200 then (v, true) else (local, false))
    /\ (coordView (sel s) = VIEW_MCS ->
        shownPosition (uadd t d) m = if d <=? 1200 then (v, true) else (local, false)).
Proof.
  intros rest t t2 d s v P Ht Hd. cbv zeta.
  assert (S8 : substrFrom 8 ("POS:WCS," ++ rest) = rest)
    by (apply (substrFrom_app "POS:WCS," rest); reflexivity).
  assert (S8' : substrFrom 8 ("POS:MCS," ++ rest) = rest)
    by (apply (substrFrom_app "POS:MCS," rest); reflexivity).
  rewrite dispatch_posWcs, dispatch_posMcs. unfold onPosWcs, onPosMcs.
  rewrite S8, S8', P. cbn [fst].
  split; intros V; unfold shownPosition, hostWCSFresh, hostMCSFresh; st;
    rewrite V, (uadd_usub t d Ht Hd);
    [change (CoordView_beq VIEW_WCS VIEW_WCS) with true
    |change (CoordView_beq VIEW_MCS VIEW_WCS) with false];
    cbv iota; destruct (d <=? 1200); reflexivity.
Qed.

Lemma X17_witness :
  shownPosition (uadd 1000 1200)
    (fst (dispatch "POS:WCS,X,1.5,Y,2,Z,-3" 1000 1000 initState))
  = (MkXYZ (3 # 2) 2 (-3), true)
  /\ shownPosition (uadd 1000 1201)
       (fst (dispatch "POS:WCS,X,1.5,Y,2,Z,-3" 1000 1000 initState))
     = (MkXYZ 0 0 0, false).
Proof.
  assert (A : 0 <= 1000 < 2 ^ 32) by (change (2 ^ 32) with 4294967296; lia).
  assert (B : 0 <= 1200 < 2 ^ 32) by (change (2 ^ 32) with 4294967296; lia).
  assert (C : 0 <= 1201 < 2 ^ 32) by (change (2 ^ 32) with 4294967296; lia).
  assert (P : parseXYZ (removeSpaces "X,1.5,Y,2,Z,-3") = Some (MkXYZ (3 # 2) 2 (-3)))
    by (vm_compute; reflexivity).
  split.
  - exact (proj1 (X17_host_position_shown_while_fresh "X,1.5,Y,2,Z,-3" 1000 1000
                    1200 initState _ P A B) eq_refl).
  - exact (proj1 (X17_host_position_shown_while_fresh "X,1.5,Y,2,Z,-3" 1000 1000
                    1201 initState _ P A C) eq_refl).
Defined.

(** ** Setting the local position *)

Lemma drop_app p t : drop (String.length p) (p ++ t) = t.
Proof. induction p as [|a p IH]; [now destruct t | exact IH]. Qed.

(** [indexOf] from the end of a known prefix. *)
Lemma indexOf_app q p a t :
  Z.of_nat (String.length p) < 2 ^ 32 ->
  indexOf q (Z.of_nat (String.length p)) (p ++ String a t)
  = match strstr q (String a t) with
    | Some k => Z.of_nat (String.length p) + Z.of_nat k
    | None => -1
    end.
Proof.
  intros Hp. unfold indexOf, uint, len.
  rewrite Z.mod_small by lia.
  rewrite length_app, Nat2Z.inj_add. cbn [String.length].
  destruct (Z.leb_spec (Z.of_nat (String.length p)
                        + Z.of_nat (S (String.length t)))
                       (Z.of_nat (String.length p))) as [H|H]; [lia|].
  now rewrite Nat2Z.id, drop_app.
Qed.

Lemma indexOf_end q p :
  Z.of_nat (String.length p) < 2 ^ 32 ->
  indexOf q (Z.of_nat (String.length p)) p = -1.
Proof.
  intros Hp. unfold indexOf, uint, len.
  rewrite Z.mod_small by lia. now rewrite Z.leb_refl.
Qed.

Lemma charAt_app p a t :
  Z.of_nat (String.length p) < 2 ^ 32 ->
  charAt (Z.of_nat (String.length p)) (p ++ String a t) = a.
Proof.
  intros Hp. unfold charAt, uint, len.
  rewrite Z.mod_small by lia.
  rewrite length_app, Nat2Z.inj_add. cbn [String.length].
  destruct (Z.leb_spec (Z.of_nat (String.length p)
                        + Z.of_nat (S (String.length t)))
                       (Z.of_nat (String.length p))) as [H|H]; [lia|].
  rewrite Nat2Z.id. clear. induction p as [|b p IH]; [reflexivity | exact IH].
Qed.

Lemma strstr_comma_next a v :
  a <> ","%char -> strstr "," (String a (String "," v)) = Some 1%nat.
Proof.
  intros H. cbn [strstr String.prefix].
  destruct (ascii_dec "," a) as [E|_]; [now elim H|].
  destruct (ascii_dec "," ",") as [_|N]; [|now elim N].
  now destruct v.
Qed.

(** The line the desktop application sends: an empty field, the axis
    letter, the value. *)
Lemma onPosSet_app a v s :
  a <> ","%char ->
  onPosSet ("POS:SET,," ++ String a (String "," v)) s
  = (set_needsAxisRedraw true
       (if Ascii.eqb a "X" then set_xPosition (toFloat v) s
        else if Ascii.eqb a "Y" then set_yPosition (toFloat v) s
        else if Ascii.eqb a "Z" then set_zPosition (toFloat v) s
        else s), []).
Proof.
  intros H. unfold onPosSet.
  assert (A : indexOf "," 8 ("POS:SET,," ++ String a (String "," v)) = 8).
  { change ("POS:SET,," ++ String a (String "," v))%string
      with ("POS:SET," ++ String "," (String a (String "," v)))%string.
    change 8 with (Z.of_nat (String.length "POS:SET,")) at 1.
    rewrite indexOf_app by reflexivity. reflexivity. }
  rewrite A. change (8 + 1) with 9.
  assert (B : indexOf "," 9 ("POS:SET,," ++ String a (String "," v)) = 10).
  { change 9 with (Z.of_nat (String.length "POS:SET,,")) at 1.
    rewrite indexOf_app by reflexivity.
    now rewrite strstr_comma_next. }
  rewrite B. change (10 + 1) with 11.
  change ((8 >? 0) && (10 >? 0)) with true. cbv iota.
  assert (C : charAt 9 ("POS:SET,," ++ String a (String "," v)) = a).
  { change 9 with (Z.of_nat (String.length "POS:SET,,")) at 1.
    now apply charAt_app. }
  assert (D : substrFrom 11 ("POS:SET,," ++ String a (String "," v)) = v).
  { change ("POS:SET,," ++ String a (String "," v))%string
      with ((String.append "POS:SET,," (String a ",")) ++ v)%string.
    change 11 with (Z.of_nat (String.length (String.append "POS:SET,," (String a ",")))).
    apply substrFrom_app. reflexivity. }
  rewrite C, D. reflexivity.
Qed.

Lemma dispatch_posSet rest now now2 s :
  dispatch ("POS:SET," ++ rest) now now2 s = onPosSet ("POS:SET," ++ rest) s.
Proof.
  unfold dispatch. decide_guards.
  rewrite (startsWith_app "POS:SET," rest). reflexivity.
Qed.

(** X18. Setting a local position the way the desktop application does
    it.  The line [POS:SET,,<axis>,<value>] stores the value [toFloat]
    reads on the named axis and leaves the other two, so that [POS:GET]
    answers with it.  The shorter line [POS:SET,<axis>,<value>], whose
    value has no comma, sets nothing: the decoder looks for two commas
    after the eighth character. *)
Theorem X18_position_set_then_get :
  forall v now now2 s,
    strstr "," v = None ->
    snd (dispatch "POS:GET" now now2
           (fst (dispatch ("POS:SET,,X," ++ v) now now2 s)))
    = [Printf "POS:X,%.4f" [AFloat (toFloat v)];
       Printf "POS:Y,%.4f" [AFloat (yPosition (pos s))];
       Printf "POS:Z,%.4f" [AFloat (zPosition (pos s))]]
    /\ snd (dispatch "POS:GET" now now2
              (fst (dispatch ("POS:SET,,Y," ++ v) now now2 s)))
       = [Printf "POS:X,%.4f" [AFloat (xPosition (pos s))];
          Printf "POS:Y,%.4f" [AFloat (toFloat v)];
          Printf "POS:Z,%.4f" [AFloat (zPosition (pos s))]]
    /\ snd (dispatch "POS:GET" now now2
              (fst (dispatch ("POS:SET,,Z," ++ v) now now2 s)))
       = [Printf "POS:X,%.4f" [AFloat (xPosition (pos s))];
          Printf "POS:Y,%.4f" [AFloat (yPosition (pos s))];
          Printf "POS:Z,%.4f" [AFloat (toFloat v)]]
    /\ dispatch ("POS:SET,X," ++ v) now now2 s = (s, []).
Proof.
  intros v now now2 s N.
  assert (G : forall s', dispatch "POS:GET" now now2 s' = onPosGet s')
    by (intros s'; unfold dispatch; decide_guards; reflexivity).
  rewrite !G.
  change ("POS:SET,,X," ++ v)%string with ("POS:SET," ++ ("," ++ String "X" (String "," v)))%string.
  change ("POS:SET,,Y," ++ v)%string with ("POS:SET," ++ ("," ++ String "Y" (String "," v)))%string.
  change ("POS:SET,,Z," ++ v)%string with ("POS:SET," ++ ("," ++ String "Z" (String "," v)))%string.
  rewrite !dispatch_posSet.
  change ("POS:SET," ++ ("," ++ String "X" (String "," v)))%string
    with ("POS:SET,," ++ String "X" (String "," v))%string.
  change ("POS:SET," ++ ("," ++ String "Y" (String "," v)))%string
    with ("POS:SET,," ++ String "Y" (String "," v))%string.
  change ("POS:SET," ++ ("," ++ String "Z" (String "," v)))%string
    with ("POS:SET,," ++ String "Z" (String "," v))%string.
  rewrite !onPosSet_app by discriminate.
  split; [reflexivity|]. split; [reflexivity|]. split; [reflexivity|].
  change ("POS:SET,X," ++ v)%string
    with ("POS:SET," ++ String "X" (String "," v))%string.
  rewrite dispatch_posSet. unfold onPosSet.
  assert (A : indexOf "," 8 ("POS:SET," ++ String "X" (String "," v)) = 9).
  { change 8 with (Z.of_nat (String.length "POS:SET,")) at 1.
    rewrite indexOf_app by reflexivity.
    now rewrite strstr_comma_next. }
  rewrite A. change (9 + 1) with 10.
  assert (B : indexOf "," 10 ("POS:SET," ++ String "X" (String "," v)) = -1).
  { change ("POS:SET," ++ String "X" (String "," v))%string
      with ("POS:SET,X," ++ v)%string.
    change 10 with (Z.of_nat (String.length "POS:SET,X,")) at 1.
    destruct v as [|b v'].
    - now apply indexOf_end.
    - rewrite indexOf_app by reflexivity. now rewrite N. }
  rewrite B. reflexivity.
Qed.

Lemma X18_witness :
  snd (dispatch "POS:GET" 1000 1000
         (fst (dispatch "POS:SET,,X,12.5" 1000 1000 initState)))
  = [Printf "POS:X,%.4f" [AFloat (25 # 2)];
     Printf "POS:Y,%.4f" [AFloat 0];
     Printf "POS:Z,%.4f" [AFloat 0]]
  /\ dispatch "POS:SET,X,12.5" 1000 1000 initState = (initState, []).
Proof.
  destruct (X18_position_set_then_get "12.5" 1000 1000 initState eq_refl)
    as (A & _ & _ & D).
  split; [exact A | exact D].
Defined.

(** ** Colours *)

Lemma uint16_range c : 0 <= uint16 c < 65536.
Proof. unfold uint16. apply Z.mod_pos_bound. lia. Qed.

Lemma in_zrange n x :
  0 <= x < Z.of_nat n -> In x (map Z.of_nat (seq 0 n)).
Proof.
  intros H. apply in_map_iff. exists (Z.to_nat x). split; [lia|].
  apply in_seq. lia.
Qed.

(** The check over all 65536 colours, by red, green and blue field. *)
Lemma rgb565_round_trip_all :
  forallb (fun r =>
    forallb (fun g =>
      forallb (fun b =>
        let c := r * 2048 + g * 32 + b in
        let '(r8, g8, b8) := c565_to_rgb8 c in rgb8_to_565 r8 g8 b8 =? c)
        (map Z.of_nat (seq 0 32)))
      (map Z.of_nat (seq 0 64)))
    (map Z.of_nat (seq 0 32)) = true.
Proof. vm_compute. reflexivity. Qed.

Lemma rgb565_round_trip c :
  let '(r, g, b) := c565_to_rgb8 c in rgb8_to_565 r g b = uint16 c.
Proof.
  assert (E : c565_to_rgb8 c = c565_to_rgb8 (uint16 c)).
  { unfold c565_to_rgb8, uint16. now rewrite Z.mod_mod by lia. }
  rewrite E. pose proof (uint16_range c) as R.
  set (u := uint16 c) in *. clearbody u. clear E.
  pose proof rgb565_round_trip_all as A.
  rewrite forallb_forall in A.
  assert (D1 : u = 32 * (u / 32) + u mod 32) by (apply Z.div_mod; lia).
  assert (D2 : u / 32 = 64 * (u / 32 / 64) + (u / 32) mod 64)
    by (apply Z.div_mod; lia).
  assert (B1 : 0 <= u mod 32 < 32) by (apply Z.mod_pos_bound; lia).
  assert (B2 : 0 <= (u / 32) mod 64 < 64) by (apply Z.mod_pos_bound; lia).
  assert (B3 : 0 <= u / 32 / 64 < 32).
  { split.
    - apply Z.div_pos; [apply Z.div_pos|]; lia.
    - apply Z.div_lt_upper_bound; [lia|].
      apply Z.div_lt_upper_bound; lia. }
  specialize (A (u / 32 / 64) (in_zrange 32 _ B3)).
  rewrite forallb_forall in A.
  specialize (A ((u / 32) mod 64) (in_zrange 64 _ B2)).
  rewrite forallb_forall in A.
  specialize (A (u mod 32) (in_zrange 32 _ B1)).
  cbv zeta in A.
  replace (u / 32 / 64 * 2048 + (u / 32) mod 64 * 32 + u mod 32) with u in A
    by lia.
  destruct (c565_to_rgb8 u) as [[r g] b].
  now apply Z.eqb_eq.
Qed.

(** X19. Unpacking a 16-bit colour into its three 8-bit channels and
    packing them again gives the colour back; the channels are bytes. *)
Theorem X19_rgb565_round_trip :
  forall c,
    let '(r, g, b) := c565_to_rgb8 c in
    rgb8_to_565 r g b = uint16 c
    /\ 0 <= r < 256 /\ 0 <= g < 256 /\ 0 <= b < 256.
Proof.
  intros c. pose proof (rgb565_round_trip c) as R.
  destruct (c565_to_rgb8 c) as [[r g] b] eqn:E.
  split; [exact R|].
  unfold c565_to_rgb8 in E. injection E as <- <- <-.
  repeat split; apply Z.mod_pos_bound; lia.
Qed.

Lemma uint8_range v : 0 <= uint8 v < 256.
Proof. unfold uint8. apply Z.mod_pos_bound. lia. Qed.

Lemma mix_same r a : 0 <= r < 256 -> uint8 ((r * a + r * (255 - a)) / 255) = r.
Proof.
  intros H. replace (r * a + r * (255 - a)) with (r * 255) by lia.
  rewrite Z.div_mul by lia. unfold uint8. apply Z.mod_small. lia.
Qed.

(** X20. Blending a colour over itself gives that colour for every
    opacity; opacity 255 gives the foreground and opacity 0 the
    background. *)
Theorem X20_blend565_fixed_points :
  forall fg bg a,
    blend565 fg fg a = uint16 fg
    /\ blend565 fg bg 255 = uint16 fg
    /\ blend565 fg bg 0 = uint16 bg.
Proof.
  intros fg bg a. split; [|split; reflexivity].
  unfold blend565.
  destruct (uint8 a =? 255); [reflexivity|].
  destruct (uint8 a =? 0); [reflexivity|].
  pose proof (rgb565_round_trip fg) as R.
  destruct (c565_to_rgb8 fg) as [[r g] b] eqn:E.
  assert (Hr : 0 <= r < 256 /\ 0 <= g < 256 /\ 0 <= b < 256).
  { unfold c565_to_rgb8 in E. injection E as <- <- <-.
    repeat split; apply uint8_range. }
  destruct Hr as (Hr & Hg & Hb).
  rewrite !mix_same by assumption. exact R.
Qed.

(** ** Host motion state *)

Lemma dispatch_motionState t now now2 s :
  dispatch ("MOTION:STATE," ++ t) now now2 s
  = onMotionState ("MOTION:STATE," ++ t) s.
Proof.
  unfold dispatch. decide_guards.
  rewrite (startsWith_app "MOTION:STATE," t). reflexivity.
Qed.

(** X21. A [MOTION:STATE,] line sets the host motion state to running
    for [RUN], to hold for [HOLD] and to idle for any other text, known
    or not; it touches neither the arming flag nor the heartbeat.  So the
    motion gate after the line is open exactly when the pendant is armed,
    the heartbeat is fresh and the text is neither [RUN] nor [HOLD]. *)
Theorem X21_unknown_motion_state_is_idle :
  forall t now now2 now' s,
    let s' := fst (dispatch ("MOTION:STATE," ++ t) now now2 s) in
    hostMotionState (safety s')
    = (if t == "RUN" then MS_RUN else if t == "HOLD" then MS_HOLD else MS_IDLE)
    /\ hostGate now' s'
       = hostArmed (safety s)
         && (usub now' (lastHostPing (safety s)) <=? HOST_TIMEOUT_MS)
         && negb (t == "RUN") && negb (t == "HOLD").
Proof.
  intros t now now2 now' s. cbv zeta.
  rewrite dispatch_motionState. unfold onMotionState.
  assert (S13 : substrFrom 13 ("MOTION:STATE," ++ t) = t)
    by (apply (substrFrom_app "MOTION:STATE," t); reflexivity).
  rewrite S13.
  set (nm := if t == "RUN" then MS_RUN else if t == "HOLD" then MS_HOLD else MS_IDLE).
  assert (I : MotionState_beq nm MS_IDLE = negb (t == "RUN") && negb (t == "HOLD")).
  { subst nm. destruct (t == "RUN"); [reflexivity|].
    destruct (t == "HOLD"); reflexivity. }
  assert (M : hostMotionState
                (safety (fst (if negb (MotionState_beq nm (hostMotionState (safety s)))
                              then (set_hostMotionState nm s,
                                    [Printf "MOTION:%s" [AStr t]])
                              else (s, [])))) = nm).
  { destruct (MotionState_beq nm (hostMotionState (safety s))) eqn:E;
      cbn [negb fst]; [|reflexivity].
    destruct nm, (hostMotionState (safety s)); first [reflexivity | discriminate]. }
  split; [exact M|].
  unfold hostGate. rewrite M, I, andb_assoc.
  destruct (negb (MotionState_beq nm (hostMotionState (safety s)))); reflexivity.
Qed.

(** ** The lock inside the jog sender *)

(** X23. The lock check lives in [sendUniversalJogCommand] only.  When
    [handleEncoder] runs with the lock on, a scaled movement ready and the
    host gate open, the jog line is replaced by [ESTOP:MOTION_BLOCKED],
    but with the LANGMUIR dialect the key press and release lines are
    still printed after it. *)
Theorem X23_key_lines_not_covered_by_lock :
  forall encB now s,
    scaledMovementOf encB s <> 0 ->
    hostGate now s = true ->
    systemLocked (safety s) = true ->
    currentProtocol (sel s) = PROTOCOL_LANGMUIR ->
    let out := snd (handleEncoder encB now s) in
    hd_error out = Some (Println "ESTOP:MOTION_BLOCKED")
    /\ existsb is_jog out = false
    /\ existsb is_jog_key out = true.
Proof.
  intros encB now s H1 H2 L P. cbv zeta.
  unfold scaledMovementOf, rawMovementOf in H1. unfold handleEncoder.
  destruct (encAedges (enc s) =? 0); [easy|].
  destruct (_ - _ =? 0) eqn:E; [easy|].
  apply Z.eqb_neq in H1. rewrite H1.
  match goal with |- context [hostGate now ?t] => set (s3 := t) end.
  assert (G : hostGate now s3 = hostGate now s) by reflexivity.
  rewrite G, H2. cbn [negb].
  match goal with |- context [updatePositionTracking ?a s3] =>
    set (s4 := updatePositionTracking a s3);
    destruct (updatePositionTracking_frame a s3) as (F1 & F2 & _)
  end.
  fold s4 in F1, F2.
  assert (L4 : systemLocked (safety s4) = true) by (rewrite F1; exact L).
  assert (P4 : currentProtocol (sel s4) = PROTOCOL_LANGMUIR)
    by (rewrite F2; exact P).
  cbn [snd]. unfold sendUniversalJogCommand, legacyKeys.
  rewrite L4, P4. cbn [orb].
  change (CommProtocol_beq PROTOCOL_LANGMUIR PROTOCOL_LANGMUIR) with true.
  cbv iota.
  destruct (currentAxis (sel s4)), (_ >? 0); repeat split; reflexivity.
Qed.

Lemma X23_witness :
  let out := snd (handleEncoder true 1000 estopHeld) in
  hd_error out = Some (Println "ESTOP:MOTION_BLOCKED")
  /\ existsb is_jog out = false
  /\ existsb is_jog_key out = true.
Proof.
  apply X23_key_lines_not_covered_by_lock;
    [vm_compute; discriminate | reflexivity | reflexivity | reflexivity].
Defined.

(** ** When an iteration prints a motion command *)

Lemma EstopState_beq_eq a b : EstopState_beq a b = true <-> a = b.
Proof. destruct a, b; cbn; split; intros H; congruence. Qed.

Lemma MotionState_beq_eq a b : MotionState_beq a b = true <-> a = b.
Proof. destruct a, b; cbn; split; intros H; congruence. Qed.

(** X24. From any state in which the lock flag agrees with the E-stop
    state, an iteration of [loop] prints a motion command (a jog line or
    a jog key line) if and only if, after its input handlers, the power
    state is active, the E-stop state is released, the pendant is armed,
    the heartbeat is at most 3500 ms old at the encoder step, the host is
    idle and the encoder has a whole scaled step to give.  The view mode
    plays no part: the knob jogs while the help overlay is shown. *)
Theorem X24_when_motion_is_printed :
  forall i s,
    lockExact s = true ->
    let s1 := fst (inputPhase i s) in
    emitsMotion (snd (loop i s)) = true
    <-> (currentPowerState (pwr s1) = POWER_ACTIVE
         /\ currentEstopState (safety s1) = ESTOP_RELEASED
         /\ hostArmed (safety s1) = true
         /\ usub (t_enc i) (lastHostPing (safety s1)) <= 3500
         /\ hostMotionState (safety s1) = MS_IDLE
         /\ scaledMovementOf (pin_encB i) s1 <> 0).
Proof.
  intros i s L. cbv zeta.
  rewrite (loop_motion_gate i s L).
  unfold hostGate, estopReleased, HOST_TIMEOUT_MS.
  rewrite !andb_true_iff, negb_true_iff, Z.eqb_neq, Z.leb_le.
  rewrite power_beq_eq, EstopState_beq_eq, MotionState_beq_eq.
  tauto.
Qed.

Lemma X24_witness :
  let s := fst (run [withLines ["ARM:ENABLE"] (idleAt 2000)] initState) in
  let help := handleBothButtons false false 2200
                (handleBothButtons false false 500 s) in
  currentViewMode (sel help) = VIEW_HELP
  /\ emitsMotion
       (snd (loop (withEdges [10000; 20000; 30000] (idleAt 2500)) help)) = true.
Proof.
  cbv zeta. split; [reflexivity|].
  apply X24_when_motion_is_printed.
  - vm_compute. reflexivity.
  - vm_compute. repeat split; discriminate.
Defined.
